(** * Diet-plan backend ([backend/app.py]): a shallow embedding

    The file follows the Python module top-down: the numeric tower the code
    computes with (binary64 floats, unbounded ints, the built-in [round]),
    the JSON values a request carries, the methods of [DietPlanGenerator],
    and the [/api/generate-diet-plan] endpoint.  Python exceptions are an
    error result; the two effects of the module, [random.choice] and the
    single [requests.post], are threaded through an explicit [world]. *)

From Stdlib Require Import ZArith String Ascii Bool Lia List.
From Stdlib Require Import Floats.SpecFloat.
From Stdlib Require Import Reals Lra.
From stdpp Require Import base option gmap strings list pretty.

Set Warnings "-register-all,-clear-no-such-hyp".

Local Open Scope string_scope.
Local Open Scope list_scope.
Local Open Scope Z_scope.

(** ** Exceptions *)

Inductive exn :=
| AttributeError
| ConnectionError
| IndexError
| KeyError
| OverflowError
| TypeError
| UnboundLocalError
| ValueError
| ZeroDivisionError.

Inductive result (A : Type) : Type :=
| Ok (a : A)
| Raise (e : exn).
Arguments Ok {A} a.
Arguments Raise {A} e.

#[global] Instance result_ret : MRet result := fun A a => Ok a.
#[global] Instance result_bind : MBind result := fun A B k c =>
  match c with
  | Ok a => k a
  | Raise e => Raise e
  end.
#[global] Instance result_fmap : FMap result := fun A B f c =>
  match c with
  | Ok a => Ok (f a)
  | Raise e => Raise e
  end.

(** ** Python floats: IEEE 754 binary64, round to nearest even

    A float is a [spec_float] in canonical form.  The arithmetic
    operations are the exact operation on the dyadic values followed by one
    rounding, [rnd]; on zeros, infinities and NaN they are the Standard
    Library's. *)

Module Float.

Definition prec : Z := 53.
Definition emax : Z := 1024.
Abbreviation float := spec_float.

(** The integer nearest to [p / q] ([q] positive), ties to the even one. *)
Definition nearest_even (p q : Z) : Z :=
  let k := p / q in
  match 2 * (p mod q) ?= q with
  | Lt => k
  | Gt => k + 1
  | Eq => if Z.even k then k else k + 1
  end.

(** [m * 2^e] rounded to the nearest integer, ties to the even one. *)
Definition half_even (m : Z) (e : Z) : Z :=
  if 0 <=? e then m * 2 ^ e else nearest_even m (2 ^ (- e)).

(** The exponent of the leading bit of [p / q] ([p], [q] positive). *)
Definition ilog2_ratio (p q : Z) : Z :=
  let l := Z.log2 p - Z.log2 q in
  if (if 0 <=? l then q * 2 ^ l <=? p else q <=? p * 2 ^ (- l)) then l else l - 1.

(** [p / q * 2^e] ([p], [q] positive) rounded to the nearest double of
    sign [s]: a multiple of [2^u], where [u] is the weight of the last of
    53 bits, and no less than that of the subnormals. *)
Definition rnd (s : bool) (p q : Z) (e : Z) : float :=
  let u := Z.max (ilog2_ratio p q + e - (prec - 1)) (3 - emax - prec) in
  let t := e - u in
  let m := if 0 <=? t then nearest_even (p * 2 ^ t) q
           else nearest_even p (q * 2 ^ (- t)) in
  let '(m, u) := if m =? 2 ^ prec then (2 ^ (prec - 1), u + 1) else (m, u) in
  match m with
  | Zpos mantissa =>
      if u <=? emax - prec then S754_finite s mantissa u else S754_infinity s
  | _ => S754_zero s
  end.

Definition signed (s : bool) (z : Z) : Z := if s then - z else z.

(** The double nearest to [z * 2^e]. *)
Definition of_dyadic (z : Z) (e : Z) : float :=
  match z with
  | Z0 => S754_zero false
  | Zpos p => rnd false (Zpos p) 1 e
  | Zneg p => rnd true (Zpos p) 1 e
  end.

Definition mul (x y : float) : float :=
  match x, y with
  | S754_finite sx mx ex, S754_finite sy my ey =>
      rnd (xorb sx sy) (Zpos mx * Zpos my) 1 (ex + ey)
  | _, _ => SFmul prec emax x y
  end.

Definition div (x y : float) : float :=
  match x, y with
  | S754_finite sx mx ex, S754_finite sy my ey =>
      rnd (xorb sx sy) (Zpos mx) (Zpos my) (ex - ey)
  | _, _ => SFdiv prec emax x y
  end.

Definition add (x y : float) : float :=
  match x, y with
  | S754_finite sx mx ex, S754_finite sy my ey =>
      let e := Z.min ex ey in
      of_dyadic (signed sx (Zpos mx * 2 ^ (ex - e))
                 + signed sy (Zpos my * 2 ^ (ey - e))) e
  | _, _ => SFadd prec emax x y
  end.

Definition sub (x y : float) : float :=
  match x, y with
  | S754_finite sx mx ex, S754_finite sy my ey =>
      let e := Z.min ex ey in
      of_dyadic (signed sx (Zpos mx * 2 ^ (ex - e))
                 - signed sy (Zpos my * 2 ^ (ey - e))) e
  | _, _ => SFsub prec emax x y
  end.

Definition ltb : float -> float -> bool := SFltb.

(** [float(z)] up to overflow: the double nearest to the integer. *)
Definition of_Z (z : Z) : float := of_dyadic z 0.

(** The correctly rounded quotient of two integers ([b] nonzero): what
    Python's [a / b] on ints and a decimal literal both denote. *)
Definition ratio (a b : Z) : float :=
  match a with
  | Z0 => S754_zero (b <? 0)
  | _ => rnd (xorb (a <? 0) (b <? 0)) (Z.abs a) (Z.abs b) 0
  end.

(** The literal with decimal digits [digits] and [places] fractional
    places: [lit 88362 3] is [88.362]. *)
Definition lit (digits : Z) (places : Z) : float := ratio digits (10 ^ places).

Definition is_zero (x : float) : bool :=
  match x with
  | S754_zero _ => true
  | _ => false
  end.

(** [m * 2^e] truncated towards zero ([m] non-negative). *)
Definition truncate (m : Z) (e : Z) : Z :=
  if 0 <=? e then m * 2 ^ e else m / 2 ^ (- e).

(** [round(x)]: an int; NaN and the infinities have none. *)
Definition round (x : float) : result Z :=
  match x with
  | S754_nan => Raise ValueError
  | S754_infinity _ => Raise OverflowError
  | S754_zero _ => Ok 0
  | S754_finite s m e => Ok (signed s (half_even (Zpos m) e))
  end.

(** [round(x, 1)]: the double nearest to the decimal with one fractional
    digit nearest to [x] (ties to the even digit); a float again, and
    NaN and the infinities are returned as they are. *)
Definition round1 (x : float) : float :=
  match x with
  | S754_finite s m e =>
      let k := half_even (10 * Zpos m) e in
      if k =? 0 then S754_zero s else ratio (signed s k) 10
  | _ => x
  end.

(** [int(x)] on a float. *)
Definition to_int (x : float) : result Z :=
  match x with
  | S754_nan => Raise ValueError
  | S754_infinity _ => Raise OverflowError
  | S754_zero _ => Ok 0
  | S754_finite s m e => Ok (signed s (truncate (Zpos m) e))
  end.

(** The C library.  [x ** 2] on floats ends in the library's [pow], which
    is not correctly rounded and differs from one platform to the next: it
    is a parameter of the embedding.  [libm_pow x y] is the double that
    [pow(x, y)] returns, with what the call leaves in [errno]. *)
Inductive errno :=
| NoError
| ERANGE
| OtherError.

Class Libm := libm_pow : float -> float -> float * errno.

(** The macro [_Py_ADJUST_ERANGE1]: an infinite result is a range error
    whatever the library said, and a zero result is none. *)
Definition adjust_erange (ix : float) (e : errno) : errno :=
  match e with
  | NoError =>
      match ix with
      | S754_infinity _ => ERANGE
      | _ => NoError
      end
  | ERANGE => if is_zero ix then NoError else ERANGE
  | OtherError => OtherError
  end.

(** [x ** 2] on a float: [float_pow] of the interpreter at the exponent
    [2.0].  NaN, the infinities and the zeros are answered without the
    library; a negative base gives way to its absolute value, the
    exponent being even; [1.0] is answered as it is; every other base goes
    to [pow], and an error number left there raises. *)
Definition pow2 {libm : Libm} (x : float) : result float :=
  match x with
  | S754_nan => Ok S754_nan
  | S754_infinity _ => Ok (S754_infinity false)
  | S754_zero _ => Ok (S754_zero false)
  | S754_finite _ m e =>
      let iv := S754_finite false m e in
      if SFeqb iv (of_Z 1) then Ok (of_Z 1)
      else
        let '(ix, err) := libm_pow iv (of_Z 2) in
        match adjust_erange ix err with
        | NoError => Ok ix
        | ERANGE => Raise OverflowError
        | OtherError => Raise ValueError
        end
  end.

(** [x / y] on floats. *)
Definition truediv (x y : float) : result float :=
  if is_zero y then Raise ZeroDivisionError else Ok (div x y).

End Float.

Abbreviation float := Float.float.

(** ** JSON values as Python objects *)

Inductive pyval :=
| PNone
| PBool (b : bool)
| PInt (z : Z)
| PFloat (f : float)
| PStr (s : string)
| PList (l : list pyval)
| PDict (d : gmap string pyval).

(** Conversion of a number to a double, as the float operators do with
    an int or bool operand. *)
Definition int_to_double (z : Z) : result float :=
  match Float.of_Z z with
  | S754_infinity _ => Raise OverflowError
  | f => Ok f
  end.

Definition to_double (v : pyval) : result float :=
  match v with
  | PFloat f => Ok f
  | PInt z => int_to_double z
  | PBool b => Ok (Float.of_Z (if b then 1 else 0))
  | _ => Raise TypeError
  end.

(** [c * v] and [v / n] for a float literal [c] and an int literal [n]. *)
Definition float_mul (c : float) (v : pyval) : result float :=
  x ← to_double v; Ok (Float.mul c x).

(** [a / n] on ints. *)
Definition int_truediv (a n : Z) : result float :=
  if n =? 0 then Raise ZeroDivisionError
  else match Float.ratio a n with
       | S754_infinity _ => Raise OverflowError
       | f => Ok f
       end.

Definition div_by_int (v : pyval) (n : Z) : result float :=
  match v with
  | PFloat f => Float.truediv f (Float.of_Z n)
  | PInt z => int_truediv z n
  | PBool b => int_truediv (if b then 1 else 0) n
  | _ => Raise TypeError
  end.

(** [int(v)]; the parsing of a string is left to [parse_int]. *)
Definition py_int (parse_int : string -> result Z) (v : pyval) : result Z :=
  match v with
  | PInt z => Ok z
  | PBool b => Ok (if b then 1 else 0)
  | PFloat f => Float.to_int f
  | PStr s => parse_int s
  | _ => Raise TypeError
  end.

(** [v == s] for a string literal [s]. *)
Definition py_eq_str (v : pyval) (s : string) : bool :=
  match v with
  | PStr t => String.eqb t s
  | _ => false
  end.

(** [container[key]] for a string key. *)
Definition getitem (container : pyval) (key : string) : result pyval :=
  match container with
  | PDict d =>
      match d !! key with
      | Some v => Ok v
      | None => Raise KeyError
      end
  | _ => Raise TypeError
  end.

(** [s in t] on strings. *)
Definition is_substring (s t : string) : bool :=
  match String.index 0 s t with
  | Some _ => true
  | None => false
  end.

(** [key in container] for a string key. *)
Definition py_in (key : string) (container : pyval) : result bool :=
  match container with
  | PDict d => Ok (bool_decide (is_Some (d !! key)))
  | PList l => Ok (existsb (fun v => py_eq_str v key) l)
  | PStr t => Ok (is_substring key t)
  | _ => Raise TypeError
  end.

(** [str.lower] on the ASCII letters; no character outside ASCII lowers
    to an ASCII letter, so comparisons with ASCII literals are unaffected. *)
Definition lower_char (c : ascii) : ascii :=
  let n := nat_of_ascii c in
  if ((65 <=? n) && (n <=? 90))%nat then ascii_of_nat (n + 32) else c.

Fixpoint lower (s : string) : string :=
  match s with
  | EmptyString => EmptyString
  | String c rest => String (lower_char c) (lower rest)
  end.

(** A str is held as its UTF-8 encoding: a character is a byte that is
    not a continuation byte ([10xxxxxx]) with the continuation bytes that
    follow it. *)
Definition is_continuation (c : ascii) : bool :=
  match c with
  | Ascii _ _ _ _ _ _ b6 b7 => b7 && negb b6
  end.

(** [len(s)] on a str: the number of its characters. *)
Fixpoint str_len (s : string) : nat :=
  match s with
  | EmptyString => 0
  | String c rest => if is_continuation c then str_len rest else S (str_len rest)
  end.

(** [s[:n]] on a str: its first [n] characters. *)
Fixpoint str_take (n : nat) (s : string) : string :=
  match s with
  | EmptyString => EmptyString
  | String c rest =>
      if is_continuation c then String c (str_take n rest)
      else match n with
           | O => EmptyString
           | S k => String c (str_take k rest)
           end
  end.

Definition str_lower (v : pyval) : result string :=
  match v with
  | PStr s => Ok (lower s)
  | _ => Raise AttributeError
  end.

(** ** [DietPlanGenerator]: the metrics *)

Definition calculate_bmr (weight height age gender : pyval) : result Z :=
  g ← str_lower gender;
  bmr ← (if String.eqb g "male" then
           w ← float_mul (Float.lit 13397 3) weight;
           h ← float_mul (Float.lit 4799 3) height;
           a ← float_mul (Float.lit 5677 3) age;
           Ok (Float.sub (Float.add (Float.add (Float.lit 88362 3) w) h) a)
         else
           w ← float_mul (Float.lit 9247 3) weight;
           h ← float_mul (Float.lit 3098 3) height;
           a ← float_mul (Float.lit 4330 3) age;
           Ok (Float.sub (Float.add (Float.add (Float.lit 447593 3) w) h) a));
  Float.round bmr.

Definition calculate_bmi {libm : Float.Libm} (weight height : pyval) : result float :=
  height_m ← div_by_int height 100;
  squared ← Float.pow2 height_m;
  w ← to_double weight;
  bmi ← Float.truediv w squared;
  Ok (Float.round1 bmi).

Definition get_bmi_category (bmi : float) : string * string :=
  if Float.ltb bmi (Float.lit 185 1) then
    ("Underweight", "Focus on healthy weight gain with nutrient-dense foods")
  else if Float.ltb bmi (Float.of_Z 25) then
    ("Normal Weight", "Maintain current weight with balanced nutrition")
  else if Float.ltb bmi (Float.of_Z 30) then
    ("Overweight", "Focus on gradual weight loss through caloric deficit")
  else
    ("Obese", "Consult healthcare provider, focus on sustainable weight loss").

(** ** The world outside the module *)

(** What [requests.post] did: it raised, or it returned a response with a
    status code and a body; [json] is [None] when [response.json()] raises. *)
Inductive http_outcome :=
| ConnectionFailed
| Responded (status_code : Z) (json : option pyval).

(** [draws] are the indices [random.choice] will be handed (reduced modulo
    the length of the list it picks from), [cursor] counts the ones
    consumed, [service] is the inference endpoint's answer to a prompt and
    [posts] logs every prompt posted to it. *)
Record world := {
  draws : nat -> nat;
  cursor : nat;
  service : string -> http_outcome;
  posts : list string
}.

Definition M (A : Type) : Type := world -> result A * world.

#[global] Instance M_ret : MRet M := fun A a w => (Ok a, w).
#[global] Instance M_bind : MBind M := fun A B k c w =>
  match c w with
  | (Ok a, w') => k a w'
  | (Raise e, w') => (Raise e, w')
  end.
#[global] Instance M_fmap : FMap M := fun A B f c w =>
  match c w with
  | (Ok a, w') => (Ok (f a), w')
  | (Raise e, w') => (Raise e, w')
  end.

Definition lift {A} (c : result A) : M A := fun w => (c, w).

(** [try: body except Exception: handler]. *)
Definition try_except {A} (body handler : M A) : M A := fun w =>
  match body w with
  | (Ok a, w') => (Ok a, w')
  | (Raise _, w') => handler w'
  end.

(** One draw consumed; one prompt logged. *)
Definition advance (w : world) : world :=
  {| draws := draws w; cursor := S (cursor w); service := service w; posts := posts w |}.

Definition log_post (prompt : string) (w : world) : world :=
  {| draws := draws w; cursor := cursor w; service := service w;
     posts := posts w ++ [prompt] |}.

(** [random.choice(options)]. *)
Definition choice (options : list string) : M string := fun w =>
  match options !! (draws w (cursor w) mod length options)%nat with
  | Some o => (Ok o, advance w)
  | None => (Raise IndexError, w)
  end.

(** [requests.post(api_url, headers=..., json=payload)]. *)
Definition requests_post (prompt : string) : M (Z * option pyval) := fun w =>
  match service w prompt with
  | ConnectionFailed => (Raise ConnectionError, log_post prompt w)
  | Responded status_code json => (Ok (status_code, json), log_post prompt w)
  end.

(** ** [DietPlanGenerator]: the plan *)

Record meal_slot := { meal : string; calories : Z }.

Record recommendation := { rec_type : string; message : string }.

Record macros := { protein : string; carbs : string; fats : string }.

Record user_info := {
  ui_name : pyval;
  ui_age : pyval;
  ui_gender : pyval;
  ui_weight : pyval;
  ui_height : pyval;
  ui_bmi : float;
  ui_bmi_category : string;
  ui_daily_calories : Z;
  ui_macros : macros
}.

Record meal_plan := {
  plan_user_info : user_info;
  weekly_plan : gmap string (gmap string meal_slot);
  recommendations : list recommendation;
  general_tips : list string
}.

Inductive diet_plan :=
| Fallback (plan : meal_plan)
| AIPlan (name : pyval) (bmi : float) (bmi_category : string) (daily_calories : Z)
         (ai_insights : pyval) (structured_plan : meal_plan).

(** [daily_calories * c] for a float literal [c]. *)
Definition int_times (daily_calories : Z) (c : float) : result float :=
  x ← int_to_double daily_calories; Ok (Float.mul x c).

(** [round(daily_calories * c)]. *)
Definition rounded_share (daily_calories : Z) (c : float) : result Z :=
  x ← int_times daily_calories c; Float.round x.

Definition breakfast_options : list string :=
  [ "Oatmeal with banana and almonds";
    "Greek yogurt with berries and granola";
    "Scrambled eggs with whole grain toast";
    "Protein smoothie with spinach and fruits" ].

Definition lunch_options : list string :=
  [ "Grilled chicken with quinoa and vegetables";
    "Lentil curry with brown rice";
    "Fish with sweet potato and broccoli";
    "Chickpea salad with mixed greens" ].

Definition dinner_options : list string :=
  [ "Lean beef with roasted vegetables";
    "Salmon with asparagus and wild rice";
    "Turkey meatballs with zucchini noodles";
    "Tofu stir-fry with brown rice" ].

Definition snack_options : list string :=
  [ "Apple with almond butter";
    "Mixed nuts and dried fruits";
    "Greek yogurt with honey";
    "Protein bar or shake" ].

Definition generate_daily_meals (daily_calories : Z) (user_data : pyval)
  : M (gmap string meal_slot) :=
  breakfast_cals ← lift (rounded_share daily_calories (Float.lit 25 2));
  snack1_cals ← lift (rounded_share daily_calories (Float.lit 10 2));
  lunch_cals ← lift (rounded_share daily_calories (Float.lit 30 2));
  snack2_cals ← lift (rounded_share daily_calories (Float.lit 10 2));
  dinner_cals ← lift (rounded_share daily_calories (Float.lit 25 2));
  breakfast ← choice breakfast_options;
  morning_snack ← choice snack_options;
  lunch ← choice lunch_options;
  afternoon_snack ← choice snack_options;
  dinner ← choice dinner_options;
  mret (list_to_map
    [ ("breakfast", {| meal := breakfast; calories := breakfast_cals |});
      ("morning_snack", {| meal := morning_snack; calories := snack1_cals |});
      ("lunch", {| meal := lunch; calories := lunch_cals |});
      ("afternoon_snack", {| meal := afternoon_snack; calories := snack2_cals |});
      ("dinner", {| meal := dinner; calories := dinner_cals |}) ]).

Definition smoking_warning : recommendation :=
  {| rec_type := "warning";
     message := "Smoking reduces oxygen delivery to muscles. Consider quitting for better workout performance and recovery." |}.

Definition smoking_advice : recommendation :=
  {| rec_type := "advice";
     message := "Increase Vitamin C intake (citrus fruits, bell peppers) to combat oxidative stress from smoking." |}.

Definition drinking_warning : recommendation :=
  {| rec_type := "warning";
     message := "Alcohol can interfere with muscle protein synthesis and recovery. Limit intake, especially around workout times." |}.

Definition drinking_advice : recommendation :=
  {| rec_type := "advice";
     message := "If you drink, ensure adequate hydration and consider B-complex vitamins to support metabolism." |}.

Definition young_info : recommendation :=
  {| rec_type := "info";
     message := "Focus on building healthy eating habits early. Your metabolism is naturally higher at this age." |}.

Definition mature_info : recommendation :=
  {| rec_type := "info";
     message := "Prioritize protein intake and calcium for bone health. Consider adding resistance training." |}.

Definition tips : list string :=
  [ "Drink 8-10 glasses of water daily";
    "Eat every 3-4 hours to maintain metabolism";
    "Include protein in every meal for muscle recovery";
    "Choose complex carbohydrates over simple sugars";
    "Eat your largest meal 2-3 hours before workouts";
    "Have a post-workout meal within 30 minutes";
    "Limit processed foods and added sugars" ].

Definition days : list string :=
  [ "Monday"; "Tuesday"; "Wednesday"; "Thursday"; "Friday"; "Saturday"; "Sunday" ].

(** Lines 137-139: the three calorie shares, as floats. *)
Definition macro_calories (daily_calories : Z) : result (float * float * float) :=
  protein_cals ← int_times daily_calories (Float.lit 25 2);
  carb_cals ← int_times daily_calories (Float.lit 45 2);
  fat_cals ← int_times daily_calories (Float.lit 30 2);
  Ok (protein_cals, carb_cals, fat_cals).

(** Lines 137-143: the three gram counts. *)
Definition macro_grams (daily_calories : Z) : result (Z * Z * Z) :=
  '(protein_cals, carb_cals, fat_cals) ← macro_calories daily_calories;
  protein_grams ← (q ← Float.truediv protein_cals (Float.of_Z 4); Float.round q);
  carb_grams ← (q ← Float.truediv carb_cals (Float.of_Z 4); Float.round q);
  fat_grams ← (q ← Float.truediv fat_cals (Float.of_Z 9); Float.round q);
  Ok (protein_grams, carb_grams, fat_grams).

(** The loop over [days], filling [meal_plan['weekly_plan']]. *)
Fixpoint fill_week (ds : list string) (daily_calories : Z) (user_data : pyval)
    (week : gmap string (gmap string meal_slot))
  : M (gmap string (gmap string meal_slot)) :=
  match ds with
  | [] => mret week
  | day :: rest =>
      meals ← generate_daily_meals daily_calories user_data;
      fill_week rest daily_calories user_data (<[day := meals]> week)
  end.

Section Builtins.

(** Two built-ins are kept abstract: [int] on a string, and the text
    [str] and f-string interpolation give a value. *)
Context {libm : Float.Libm}.
Variable parse_int : string -> result Z.
Variable format : pyval -> string.

Definition get_lifestyle_recommendations (user_data : pyval)
  : result (list recommendation) :=
  let recommendations : list recommendation := [] in
  smoking ← getitem user_data "smoking";
  let recommendations :=
    if py_eq_str smoking "yes"
    then (recommendations ++ [smoking_warning]) ++ [smoking_advice]
    else recommendations in
  drinking ← getitem user_data "drinking";
  let recommendations :=
    if py_eq_str drinking "yes"
    then (recommendations ++ [drinking_warning]) ++ [drinking_advice]
    else recommendations in
  age_field ← getitem user_data "age";
  age ← py_int parse_int age_field;
  let recommendations :=
    if age <? 25 then recommendations ++ [young_info]
    else if 40 <? age then recommendations ++ [mature_info]
    else recommendations in
  Ok recommendations.

Definition generate_fallback_plan (user_data : pyval) (bmr : Z) (bmi : float)
    (bmi_category : string) (daily_calories : Z) : M meal_plan :=
  '(protein_grams, carb_grams, fat_grams) ← lift (macro_grams daily_calories);
  name ← lift (getitem user_data "name");
  age ← lift (getitem user_data "age");
  gender ← lift (getitem user_data "gender");
  weight ← lift (getitem user_data "weight");
  height ← lift (getitem user_data "height");
  recs ← lift (get_lifestyle_recommendations user_data);
  week ← fill_week days daily_calories user_data ∅;
  mret {|
    plan_user_info := {|
      ui_name := name; ui_age := age; ui_gender := gender;
      ui_weight := weight; ui_height := height;
      ui_bmi := bmi; ui_bmi_category := bmi_category;
      ui_daily_calories := daily_calories;
      ui_macros := {| protein := pretty protein_grams +:+ "g";
                      carbs := pretty carb_grams +:+ "g";
                      fats := pretty fat_grams +:+ "g" |} |};
    weekly_plan := week;
    recommendations := recs;
    general_tips := tips |}.

(** [len(v)]. *)
Definition py_len (v : pyval) : result nat :=
  match v with
  | PStr t => Ok (str_len t)
  | PList l => Ok (length l)
  | PDict d => Ok (size d)
  | _ => Raise TypeError
  end.

(** [ai_text[:500] + "..." if len(ai_text) > 500 else ai_text]. *)
Definition truncate_text (ai_text : pyval) : result pyval :=
  n ← py_len ai_text;
  if (500 <? n)%nat then
    match ai_text with
    | PStr t => Ok (PStr (str_take 500 t +:+ "..."))
    | _ => Raise TypeError
    end
  else Ok ai_text.

Definition format_ai_response (user_data : pyval) (ai_text : pyval) (bmr : Z)
    (bmi : float) (bmi_category : string) (daily_calories : Z) : M diet_plan :=
  name ← lift (getitem user_data "name");
  insights ← lift (truncate_text ai_text);
  structured ← generate_fallback_plan user_data bmr bmi bmi_category daily_calories;
  mret (AIPlan name bmi bmi_category daily_calories insights structured).

(** Lines 61-71: the metrics computed before the prompt is built. *)
Definition compute_metrics (user_data : pyval) : result (Z * float * string * Z) :=
  weight ← getitem user_data "weight";
  height ← getitem user_data "height";
  age ← getitem user_data "age";
  gender ← getitem user_data "gender";
  bmr ← calculate_bmr weight height age gender;
  weight ← getitem user_data "weight";
  height ← getitem user_data "height";
  bmi ← calculate_bmi weight height;
  let '(bmi_category, bmi_advice) := get_bmi_category bmi in
  daily_calories ← rounded_share bmr (Float.lit 15 1);
  Ok (bmr, bmi, bmi_category, daily_calories).

(** A line break inside the prompt literal, with the indentation the
    source has there. *)
Definition br : string := String (ascii_of_nat 10) "            ".

(** Lines 74-92: the f-string. *)
Definition build_prompt (user_data : pyval) (bmi : float) (bmi_category : string)
    (daily_calories : Z) : result string :=
  name ← getitem user_data "name";
  age ← getitem user_data "age";
  gender ← getitem user_data "gender";
  weight ← getitem user_data "weight";
  height ← getitem user_data "height";
  smoking ← getitem user_data "smoking";
  drinking ← getitem user_data "drinking";
  Ok ("Create a detailed 7-day diet plan for:" +:+ br
      +:+ "Name: " +:+ format name +:+ br
      +:+ "Age: " +:+ format age +:+ " years" +:+ br
      +:+ "Gender: " +:+ format gender +:+ br
      +:+ "Weight: " +:+ format weight +:+ " kg" +:+ br
      +:+ "Height: " +:+ format height +:+ " cm" +:+ br
      +:+ "BMI: " +:+ format (PFloat bmi) +:+ " (" +:+ bmi_category +:+ ")" +:+ br
      +:+ "Daily Calories: " +:+ format (PInt daily_calories) +:+ br
      +:+ "Smoking: " +:+ format smoking +:+ br
      +:+ "Drinking: " +:+ format drinking +:+ br
      +:+ br
      +:+ "Please provide:" +:+ br
      +:+ "1. Daily meal schedule with specific foods" +:+ br
      +:+ "2. Portion sizes and nutritional focus" +:+ br
      +:+ "3. Pre/post workout meals" +:+ br
      +:+ "4. Hydration recommendations" +:+ br
      +:+ "5. Lifestyle-specific advice based on smoking/drinking habits" +:+ br
      +:+ br
      +:+ "Format as a structured weekly plan with breakfast, lunch, dinner, and snacks for each day.").

(** [isinstance(ai_response, dict) and "estimated_time" in ai_response]. *)
Definition is_loading (ai_response : pyval) : bool :=
  match ai_response with
  | PDict d => bool_decide (is_Some (d !! "estimated_time"))
  | _ => false
  end.

(** Lines 117-120: the generated text of a response body. *)
Definition extract_text (ai_response : pyval) : result pyval :=
  match ai_response with
  | PList (first :: _) =>
      match first with
      | PDict d => Ok (default (PStr "") (d !! "generated_text"))
      | _ => Raise AttributeError
      end
  | _ => Ok (PStr (format ai_response))
  end.

Definition generate_ai_diet_plan (user_data : pyval) : M diet_plan :=
  match compute_metrics user_data with
  | Raise _ =>
      (* the handler reads a local that was never bound *)
      lift (Raise UnboundLocalError)
  | Ok (bmr, bmi, bmi_category, daily_calories) =>
      let fallback :=
        Fallback <$> generate_fallback_plan user_data bmr bmi bmi_category daily_calories in
      try_except
        (prompt ← lift (build_prompt user_data bmi bmi_category daily_calories);
         '(status_code, json) ← requests_post prompt;
         if status_code =? 200 then
           ai_response ← lift (match json with
                               | Some v => Ok v
                               | None => Raise ValueError
                               end);
           if is_loading ai_response then fallback
           else
             generated_text ← lift (extract_text ai_response);
             format_ai_response user_data generated_text bmr bmi bmi_category
                                daily_calories
         else fallback)
        fallback
  end.

(** ** The endpoint [POST /api/generate-diet-plan] *)

Inductive body :=
| ErrorBody (error : string) (success : bool)
| PlanBody (success : bool) (data : diet_plan) (message : string).

Record http_response := { status : Z; payload : body }.

Definition required_fields : list string :=
  [ "name"; "age"; "height"; "weight"; "gender"; "smoking"; "drinking" ].

(** The validation loop: the first required field that is not in
    [user_data], if there is one. *)
Fixpoint first_missing (fields : list string) (user_data : pyval)
  : result (option string) :=
  match fields with
  | [] => Ok None
  | field :: rest =>
      present ← py_in field user_data;
      if (present : bool) then first_missing rest user_data else Ok (Some field)
  end.

Definition internal_error : http_response :=
  {| status := 500;
     payload := ErrorBody "Failed to generate diet plan. Please try again." false |}.

Definition generate_diet_plan (user_data : pyval) (w : world) : http_response * world :=
  match first_missing required_fields user_data with
  | Raise _ => (internal_error, w)
  | Ok (Some field) =>
      ({| status := 400;
          payload := ErrorBody ("Missing required field: " +:+ field) false |}, w)
  | Ok None =>
      match generate_ai_diet_plan user_data w with
      | (Ok plan, w') =>
          ({| status := 200;
              payload := PlanBody true plan "Diet plan generated successfully!" |}, w')
      | (Raise _, w') => (internal_error, w')
      end
  end.

End Builtins.

(** [float(v)]; the parsing of a string is left to [parse_float]. *)
Definition py_float (parse_float : string -> result float) (v : pyval) : result float :=
  match v with
  | PFloat f => Ok f
  | PInt z => int_to_double z
  | PBool b => Ok (Float.of_Z (if b then 1 else 0))
  | PStr s => parse_float s
  | _ => Raise TypeError
  end.

(** ** The endpoint [POST /api/bmi-calculator]

    The route function has the name of the method it calls,
    [calculate_bmi]; it lives in a module of its own here. *)

Inductive bmi_body :=
| BmiError (error : string) (success : bool)
| BmiResult (success : bool) (bmi : float) (category advice : string).

Record bmi_response := { bmi_status : Z; bmi_payload : bmi_body }.

Module Route.
Section Builtins.

Context {libm : Float.Libm}.
Variable parse_float : string -> result float.

Definition calculate_bmi (data : pyval) : bmi_response :=
  match (weight_field ← getitem data "weight";
         weight ← py_float parse_float weight_field;
         height_field ← getitem data "height";
         height ← py_float parse_float height_field;
         bmi ← calculate_bmi (PFloat weight) (PFloat height);
         Ok (bmi, get_bmi_category bmi)) with
  | Ok (bmi, (category, advice)) =>
      {| bmi_status := 200; bmi_payload := BmiResult true bmi category advice |}
  | Raise _ =>
      {| bmi_status := 400; bmi_payload := BmiError "Invalid input data" false |}
  end.

End Builtins.
End Route.

(** * Notions the properties are stated with *)

(** ** Rounding *)

(** [n] lies within one half of the value of [x]. *)
Definition nearest_int (n : Z) (x : float) : Prop :=
  match x with
  | S754_zero _ => n = 0
  | S754_finite s m e =>
      let k := Z.max 0 (- e) in
      2 * Z.abs (n * 2 ^ k - Float.signed s (Zpos m * 2 ^ (e + k))) <= 2 ^ k
  | _ => False
  end.

(** ** The metrics *)

(** [c] is the letter [lo] or its capital [up]. *)
Definition letter (c lo up : ascii) : bool := Ascii.eqb c lo || Ascii.eqb c up.

(** The gender string is one of the sixteen spellings of "male". *)
Definition spells_male (g : string) : bool :=
  match g with
  | String c1 (String c2 (String c3 (String c4 EmptyString))) =>
      letter c1 "m" "M" && letter c2 "a" "A" && letter c3 "l" "L" && letter c4 "e" "E"
  | _ => false
  end.

(** The two formulas of the specification, in double arithmetic. *)
Definition bmr_formula (male : bool) (w h a : float) : float :=
  if male then
    Float.sub (Float.add (Float.add (Float.lit 88362 3) (Float.mul (Float.lit 13397 3) w))
                         (Float.mul (Float.lit 4799 3) h))
              (Float.mul (Float.lit 5677 3) a)
  else
    Float.sub (Float.add (Float.add (Float.lit 447593 3) (Float.mul (Float.lit 9247 3) w))
                         (Float.mul (Float.lit 3098 3) h))
              (Float.mul (Float.lit 4330 3) a).

(** The real number a finite double stands for. *)
Definition value (x : float) : R :=
  match x with
  | S754_finite s m e => (IZR (Float.signed s (Zpos m)) * powerRZ 2 e)%R
  | _ => 0%R
  end.

(** The real number a JSON number stands for. *)
Definition number (v : pyval) : R :=
  match v with
  | PInt z => IZR z
  | PFloat x => value x
  | _ => 0%R
  end.

(** The formula of the specification, on the real numbers. *)
Definition bmi_exact (weight height : pyval) : R :=
  (number weight / (number height / 100) ^ 2)%R.

(** A positive number of moderate size: an int below [2^300], or a normal
    double from [2^-300] up to [2^300]. *)
Definition moderate (v : pyval) : Prop :=
  match v with
  | PInt z => 0 < z < 2 ^ 300
  | PFloat (S754_finite false m e) => 2 ^ 52 <= Zpos m < 2 ^ 53 /\ -352 <= e < 248
  | _ => False
  end.

(** The C library squares within one unit in the last place: on a normal
    double [m * 2^e] of moderate size, [pow] at the exponent 2 sets no
    error and returns a normal double [m' * 2^e'] no further than [2^e']
    from the square. *)
Definition pow_accurate (libm : Float.Libm) : Prop :=
  forall (m : positive) (e : Z),
    2 ^ 52 <= Zpos m < 2 ^ 53 -> -500 <= e <= 400 ->
    exists (m' : positive) (e' : Z),
      Float.libm_pow (S754_finite false m e) (Float.of_Z 2)
      = (S754_finite false m' e', Float.NoError)
      /\ 2 ^ 52 <= Zpos m' < 2 ^ 53 /\ 2 * e <= e'
      /\ Z.abs (Zpos m' * 2 ^ (e' - 2 * e) - Zpos m * Zpos m) <= 2 ^ (e' - 2 * e).

(** A C library whose [pow] is correctly rounded at the exponent 2, and
    knows no other exponent. *)
Definition exact_libm : Float.Libm := fun x y =>
  if SFeqb y (Float.of_Z 2) then
    match Float.mul x x with
    | S754_infinity s => (S754_infinity s, Float.ERANGE)
    | z => (z, Float.NoError)
    end
  else (S754_nan, Float.OtherError).




(** The decimal [k / 10] of sign [s] as a double. *)
Definition tenths (s : bool) (k : Z) : float :=
  if k =? 0 then S754_zero s else Float.ratio (Float.signed s k) 10.

(** The category table: one advice string for each category. *)
Definition category_advice : list (string * string) :=
  [ ("Underweight", "Focus on healthy weight gain with nutrient-dense foods");
    ("Normal Weight", "Maintain current weight with balanced nutrition");
    ("Overweight", "Focus on gradual weight loss through caloric deficit");
    ("Obese", "Consult healthcare provider, focus on sustainable weight loss") ].

(** The category the specification gives a BMI, by its lower bounds. *)
Definition classify (bmi : float) : string :=
  if Float.ltb bmi (Float.lit 185 1) then "Underweight"
  else if Float.ltb bmi (Float.of_Z 25) then "Normal Weight"
  else if Float.ltb bmi (Float.of_Z 30) then "Overweight"
  else "Obese".

(** ** Recommendations, days and weeks *)

#[global] Instance recommendation_eq_dec : EqDecision recommendation.
Proof. solve_decision. Defined.

(** The entries the specification derives from each profile field. *)
Definition smoking_entries (smoking : pyval) : list recommendation :=
  if py_eq_str smoking "yes" then [smoking_warning; smoking_advice] else [].

Definition drinking_entries (drinking : pyval) : list recommendation :=
  if py_eq_str drinking "yes" then [drinking_warning; drinking_advice] else [].

Definition age_entries (age : Z) : list recommendation :=
  if age <? 25 then [young_info] else if 40 <? age then [mature_info] else [].

(** The profile of the specification's example, with a name and habits. *)
Definition example_profile : pyval :=
  PDict (list_to_map
    [ ("name", PStr "Ann"); ("age", PInt 30); ("height", PInt 175);
      ("weight", PInt 70); ("gender", PStr "male");
      ("smoking", PStr "yes"); ("drinking", PStr "no") ]).

(** [int] on strings, where an example needs one: no string parses. *)
Definition no_parse : string -> result Z := fun _ => Raise ValueError.

(** The dict [generate_daily_meals] returns, from its ten locals. *)
Definition day_of (breakfast_cals snack1_cals lunch_cals snack2_cals dinner_cals : Z)
    (breakfast morning_snack lunch afternoon_snack dinner : string)
  : gmap string meal_slot :=
  list_to_map
    [ ("breakfast", {| meal := breakfast; calories := breakfast_cals |});
      ("morning_snack", {| meal := morning_snack; calories := snack1_cals |});
      ("lunch", {| meal := lunch; calories := lunch_cals |});
      ("afternoon_snack", {| meal := afternoon_snack; calories := snack2_cals |});
      ("dinner", {| meal := dinner; calories := dinner_cals |}) ].

(** The option list each slot draws from. *)
Definition slot_options : list (string * list string) :=
  [ ("breakfast", breakfast_options); ("morning_snack", snack_options);
    ("lunch", lunch_options); ("afternoon_snack", snack_options);
    ("dinner", dinner_options) ].

(** A world whose [n]-th draw is [f n], with nothing posted yet and a
    service that answers every prompt with [answer]. *)
Definition world_of (f : nat -> nat) (answer : http_outcome) : world :=
  {| draws := f; cursor := 0; service := fun _ => answer; posts := [] |}.

(** ** Doubles as integers *)

(** [p] rounded to 53 significant bits, as an integer. *)
Definition to53 (p : Z) : Z :=
  let s := Z.log2 p - 52 in
  if 0 <? s then Float.nearest_even p (2 ^ s) * 2 ^ s else p.

(** The mantissa and the exponent of the double nearest to [p]. *)
Definition norm53 (p : Z) : Z * Z :=
  let s := Z.log2 p - 52 in
  if 0 <? s then
    let n := Float.nearest_even p (2 ^ s) in
    if n =? 2 ^ 53 then (2 ^ 52, s + 1) else (n, s)
  else (p * 2 ^ (- s), s).

(** The bits by which a normal mantissa [m] is shifted before it is
    divided by 9: [9 * 2^49] is the mantissa of [9.0]. *)
Definition ninth_shift (m : Z) : Z := if 9 * 2 ^ 49 <=? m then 3 else 4.

(** The mantissa of the double [0.30]. *)
Definition mc30 : Z := 5404319552844595.

(** The largest double, an integer. *)
Definition max_double : Z := (2 ^ 53 - 1) * 2 ^ 971.

(** ** Calories *)

(** The keys of a day, in the order the source writes them. *)
Definition slot_names : list string :=
  [ "breakfast"; "morning_snack"; "lunch"; "afternoon_snack"; "dinner" ].

(** The calories of the five slots, added up. *)
Definition slot_sum (meals : gmap string meal_slot) : Z :=
  foldr Z.add 0 ((fun slot => default 0 (calories <$> meals !! slot)) <$> slot_names).

(** The calories of the rounded gram counts, less the calorie target. *)
Definition macro_error (n : Z) : Z :=
  4 * Float.nearest_even n 16 + 4 * Float.nearest_even (9 * n) 80
  + 9 * Float.nearest_even n 30 - n.

(** [P] holds of the [count] integers from [start] on. *)
Fixpoint all_below (P : Z -> bool) (start : Z) (count : nat) : bool :=
  match count with
  | O => true
  | S k => P start && all_below P (start + 1) k
  end.

(** The value of a finite double times [2^k], when that is an integer. *)
Definition scaled (k : Z) (x : float) : Z :=
  match x with
  | S754_finite s m e => Float.signed s (Zpos m * 2 ^ (e + k))
  | _ => 0
  end.

(** A man of 84 kg, 190 cm and 20 years. *)
Definition tall_profile : pyval :=
  PDict (list_to_map
    [ ("name", PStr "Ben"); ("age", PInt 20); ("height", PInt 190);
      ("weight", PInt 84); ("gender", PStr "male");
      ("smoking", PStr "no"); ("drinking", PStr "no") ]).

(** ** The plan as a function of the draws *)

(** The option [random.choice] returns on the draw [n]. *)
Definition pick (options : list string) (n : nat) : string :=
  default "" (options !! (n mod length options)%nat).

(** The day built from the shares and from the draws [f i .. f (i + 4)]. *)
Definition day_at (c25 c10 c30 : Z) (f : nat -> nat) (i : nat) : gmap string meal_slot :=
  day_of c25 c10 c30 c10 c25
         (pick breakfast_options (f i)) (pick snack_options (f (i + 1))%nat)
         (pick lunch_options (f (i + 2))%nat) (pick snack_options (f (i + 3))%nat)
         (pick dinner_options (f (i + 4))%nat).

(** The week built day by day, each day on the next five draws. *)
Fixpoint week_at (ds : list string) (c25 c10 c30 : Z) (f : nat -> nat) (i : nat)
    (week : gmap string (gmap string meal_slot)) : gmap string (gmap string meal_slot) :=
  match ds with
  | [] => week
  | day :: rest =>
      week_at rest c25 c10 c30 f (i + 5) (<[day := day_at c25 c10 c30 f i]> week)
  end.

(** The plan as a function of the draws [f i, f (i + 1), ...]. *)
Definition fallback_plan_of (parse_int : string -> result Z) (user_data : pyval)
    (bmi : float) (bmi_category : string) (daily_calories : Z)
    (f : nat -> nat) (i : nat) : result meal_plan :=
  '(protein_grams, carb_grams, fat_grams) ← macro_grams daily_calories;
  name ← getitem user_data "name";
  age ← getitem user_data "age";
  gender ← getitem user_data "gender";
  weight ← getitem user_data "weight";
  height ← getitem user_data "height";
  recs ← get_lifestyle_recommendations parse_int user_data;
  c25 ← rounded_share daily_calories (Float.lit 25 2);
  c10 ← rounded_share daily_calories (Float.lit 10 2);
  c30 ← rounded_share daily_calories (Float.lit 30 2);
  Ok {|
    plan_user_info := {|
      ui_name := name; ui_age := age; ui_gender := gender;
      ui_weight := weight; ui_height := height;
      ui_bmi := bmi; ui_bmi_category := bmi_category;
      ui_daily_calories := daily_calories;
      ui_macros := {| protein := pretty protein_grams +:+ "g";
                      carbs := pretty carb_grams +:+ "g";
                      fats := pretty fat_grams +:+ "g" |} |};
    weekly_plan := week_at days c25 c10 c30 f i ∅;
    recommendations := recs;
    general_tips := tips |}.

(** ** The call to the inference service *)

(** [str] and the f-string interpolation, where an example needs them: a
    string stands for itself and any other value for a question mark. *)
Definition text_only (v : pyval) : string :=
  match v with
  | PStr t => t
  | _ => "?"
  end.

(** The ways the call to the inference service fails: the post raises,
    the status is not 200, the body is not JSON, or the body says that the
    model is still loading. *)
Definition call_failed (outcome : http_outcome) : bool :=
  match outcome with
  | ConnectionFailed => true
  | Responded status_code json =>
      negb (status_code =? 200)
      || match json with
         | None => true
         | Some ai_response => is_loading ai_response
         end
  end.

(** A computation that posts nothing. *)
Definition silent {A : Type} (c : M A) : Prop := forall w, posts (c w).2 = posts w.

(** ** The answer of the inference service *)

(** The plan inside a diet plan: the plan itself, or the structured plan
    that comes with the AI text. *)
Definition structured (data : diet_plan) : meal_plan :=
  match data with
  | Fallback plan => plan
  | AIPlan _ _ _ _ _ plan => plan
  end.

(** The AI text an answer of the service leads to, cut to length; [None]
    when the answer leads to the fallback. *)
Definition insights_of (format : pyval -> string) (outcome : http_outcome) : option pyval :=
  match outcome with
  | Responded status_code (Some ai_response) =>
      if (status_code =? 200) && negb (is_loading ai_response) then
        match extract_text format ai_response ≫= truncate_text with
        | Ok insights => Some insights
        | Raise _ => None
        end
      else None
  | _ => None
  end.

(** [w] with another inference service. *)
Definition with_service (w : world) (answers : string -> http_outcome) : world :=
  {| draws := draws w; cursor := cursor w; service := answers; posts := posts w |}.

(** The letter e with an acute accent: two bytes, one character. *)
Definition e_acute : string := String "195" (String "169" EmptyString).

(** A text of 300 characters and 600 bytes. *)
Definition accented_text : string := String.concat "" (replicate 300 e_acute).

(** A text cut to 500 characters and marked with an ellipsis when longer. *)
Definition cut_text (t : string) : string :=
  if (500 <? str_len t)%nat then str_take 500 t +:+ "..." else t.

(** ** Numbers *)

(** Neither an infinity nor NaN. *)
Definition is_finite (x : float) : bool :=
  match x with
  | S754_zero _ | S754_finite _ _ _ => true
  | _ => false
  end.

(** A JSON value that is a number (a bool counts, as in Python) with a
    finite double. *)
Definition finite_number (v : pyval) : bool :=
  match to_double v with
  | Ok x => is_finite x
  | Raise _ => false
  end.

(** A number that is zero: [0], [False], [0.0] or [-0.0]. *)
Definition is_zero_number (v : pyval) : bool :=
  match v with
  | PInt 0 | PBool false | PFloat (S754_zero _) => true
  | _ => false
  end.

(** The place of a double in the order of the doubles, as a triple to be
    compared lexicographically; NaN has none. *)
Definition order_key (x : float) : option (Z * Z * Z) :=
  match x with
  | S754_nan => None
  | S754_infinity true => Some (-2, 0, 0)
  | S754_finite true m e => Some (-1, - e, - Zpos m)
  | S754_zero _ => Some (0, 0, 0)
  | S754_finite false m e => Some (1, e, Zpos m)
  | S754_infinity false => Some (2, 0, 0)
  end.

Definition lex_lt (a b : Z * Z * Z) : Prop :=
  a.1.1 < b.1.1
  \/ (a.1.1 = b.1.1 /\ (a.1.2 < b.1.2 \/ (a.1.2 = b.1.2 /\ a.2 < b.2))).

(** The categories from the lightest to the heaviest. *)
Definition category_rank (category : string) : nat :=
  if String.eqb category "Underweight" then 0
  else if String.eqb category "Normal Weight" then 1
  else if String.eqb category "Overweight" then 2
  else 3.

(** A height the calculator can square: a nonzero int below [2^400] in
    absolute value, or a normal double between [2^-348] and [2^453]. *)
Definition squarable (height : pyval) : Prop :=
  match height with
  | PInt z => z <> 0 /\ Z.abs z < 2 ^ 400
  | PFloat (S754_finite _ m e) => 2 ^ 52 <= Zpos m < 2 ^ 53 /\ -400 <= e <= 400
  | _ => False
  end.

(** The answer of the calculator to a body it cannot use. *)
Definition invalid_input : bmi_response :=
  {| bmi_status := 400; bmi_payload := BmiError "Invalid input data" false |}.

(** * Properties *)

(** ** Rounding to the nearest integer *)

Lemma nearest_even_bound (p q : Z) :
  0 < q -> 2 * Z.abs (p - Float.nearest_even p q * q) <= q.
Proof.
  intros Hq. unfold Float.nearest_even.
  pose proof (Z.div_mod p q ltac:(lia)) as Hdm.
  pose proof (Z.mod_pos_bound p q Hq) as Hr.
  destruct (Z.compare_spec (2 * (p mod q)) q) as [Heq | Hlt | Hgt].
  - destruct (Z.even (p / q)); lia.
  - lia.
  - lia.
Qed.

(** The integer [r] is the one [nearest_even] picks as soon as it is
    strictly within one half of [p / q]. *)
Lemma nearest_even_unique (p q r : Z) :
  0 < q -> 2 * Z.abs (p - r * q) < q -> Float.nearest_even p q = r.
Proof.
  intros Hq Hr.
  pose proof (nearest_even_bound p q Hq) as Hb.
  set (k := Float.nearest_even p q) in *.
  assert (Z.abs ((k - r) * q) < q) by lia.
  assert (Z.abs (k - r) < 1) by nia.
  lia.
Qed.

Lemma half_even_nearest (m e : Z) :
  let k := Z.max 0 (- e) in
  2 * Z.abs (Float.half_even m e * 2 ^ k - m * 2 ^ (e + k)) <= 2 ^ k.
Proof.
  unfold Float.half_even. destruct (Z.leb_spec 0 e) as [He | He].
  - rewrite Z.max_l by lia. rewrite Z.add_0_r, Z.pow_0_r. lia.
  - rewrite Z.max_r by lia. replace (e + - e) with 0 by lia.
    rewrite Z.pow_0_r, Z.mul_1_r.
    pose proof (nearest_even_bound m (2 ^ (- e)) ltac:(apply Z.pow_pos_nonneg; lia)).
    lia.
Qed.

Lemma round_nearest (x : float) (n : Z) :
  Float.round x = Ok n -> nearest_int n x.
Proof.
  destruct x as [s | s | | s m e]; simpl; try discriminate.
  - intros [= <-]. reflexivity.
  - intros [= <-].
    pose proof (half_even_nearest (Zpos m) e) as H. cbv zeta in H.
    destruct s; unfold Float.signed; [ | exact H].
    rewrite Z.mul_opp_l.
    replace (- (Float.half_even (Z.pos m) e * 2 ^ Z.max 0 (- e))
             - - (Z.pos m * 2 ^ (e + Z.max 0 (- e))))
      with (- (Float.half_even (Z.pos m) e * 2 ^ Z.max 0 (- e)
               - Z.pos m * 2 ^ (e + Z.max 0 (- e)))) by lia.
    rewrite Z.abs_opp. exact H.
Qed.

(** ** C1: [calculate_bmr] *)

Lemma lower_char_is (c lo up : ascii) :
  In (lo, up) [("m", "M"); ("a", "A"); ("l", "L"); ("e", "E")]%char ->
  Ascii.eqb (lower_char c) lo = letter c lo up.
Proof.
  intros Hlo. simpl in Hlo.
  destruct Hlo as [[= <- <-] | [[= <- <-] | [[= <- <-] | [[= <- <-] | []]]]];
    destruct c as [[] [] [] [] [] [] [] []]; vm_compute; reflexivity.
Qed.

Lemma lower_male (g : string) : String.eqb (lower g) "male" = spells_male g.
Proof.
  destruct g as [ | c1 [ | c2 [ | c3 [ | c4 rest]]]].
  - reflexivity.
  - cbn [lower String.eqb spells_male].
    destruct (Ascii.eqb (lower_char c1) "m"); reflexivity.
  - cbn [lower String.eqb spells_male].
    destruct (Ascii.eqb (lower_char c1) "m"); [ | reflexivity].
    destruct (Ascii.eqb (lower_char c2) "a"); reflexivity.
  - cbn [lower String.eqb spells_male].
    destruct (Ascii.eqb (lower_char c1) "m"); [ | reflexivity].
    destruct (Ascii.eqb (lower_char c2) "a"); [ | reflexivity].
    destruct (Ascii.eqb (lower_char c3) "l"); reflexivity.
  - cbn [lower String.eqb spells_male].
    rewrite (lower_char_is c1 "m" "M"), (lower_char_is c2 "a" "A"),
      (lower_char_is c3 "l" "L"), (lower_char_is c4 "e" "E") by (simpl; tauto).
    destruct rest, (letter c1 "m" "M"), (letter c2 "a" "A"), (letter c3 "l" "L"),
      (letter c4 "e" "E"); reflexivity.
Qed.

(** C1. For numbers [weight], [height], [age] and a gender string,
    [calculate_bmr] returns [round] of the male formula when the gender
    spells "male" in any mix of cases and of the other formula otherwise;
    the value returned is an integer nearest to the float it rounds; and on
    weight 70, height 175, age 30, gender "male" it returns 1696. *)
Theorem calculate_bmr_spec :
  (forall (weight height age : pyval) (gender : string) (w h a : float),
      to_double weight = Ok w -> to_double height = Ok h -> to_double age = Ok a ->
      calculate_bmr weight height age (PStr gender)
      = Float.round (bmr_formula (spells_male gender) w h a)
      /\ forall n, calculate_bmr weight height age (PStr gender) = Ok n ->
                   nearest_int n (bmr_formula (spells_male gender) w h a))
  /\ calculate_bmr (PInt 70) (PInt 175) (PInt 30) (PStr "male") = Ok 1696.
Proof.
  split; [ | vm_compute; reflexivity].
  intros weight height age gender w h a Hw Hh Ha.
  assert (Heq : calculate_bmr weight height age (PStr gender)
                = Float.round (bmr_formula (spells_male gender) w h a)).
  { unfold calculate_bmr, float_mul, bmr_formula. cbn [str_lower mbind result_bind].
    rewrite lower_male, Hw, Hh, Ha. destruct (spells_male gender); reflexivity. }
  split; [exact Heq | ].
  intros n Hn. rewrite Heq in Hn. apply round_nearest, Hn.
Qed.

Lemma calculate_bmr_spec_witness :
  calculate_bmr (PInt 70) (PFloat (Float.lit 1755 1)) (PBool true) (PStr "MaLe")
  = Float.round (bmr_formula (spells_male "MaLe") (Float.of_Z 70) (Float.lit 1755 1)
                             (Float.of_Z 1)).
Proof.
  assert (Hw : to_double (PInt 70) = Ok (Float.of_Z 70)) by (vm_compute; reflexivity).
  exact (proj1 (proj1 calculate_bmr_spec (PInt 70) (PFloat (Float.lit 1755 1)) (PBool true)
                  "MaLe" (Float.of_Z 70) (Float.lit 1755 1) (Float.of_Z 1)
                  Hw eq_refl eq_refl)).
Defined.

(** ** [get_bmi_category]: the table *)

Lemma get_bmi_category_table (bmi : float) :
  get_bmi_category bmi ∈ category_advice /\ (get_bmi_category bmi).1 = classify bmi.
Proof.
  unfold get_bmi_category, classify, category_advice.
  destruct (Float.ltb bmi (Float.lit 185 1)); [split; [set_solver | reflexivity] | ].
  destruct (Float.ltb bmi (Float.of_Z 25)); [split; [set_solver | reflexivity] | ].
  destruct (Float.ltb bmi (Float.of_Z 30)); (split; [set_solver | reflexivity]).
Qed.

(** ** C6, C9: [get_lifestyle_recommendations] *)

Lemma py_eq_str_true (v : pyval) (s : string) : py_eq_str v s = true <-> v = PStr s.
Proof.
  destruct v; simpl; try (split; [discriminate | intros [=]]).
  rewrite String.eqb_eq. split; [intros ->; reflexivity | intros [=]; assumption].
Qed.

Lemma get_lifestyle_recommendations_eq (parse_int : string -> result Z)
    (user_data smoking drinking age_field : pyval) (age : Z) :
  getitem user_data "smoking" = Ok smoking ->
  getitem user_data "drinking" = Ok drinking ->
  getitem user_data "age" = Ok age_field ->
  py_int parse_int age_field = Ok age ->
  get_lifestyle_recommendations parse_int user_data
  = Ok (smoking_entries smoking ++ drinking_entries drinking ++ age_entries age).
Proof.
  intros Hs Hd Ha Hage. unfold get_lifestyle_recommendations.
  rewrite Hs. cbn [mbind result_bind]. rewrite Hd. cbn [mbind result_bind].
  rewrite Ha. cbn [mbind result_bind]. rewrite Hage. cbn [mbind result_bind].
  unfold smoking_entries, drinking_entries, age_entries.
  destruct (py_eq_str smoking "yes"), (py_eq_str drinking "yes"),
    (age <? 25), (40 <? age); reflexivity.
Qed.

(** C6. The list is the smoking warning and advice when smoking is
    affirmed, then the drinking warning and advice when drinking is
    affirmed, then one info entry for an age below 25, another one for an
    age above 40 and none for an age from 25 to 40; it is empty when none
    of the three applies. *)
Theorem get_lifestyle_recommendations_order (parse_int : string -> result Z)
    (user_data smoking drinking age_field : pyval) (age : Z) :
  getitem user_data "smoking" = Ok smoking ->
  getitem user_data "drinking" = Ok drinking ->
  getitem user_data "age" = Ok age_field ->
  py_int parse_int age_field = Ok age ->
  get_lifestyle_recommendations parse_int user_data
  = Ok (smoking_entries smoking ++ drinking_entries drinking ++ age_entries age)
  /\ smoking_entries smoking
     = (if py_eq_str smoking "yes" then [smoking_warning; smoking_advice] else [])
  /\ drinking_entries drinking
     = (if py_eq_str drinking "yes" then [drinking_warning; drinking_advice] else [])
  /\ (age < 25 -> age_entries age = [young_info])
  /\ (40 < age -> age_entries age = [mature_info])
  /\ (25 <= age <= 40 -> age_entries age = [])
  /\ (py_eq_str smoking "yes" = false -> py_eq_str drinking "yes" = false ->
      25 <= age <= 40 -> get_lifestyle_recommendations parse_int user_data = Ok [])
  /\ rec_type <$> [smoking_warning; smoking_advice; drinking_warning; drinking_advice;
                   young_info; mature_info]
     = ["warning"; "advice"; "warning"; "advice"; "info"; "info"].
Proof.
  intros Hs Hd Ha Hage.
  pose proof (get_lifestyle_recommendations_eq parse_int _ _ _ _ _ Hs Hd Ha Hage) as Heq.
  split; [exact Heq | ]. split; [reflexivity | ]. split; [reflexivity | ].
  unfold age_entries.
  split; [intros H; destruct (Z.ltb_spec age 25); [reflexivity | lia] | ].
  split; [intros H; destruct (Z.ltb_spec age 25), (Z.ltb_spec 40 age);
          (reflexivity || lia) | ].
  split; [intros H; destruct (Z.ltb_spec age 25), (Z.ltb_spec 40 age);
          (reflexivity || lia) | ].
  split; [ | reflexivity].
  intros Hns Hnd H. rewrite Heq. unfold smoking_entries, drinking_entries, age_entries.
  rewrite Hns, Hnd. destruct (Z.ltb_spec age 25), (Z.ltb_spec 40 age);
    (reflexivity || lia).
Qed.

Lemma get_lifestyle_recommendations_order_witness :
  get_lifestyle_recommendations no_parse example_profile
  = Ok (smoking_entries (PStr "yes") ++ drinking_entries (PStr "no") ++ age_entries 30).
Proof.
  exact (proj1 (get_lifestyle_recommendations_order no_parse example_profile
                  (PStr "yes") (PStr "no") (PInt 30) 30
                  eq_refl eq_refl eq_refl eq_refl)).
Defined.

Lemma entries_membership (smoking drinking : pyval) (age : Z) (r : recommendation) :
  r ∈ smoking_entries smoking ++ drinking_entries drinking ++ age_entries age ->
  (r = smoking_warning \/ r = smoking_advice) /\ py_eq_str smoking "yes" = true
  \/ (r = drinking_warning \/ r = drinking_advice) /\ py_eq_str drinking "yes" = true
  \/ (r = young_info \/ r = mature_info).
Proof.
  unfold smoking_entries, drinking_entries, age_entries.
  rewrite !elem_of_app.
  destruct (py_eq_str smoking "yes"), (py_eq_str drinking "yes"),
    (age <? 25), (40 <? age); set_solver.
Qed.

(** C9. The smoking entries are in the list exactly when the smoking field
    is the string "yes", and the drinking entries exactly when the drinking
    field is; "Yes", "YES", True, "y" and "no" give none, whereas
    [calculate_bmr] treats "MALE" and "Male" as it treats "male". *)
Theorem affirmation_is_exact (parse_int : string -> result Z)
    (user_data smoking drinking : pyval) (recs : list recommendation) :
  getitem user_data "smoking" = Ok smoking ->
  getitem user_data "drinking" = Ok drinking ->
  get_lifestyle_recommendations parse_int user_data = Ok recs ->
  (smoking_warning ∈ recs <-> smoking = PStr "yes")
  /\ (smoking_advice ∈ recs <-> smoking = PStr "yes")
  /\ (drinking_warning ∈ recs <-> drinking = PStr "yes")
  /\ (drinking_advice ∈ recs <-> drinking = PStr "yes")
  /\ Forall (fun v => smoking_entries v = [] /\ drinking_entries v = [])
            [PStr "Yes"; PStr "YES"; PBool true; PStr "y"; PStr "no"]
  /\ (forall weight height age,
         calculate_bmr weight height age (PStr "MALE")
         = calculate_bmr weight height age (PStr "male")
         /\ calculate_bmr weight height age (PStr "Male")
            = calculate_bmr weight height age (PStr "male")).
Proof.
  intros Hs Hd Hrecs.
  assert (Hshape : exists age,
             recs = smoking_entries smoking ++ drinking_entries drinking ++ age_entries age).
  { unfold get_lifestyle_recommendations in Hrecs.
    rewrite Hs in Hrecs. cbn [mbind result_bind] in Hrecs.
    rewrite Hd in Hrecs. cbn [mbind result_bind] in Hrecs.
    destruct (getitem user_data "age") as [age_field | ]; [ | discriminate].
    cbn [mbind result_bind] in Hrecs.
    destruct (py_int parse_int age_field) as [age | ]; [ | discriminate].
    cbn [mbind result_bind] in Hrecs. exists age.
    injection Hrecs as <-.
    unfold smoking_entries, drinking_entries, age_entries.
    destruct (py_eq_str smoking "yes"), (py_eq_str drinking "yes"),
      (age <? 25), (40 <? age); reflexivity. }
  destruct Hshape as [age ->].
  assert (Hin : forall r,
             r ∈ smoking_entries smoking ++ drinking_entries drinking ++ age_entries age ->
             (r = smoking_warning \/ r = smoking_advice) /\ py_eq_str smoking "yes" = true
             \/ (r = drinking_warning \/ r = drinking_advice)
                /\ py_eq_str drinking "yes" = true
             \/ (r = young_info \/ r = mature_info))
    by (intros r; apply entries_membership).
  rewrite <- !py_eq_str_true.
  split; [ | split; [ | split; [ | split]]].
  - split.
    + intros H. destruct (Hin _ H) as [[_ Hy] | [[[Hr | Hr] _] | [Hr | Hr]]];
        [exact Hy | discriminate Hr ..].
    + intros Hy. unfold smoking_entries. rewrite Hy. set_solver.
  - split.
    + intros H. destruct (Hin _ H) as [[_ Hy] | [[[Hr | Hr] _] | [Hr | Hr]]];
        [exact Hy | discriminate Hr ..].
    + intros Hy. unfold smoking_entries. rewrite Hy. set_solver.
  - split.
    + intros H. destruct (Hin _ H) as [[[Hr | Hr] _] | [[_ Hy] | [Hr | Hr]]];
        [discriminate Hr | discriminate Hr | exact Hy | discriminate Hr ..].
    + intros Hy. unfold drinking_entries. rewrite Hy. set_solver.
  - split.
    + intros H. destruct (Hin _ H) as [[[Hr | Hr] _] | [[_ Hy] | [Hr | Hr]]];
        [discriminate Hr | discriminate Hr | exact Hy | discriminate Hr ..].
    + intros Hy. unfold drinking_entries. rewrite Hy. set_solver.
  - split.
    + repeat constructor.
    + intros weight height age0. unfold calculate_bmr. split; reflexivity.
Qed.

Lemma affirmation_is_exact_witness :
  smoking_warning ∈ [smoking_warning; smoking_advice] <-> PStr "yes" = PStr "yes".
Proof.
  exact (proj1 (affirmation_is_exact no_parse example_profile (PStr "yes") (PStr "no")
                  [smoking_warning; smoking_advice] eq_refl eq_refl eq_refl)).
Defined.

(** ** C7: validation of the request body *)

Lemma first_missing_dict (fields : list string) (d : gmap string pyval) :
  first_missing fields (PDict d)
  = Ok (find (fun field => negb (bool_decide (is_Some (d !! field)))) fields).
Proof.
  induction fields as [ | field rest IH]; [reflexivity | ].
  cbn [first_missing py_in mbind result_bind find].
  destruct (bool_decide (is_Some (d !! field))); [exact IH | reflexivity].
Qed.

Lemma find_first {A} (f : A -> bool) (l : list A) (x : A) :
  find f l = Some x ->
  exists before after,
    l = before ++ x :: after /\ f x = true /\ Forall (fun y => f y = false) before.
Proof.
  induction l as [ | y rest IH]; [discriminate | ].
  cbn [find]. destruct (f y) eqn:Hy.
  - intros [= ->]. exists [], rest. repeat split; [exact Hy | constructor].
  - intros Hfind. destruct (IH Hfind) as (before & after & -> & Hx & Hall).
    exists (y :: before), after. repeat split; [exact Hx | constructor; assumption].
Qed.

(** C7. A JSON object that lacks one of the seven required fields is
    answered with status 400 and the body [{error: "Missing required field:
    <field>", success: false}], where [<field>] is a required field the body
    lacks (the first one in the order of validation); no random choice is
    made and nothing is posted.  Without [age] the message names [age]. *)
Theorem missing_field_rejected {libm : Float.Libm} (parse_int : string -> result Z) (format : pyval -> string)
    (d : gmap string pyval) (w : world) (lacking : string) :
  lacking ∈ required_fields -> d !! lacking = None ->
  (exists field before after,
      required_fields = before ++ field :: after
      /\ d !! field = None
      /\ Forall (fun f => is_Some (d !! f)) before
      /\ generate_diet_plan parse_int format (PDict d) w
         = ({| status := 400;
               payload := ErrorBody ("Missing required field: " +:+ field) false |}, w))
  /\ (generate_diet_plan parse_int format
        (PDict (list_to_map [ ("name", PStr "Ann"); ("height", PInt 175);
                              ("weight", PInt 70); ("gender", PStr "male");
                              ("smoking", PStr "no"); ("drinking", PStr "no") ])) w).1
     = {| status := 400; payload := ErrorBody "Missing required field: age" false |}.
Proof.
  intros Hin Hnone. split; [ | vm_compute; reflexivity].
  unfold generate_diet_plan. rewrite first_missing_dict.
  set (absent := fun field => negb (bool_decide (is_Some (d !! field)))).
  destruct (find absent required_fields) as [field | ] eqn:Hfind.
  - destruct (find_first absent required_fields field Hfind)
      as (before & after & Hsplit & Habs & Hbefore).
    exists field, before, after.
    split; [exact Hsplit | ].
    split.
    { unfold absent in Habs. apply negb_true_iff, bool_decide_eq_false in Habs.
      destruct (d !! field) eqn:E; [exfalso; apply Habs; eauto | reflexivity]. }
    split; [ | reflexivity].
    eapply Forall_impl; [exact Hbefore | ].
    intros f Hf. unfold absent in Hf.
    apply negb_false_iff, bool_decide_eq_true in Hf. exact Hf.
  - exfalso. apply list_elem_of_In in Hin.
    pose proof (find_none absent required_fields Hfind lacking Hin) as Habs.
    unfold absent in Habs. rewrite Hnone in Habs.
    apply negb_false_iff, bool_decide_eq_true in Habs. destruct Habs as [v [=]].
Qed.

Lemma missing_field_rejected_witness :
  exists field before after,
    required_fields = before ++ field :: after
    /\ (∅ : gmap string pyval) !! field = None
    /\ Forall (fun f => is_Some ((∅ : gmap string pyval) !! f)) before
    /\ generate_diet_plan (libm := exact_libm) no_parse (fun _ => "") (PDict ∅)
         {| draws := fun _ => 0%nat; cursor := 0; service := fun _ => ConnectionFailed;
            posts := [] |}
       = ({| status := 400;
             payload := ErrorBody ("Missing required field: " +:+ field) false |},
          {| draws := fun _ => 0%nat; cursor := 0; service := fun _ => ConnectionFailed;
             posts := [] |}).
Proof.
  refine (proj1 (missing_field_rejected no_parse (fun _ => "") ∅ _ "weight" _ _)).
  - unfold required_fields. set_solver.
  - reflexivity.
Defined.

(** ** C10: one day of meals *)

Lemma choice_spec (options : list string) (w : world) :
  options <> [] -> exists o, o ∈ options /\ choice options w = (Ok o, advance w).
Proof.
  intros Hne. unfold choice.
  assert (Hlt : (draws w (cursor w) mod length options < length options)%nat).
  { apply Nat.mod_upper_bound. destruct options; [congruence | discriminate]. }
  destruct (lookup_lt_is_Some_2 _ _ Hlt) as [o Ho]. rewrite Ho.
  exists o. split; [ | reflexivity]. eapply list_elem_of_lookup_2, Ho.
Qed.

(** A day is built from the three rounded shares and five draws; when a
    share cannot be computed nothing is drawn. *)
Lemma generate_daily_meals_cases (daily_calories : Z) (user_data : pyval) (w : world) :
  match rounded_share daily_calories (Float.lit 25 2),
        rounded_share daily_calories (Float.lit 10 2),
        rounded_share daily_calories (Float.lit 30 2) with
  | Ok c25, Ok c10, Ok c30 =>
      exists breakfast morning_snack lunch afternoon_snack dinner,
        breakfast ∈ breakfast_options /\ morning_snack ∈ snack_options
        /\ lunch ∈ lunch_options /\ afternoon_snack ∈ snack_options
        /\ dinner ∈ dinner_options
        /\ generate_daily_meals daily_calories user_data w
           = (Ok (day_of c25 c10 c30 c10 c25
                         breakfast morning_snack lunch afternoon_snack dinner),
              Nat.iter 5 advance w)
  | _, _, _ => exists e, generate_daily_meals daily_calories user_data w = (Raise e, w)
  end.
Proof.
  unfold generate_daily_meals, lift, mbind, M_bind.
  destruct (rounded_share daily_calories (Float.lit 25 2)) as [c25 | e]; [ | eauto].
  destruct (rounded_share daily_calories (Float.lit 10 2)) as [c10 | e]; [ | eauto].
  destruct (rounded_share daily_calories (Float.lit 30 2)) as [c30 | e]; [ | eauto].
  destruct (choice_spec breakfast_options w ltac:(discriminate)) as (b & Hb & ->).
  destruct (choice_spec snack_options (advance w) ltac:(discriminate)) as (s1 & Hs1 & ->).
  destruct (choice_spec lunch_options (advance (advance w)) ltac:(discriminate))
    as (l & Hl & ->).
  destruct (choice_spec snack_options (advance (advance (advance w))) ltac:(discriminate))
    as (s2 & Hs2 & ->).
  destruct (choice_spec dinner_options (advance (advance (advance (advance w))))
              ltac:(discriminate)) as (d & Hd & ->).
  exists b, s1, l, s2, d. repeat (split; [assumption | ]). reflexivity.
Qed.

Lemma generate_daily_meals_inv (daily_calories : Z) (user_data : pyval) (w w' : world)
    (meals : gmap string meal_slot) :
  generate_daily_meals daily_calories user_data w = (Ok meals, w') ->
  exists c25 c10 c30 breakfast morning_snack lunch afternoon_snack dinner,
    rounded_share daily_calories (Float.lit 25 2) = Ok c25
    /\ rounded_share daily_calories (Float.lit 10 2) = Ok c10
    /\ rounded_share daily_calories (Float.lit 30 2) = Ok c30
    /\ breakfast ∈ breakfast_options /\ morning_snack ∈ snack_options
    /\ lunch ∈ lunch_options /\ afternoon_snack ∈ snack_options
    /\ dinner ∈ dinner_options
    /\ meals = day_of c25 c10 c30 c10 c25
                      breakfast morning_snack lunch afternoon_snack dinner
    /\ w' = Nat.iter 5 advance w.
Proof.
  intros Hrun. pose proof (generate_daily_meals_cases daily_calories user_data w) as H.
  destruct (rounded_share daily_calories (Float.lit 25 2)) as [c25 | e];
    [ | destruct H as [e' H]; congruence].
  destruct (rounded_share daily_calories (Float.lit 10 2)) as [c10 | e];
    [ | destruct H as [e' H]; congruence].
  destruct (rounded_share daily_calories (Float.lit 30 2)) as [c30 | e];
    [ | destruct H as [e' H]; congruence].
  destruct H as (b & s1 & l & s2 & d & Hb & Hs1 & Hl & Hs2 & Hd & Heq).
  rewrite Heq in Hrun. injection Hrun as <- <-.
  exists c25, c10, c30, b, s1, l, s2, d. repeat (split; [assumption || reflexivity | ]).
  reflexivity.
Qed.

Lemma day_of_calories (c1 c2 c3 c4 c5 : Z) (b s1 l s2 d : string) :
  calories <$> day_of c1 c2 c3 c4 c5 b s1 l s2 d
  = list_to_map [ ("breakfast", c1); ("morning_snack", c2); ("lunch", c3);
                  ("afternoon_snack", c4); ("dinner", c5) ].
Proof.
  unfold day_of. cbn [list_to_map foldr uncurry]. by rewrite !fmap_insert, fmap_empty.
Qed.

Lemma day_of_slots (c1 c2 c3 c4 c5 : Z) (b s1 l s2 d : string)
    (slot : string) (options : list string) :
  b ∈ breakfast_options -> s1 ∈ snack_options -> l ∈ lunch_options ->
  s2 ∈ snack_options -> d ∈ dinner_options ->
  (slot, options) ∈ slot_options ->
  exists entry, day_of c1 c2 c3 c4 c5 b s1 l s2 d !! slot = Some entry
                /\ meal entry ∈ options.
Proof.
  intros Hb Hs1 Hl Hs2 Hd Hin. unfold slot_options in Hin.
  repeat (apply elem_of_cons in Hin; destruct Hin as [[= -> ->] | Hin];
          [eexists; split; [vm_compute; reflexivity | assumption] | ]).
  apply elem_of_nil in Hin. destruct Hin.
Qed.

(** C10. Two runs of [generate_daily_meals] on the same [daily_calories],
    whatever the draws (and the profile), return days with the same
    calories in every slot; the descriptions are drawn from the slot's list
    of four options, the snack list serving both snack slots. *)
Theorem calories_independent_of_draws (daily_calories : Z) (user_data1 user_data2 : pyval)
    (w1 w2 w1' w2' : world) (meals1 meals2 : gmap string meal_slot) :
  generate_daily_meals daily_calories user_data1 w1 = (Ok meals1, w1') ->
  generate_daily_meals daily_calories user_data2 w2 = (Ok meals2, w2') ->
  calories <$> meals1 = calories <$> meals2
  /\ (forall slot, calories <$> (meals1 !! slot) = calories <$> (meals2 !! slot))
  /\ (forall slot options, (slot, options) ∈ slot_options ->
        length options = 4%nat
        /\ exists entry, meals1 !! slot = Some entry /\ meal entry ∈ options)
  /\ dom meals1 = list_to_set slot_options.*1
  /\ slot_options.*2 = [ breakfast_options; snack_options; lunch_options;
                         snack_options; dinner_options ].
Proof.
  intros Hrun1 Hrun2.
  destruct (generate_daily_meals_inv _ _ _ _ _ Hrun1)
    as (c25 & c10 & c30 & b & s1 & l & s2 & d
        & H25 & H10 & H30 & Hb & Hs1 & Hl & Hs2 & Hd & -> & _).
  destruct (generate_daily_meals_inv _ _ _ _ _ Hrun2)
    as (c25' & c10' & c30' & b' & s1' & l' & s2' & d'
        & H25' & H10' & H30' & _ & _ & _ & _ & _ & -> & _).
  rewrite H25 in H25'. rewrite H10 in H10'. rewrite H30 in H30'.
  injection H25' as <-. injection H10' as <-. injection H30' as <-.
  assert (Hcal : calories <$> day_of c25 c10 c30 c10 c25 b s1 l s2 d
                 = calories <$> day_of c25 c10 c30 c10 c25 b' s1' l' s2' d')
    by (rewrite !day_of_calories; reflexivity).
  split; [exact Hcal | ].
  split; [intros slot; rewrite <- !lookup_fmap, Hcal; reflexivity | ].
  split.
  { intros slot options Hin. split.
    - unfold slot_options in Hin.
      repeat (apply elem_of_cons in Hin; destruct Hin as [[= -> ->] | Hin];
              [reflexivity | ]).
      apply elem_of_nil in Hin. destruct Hin.
    - apply day_of_slots; assumption. }
  split; [ | reflexivity].
  unfold day_of. cbn [list_to_map foldr uncurry].
  rewrite !dom_insert_L, dom_empty_L. cbn. set_solver.
Qed.

Lemma calories_independent_of_draws_witness :
  calories <$> (day_of 636 254 763 254 636
                  "Oatmeal with banana and almonds" "Apple with almond butter"
                  "Grilled chicken with quinoa and vegetables" "Apple with almond butter"
                  "Lean beef with roasted vegetables")
  = calories <$> (day_of 636 254 763 254 636
                    "Greek yogurt with berries and granola" "Greek yogurt with honey"
                    "Chickpea salad with mixed greens" "Apple with almond butter"
                    "Salmon with asparagus and wild rice").
Proof.
  assert (H1 : generate_daily_meals 2544 PNone (world_of (fun _ => 0%nat) ConnectionFailed)
               = (Ok (day_of 636 254 763 254 636
                        "Oatmeal with banana and almonds" "Apple with almond butter"
                        "Grilled chicken with quinoa and vegetables"
                        "Apple with almond butter" "Lean beef with roasted vegetables"),
                  Nat.iter 5 advance (world_of (fun _ => 0%nat) ConnectionFailed)))
    by (vm_compute; reflexivity).
  assert (H2 : generate_daily_meals 2544 example_profile
                 (world_of S ConnectionFailed)
               = (Ok (day_of 636 254 763 254 636
                        "Greek yogurt with berries and granola" "Greek yogurt with honey"
                        "Chickpea salad with mixed greens" "Apple with almond butter"
                        "Salmon with asparagus and wild rice"),
                  Nat.iter 5 advance
                    (world_of S ConnectionFailed)))
    by (vm_compute; reflexivity).
  exact (proj1 (calories_independent_of_draws _ _ _ _ _ _ _ _ _ H1 H2)).
Defined.

(** ** Rounding to 53 bits *)

Lemma nearest_even_one (p : Z) : Float.nearest_even p 1 = p.
Proof.
  unfold Float.nearest_even. rewrite Z.mod_1_r, Z.div_1_r. reflexivity.
Qed.

Lemma nearest_even_exact (k q : Z) : 0 < q -> Float.nearest_even (k * q) q = k.
Proof.
  intros Hq. apply nearest_even_unique; [exact Hq | ].
  replace (k * q - k * q) with 0 by lia. simpl. lia.
Qed.

Lemma nearest_even_zero (q : Z) : 0 < q -> Float.nearest_even 0 q = 0.
Proof. intros Hq. apply (nearest_even_exact 0 q Hq). Qed.

Lemma nearest_even_scale (p q c : Z) :
  0 < q -> 0 < c -> Float.nearest_even (p * c) (q * c) = Float.nearest_even p q.
Proof.
  intros Hq Hc. unfold Float.nearest_even.
  rewrite Z.div_mul_cancel_r by lia.
  rewrite Zmult_mod_distr_r.
  replace (2 * (p mod q * c)) with (2 * (p mod q) * c) by lia.
  rewrite <- Zmult_compare_compat_r by lia. reflexivity.
Qed.

Lemma nearest_even_tie (p q k : Z) :
  0 < q -> 2 * p = (2 * k + 1) * q ->
  Float.nearest_even p q = if Z.even k then k else k + 1.
Proof.
  intros Hq Htie. unfold Float.nearest_even.
  pose proof (Z.div_mod p q ltac:(lia)) as Hdm.
  pose proof (Z.mod_pos_bound p q Hq) as Hr.
  assert (Hk : p / q = k) by nia.
  assert (Hm : 2 * (p mod q) = q) by nia.
  rewrite Hm, Z.compare_refl, Hk. reflexivity.
Qed.

Lemma nearest_even_strict (p q : Z) :
  0 < q -> 2 * (p mod q) <> q -> 2 * Z.abs (p - Float.nearest_even p q * q) < q.
Proof.
  intros Hq Hne. unfold Float.nearest_even.
  pose proof (Z.div_mod p q ltac:(lia)) as Hdm.
  pose proof (Z.mod_pos_bound p q Hq) as Hr.
  destruct (Z.compare_spec (2 * (p mod q)) q); lia.
Qed.

Lemma half_even_shift (m e k : Z) :
  0 <= k -> Float.half_even (m * 2 ^ k) e = Float.half_even m (e + k).
Proof.
  intros Hk. unfold Float.half_even.
  destruct (Z.leb_spec 0 e) as [He | He].
  - destruct (Z.leb_spec 0 (e + k)); [ | lia].
    rewrite Z.pow_add_r by lia. lia.
  - destruct (Z.leb_spec 0 (e + k)) as [Hek | Hek].
    + replace k with ((e + k) + - e) at 1 by lia.
      rewrite Z.pow_add_r by lia. rewrite Z.mul_assoc.
      apply nearest_even_exact. apply Z.pow_pos_nonneg; lia.
    + replace (- e) with (- (e + k) + k) by lia.
      rewrite Z.pow_add_r by lia.
      apply nearest_even_scale; apply Z.pow_pos_nonneg; lia.
Qed.

Lemma log2_bounds (p : Z) : 0 < p -> 2 ^ Z.log2 p <= p < 2 * 2 ^ Z.log2 p.
Proof.
  intros Hp. pose proof (Z.log2_spec p Hp) as H.
  rewrite Z.pow_succ_r in H by apply Z.log2_nonneg. exact H.
Qed.

Lemma to53_error (p : Z) : 0 < p -> 2 ^ 53 * Z.abs (to53 p - p) <= p.
Proof.
  intros Hp. unfold to53. destruct (Z.ltb_spec 0 (Z.log2 p - 52)) as [Hs | Hs].
  - pose proof (log2_bounds p Hp) as Hl.
    replace (Z.log2 p) with (52 + (Z.log2 p - 52)) in Hl by lia.
    rewrite Z.pow_add_r in Hl by lia.
    set (S := 2 ^ (Z.log2 p - 52)) in *.
    assert (HS : 0 < S) by (apply Z.pow_pos_nonneg; lia).
    pose proof (nearest_even_bound p S HS) as Hb.
    change (2 ^ 53) with (2 * 2 ^ 52). lia.
  - replace (p - p) with 0 by lia. simpl. lia.
Qed.

Lemma norm53_mantissa (p : Z) : 0 < p -> 2 ^ 52 <= (norm53 p).1 < 2 ^ 53.
Proof.
  intros Hp. unfold norm53. pose proof (log2_bounds p Hp) as Hl.
  destruct (Z.ltb_spec 0 (Z.log2 p - 52)) as [Hs | Hs].
  - replace (Z.log2 p) with (52 + (Z.log2 p - 52)) in Hl by lia.
    rewrite Z.pow_add_r in Hl by lia.
    set (S := 2 ^ (Z.log2 p - 52)) in *.
    assert (HS : 0 < S) by (apply Z.pow_pos_nonneg; lia).
    pose proof (nearest_even_bound p S HS) as Hb.
    set (n := Float.nearest_even p S) in *.
    change (2 ^ 53) with (2 * 2 ^ 52) in *.
    assert (2 ^ 52 <= n <= 2 * 2 ^ 52) by nia.
    destruct (Z.eqb_spec n (2 * 2 ^ 52)); simpl; lia.
  - simpl.
    assert (Hsplit : 2 ^ 52 = 2 ^ Z.log2 p * 2 ^ (- (Z.log2 p - 52))).
    { rewrite <- Z.pow_add_r by (pose proof (Z.log2_nonneg p); lia). f_equal. lia. }
    set (T := 2 ^ (- (Z.log2 p - 52))) in *.
    assert (HT : 0 < T) by (apply Z.pow_pos_nonneg; lia).
    change (2 ^ 53) with (2 * 2 ^ 52). rewrite Hsplit. nia.
Qed.

(** The double of [norm53 p] has the value [to53 p]. *)
Lemma norm53_value (p : Z) :
  0 < p ->
  (0 <= (norm53 p).2 -> (norm53 p).1 * 2 ^ (norm53 p).2 = to53 p)
  /\ ((norm53 p).2 < 0 -> (norm53 p).1 = p * 2 ^ (- (norm53 p).2) /\ to53 p = p).
Proof.
  intros Hp. unfold norm53, to53.
  destruct (Z.ltb_spec 0 (Z.log2 p - 52)) as [Hs | Hs].
  - destruct (Z.eqb_spec (Float.nearest_even p (2 ^ (Z.log2 p - 52))) (2 ^ 53)) as [-> | Hn];
      simpl; split; try lia; intros _.
    rewrite Z.pow_add_r by lia. change (2 ^ 53) with (2 ^ 52 * 2 ^ 1). lia.
  - simpl. split; [ | intros _; split; reflexivity].
    intros H0. replace (Z.log2 p - 52) with 0 by lia. simpl. lia.
Qed.

Lemma half_even_norm53 (p e : Z) :
  0 < p ->
  Float.half_even (norm53 p).1 ((norm53 p).2 + e) = Float.half_even (to53 p) e.
Proof.
  intros Hp. destruct (norm53_value p Hp) as [Hnonneg Hneg].
  destruct (Z.le_gt_cases 0 (norm53 p).2) as [Hx | Hx].
  - rewrite <- (Hnonneg Hx). rewrite half_even_shift by exact Hx.
    f_equal. lia.
  - destruct (Hneg Hx) as [-> ->].
    rewrite half_even_shift by lia. f_equal. lia.
Qed.

Lemma ilog2_ratio_one (p : Z) : 0 < p -> Float.ilog2_ratio p 1 = Z.log2 p.
Proof.
  intros Hp. unfold Float.ilog2_ratio. change (Z.log2 1) with 0. rewrite Z.sub_0_r.
  pose proof (Z.log2_nonneg p) as Hl. pose proof (log2_bounds p Hp) as Hb.
  destruct (Z.leb_spec 0 (Z.log2 p)); [ | lia].
  destruct (Z.leb_spec (1 * 2 ^ Z.log2 p) p); [reflexivity | lia].
Qed.

Lemma norm53_exponent (p : Z) : Z.log2 p - 52 <= (norm53 p).2 <= Z.log2 p - 52 + 1.
Proof.
  unfold norm53. destruct (0 <? Z.log2 p - 52); [destruct (_ =? _) | ]; cbn [snd]; lia.
Qed.

(** Rounding an integer multiple of [2^e] above the subnormal doubles and
    within the largest one. *)
Lemma rnd_one (s : bool) (p e : Z) :
  0 < p -> -1074 <= Z.log2 p - 52 + e -> (norm53 p).2 + e <= 971 ->
  Float.rnd s p 1 e = S754_finite s (Z.to_pos (norm53 p).1) ((norm53 p).2 + e).
Proof.
  intros Hp Hlo Hhi. pose proof (norm53_mantissa p Hp) as Hm.
  unfold Float.rnd. rewrite (ilog2_ratio_one p Hp).
  unfold Float.prec, Float.emax.
  change (53 - 1) with 52. change (3 - 1024 - 53) with (-1074). change (1024 - 53) with 971.
  rewrite Z.max_l by lia.
  replace (e - (Z.log2 p + e - 52)) with (- (Z.log2 p - 52)) by lia.
  unfold norm53 in *.
  destruct (Z.ltb_spec 0 (Z.log2 p - 52)) as [Hs | Hs].
  - destruct (Z.leb_spec 0 (- (Z.log2 p - 52))); [lia | ].
    rewrite Z.opp_involutive, Z.mul_1_l.
    set (n := Float.nearest_even p (2 ^ (Z.log2 p - 52))) in *.
    destruct (Z.eqb_spec n (2 ^ 53)) as [Hn | Hn]; simpl in Hm, Hhi |- *.
    + destruct (Z.leb_spec (Z.log2 p + e - 52 + 1) 971); [ | lia].
      f_equal. lia.
    + destruct n as [ | n' | n']; try lia.
      destruct (Z.leb_spec (Z.log2 p + e - 52) 971); [ | lia].
      cbn [Z.to_pos fst snd]. f_equal. lia.
  - destruct (Z.leb_spec 0 (- (Z.log2 p - 52))); [ | lia].
    rewrite nearest_even_one. simpl in Hm, Hhi.
    set (m := p * 2 ^ (- (Z.log2 p - 52))) in *.
    destruct (Z.eqb_spec m (2 ^ 53)) as [Hn | Hn]; [lia | ].
    destruct m as [ | m' | m']; try lia.
    destruct (Z.leb_spec (Z.log2 p + e - 52) 971); [ | lia].
    cbn [Z.to_pos fst snd]. f_equal. lia.
Qed.

(** The same, in the range of the normal doubles. *)
Lemma rnd_q1 (s : bool) (p e : Z) :
  0 < p -> -1074 <= Z.log2 p - 52 + e -> Z.log2 p - 52 + e < 971 ->
  Float.rnd s p 1 e = S754_finite s (Z.to_pos (norm53 p).1) ((norm53 p).2 + e).
Proof.
  intros Hp Hlo Hhi. apply rnd_one; [exact Hp | exact Hlo | ].
  pose proof (norm53_exponent p). lia.
Qed.

Lemma round_rnd_q1 (s : bool) (p e : Z) :
  0 < p -> -1074 <= Z.log2 p - 52 + e -> Z.log2 p - 52 + e < 971 ->
  Float.round (Float.rnd s p 1 e) = Ok (Float.signed s (Float.half_even (to53 p) e)).
Proof.
  intros Hp Hlo Hhi. rewrite rnd_q1 by assumption. cbn [Float.round].
  pose proof (norm53_mantissa p Hp) as Hm.
  rewrite Z2Pos.id by lia. rewrite half_even_norm53 by exact Hp. reflexivity.
Qed.

Lemma to53_scale (p j : Z) : 0 < p -> 0 <= j -> to53 (p * 2 ^ j) = to53 p * 2 ^ j.
Proof.
  intros Hp Hj. unfold to53. rewrite Z.log2_mul_pow2 by lia.
  assert (H2j : 0 < 2 ^ j) by (apply Z.pow_pos_nonneg; lia).
  destruct (Z.ltb_spec 0 (Z.log2 p - 52)) as [Hs | Hs].
  - destruct (Z.ltb_spec 0 (j + Z.log2 p - 52)); [ | lia].
    replace (j + Z.log2 p - 52) with ((Z.log2 p - 52) + j) by lia.
    rewrite Z.pow_add_r by lia.
    rewrite nearest_even_scale by (try apply Z.pow_pos_nonneg; lia). lia.
  - destruct (Z.ltb_spec 0 (j + Z.log2 p - 52)) as [Hs' | Hs']; [ | reflexivity].
    replace (p * 2 ^ j) with (p * 2 ^ (- (Z.log2 p - 52)) * 2 ^ (j + Z.log2 p - 52)).
    + rewrite nearest_even_exact by (apply Z.pow_pos_nonneg; lia). reflexivity.
    + rewrite <- Z.mul_assoc, <- Z.pow_add_r by lia. do 2 f_equal. lia.
Qed.

Lemma norm53_scale (p j : Z) :
  2 ^ 52 <= p -> 0 <= j -> norm53 (p * 2 ^ j) = ((norm53 p).1, (norm53 p).2 + j).
Proof.
  intros Hp Hj. unfold norm53. rewrite Z.log2_mul_pow2 by lia.
  assert (H2j : 0 < 2 ^ j) by (apply Z.pow_pos_nonneg; lia).
  assert (Hl : 52 <= Z.log2 p) by (apply (Z.log2_le_pow2 p 52); lia).
  destruct (Z.ltb_spec 0 (Z.log2 p - 52)) as [Hs | Hs].
  - destruct (Z.ltb_spec 0 (j + Z.log2 p - 52)); [ | lia].
    replace (j + Z.log2 p - 52) with ((Z.log2 p - 52) + j) by lia.
    rewrite Z.pow_add_r by lia.
    rewrite nearest_even_scale by (try apply Z.pow_pos_nonneg; lia).
    destruct (Float.nearest_even p (2 ^ (Z.log2 p - 52)) =? 2 ^ 53); simpl; f_equal; lia.
  - assert (Hl52 : Z.log2 p = 52) by lia. rewrite Hl52.
    replace (j + 52 - 52) with j by lia. change (- (52 - 52)) with 0.
    rewrite Z.pow_0_r, Z.mul_1_r. simpl fst. simpl snd.
    pose proof (log2_bounds p ltac:(lia)) as Hb. rewrite Hl52 in Hb.
    destruct (Z.ltb_spec 0 j) as [Hj0 | Hj0].
    + rewrite nearest_even_exact by exact H2j.
      destruct (Z.eqb_spec p (2 ^ 53)) as [Hp53 | _];
        [change (2 ^ 53) with (2 * 2 ^ 52) in Hp53; lia | reflexivity].
    + replace j with 0 by lia. rewrite Z.pow_0_r. f_equal; lia.
Qed.

Lemma norm53_small (n : Z) :
  0 < n < 2 ^ 53 -> norm53 n = (n * 2 ^ (52 - Z.log2 n), Z.log2 n - 52).
Proof.
  intros Hn. unfold norm53.
  assert (Z.log2 n < 53) by (apply Z.log2_lt_pow2; lia).
  destruct (Z.ltb_spec 0 (Z.log2 n - 52)); [lia | ].
  replace (- (Z.log2 n - 52)) with (52 - Z.log2 n) by lia. reflexivity.
Qed.

(** [float(z)] for an integer of at most 53 bits. *)
Lemma of_Z_value (z : Z) :
  z <> 0 -> Z.abs z < 2 ^ 53 ->
  Float.of_Z z = S754_finite (z <? 0) (Z.to_pos (Z.abs z * 2 ^ (52 - Z.log2 (Z.abs z))))
                             (Z.log2 (Z.abs z) - 52).
Proof.
  intros Hz Hlt.
  assert (Hl : 0 <= Z.log2 (Z.abs z) < 53)
    by (split; [apply Z.log2_nonneg | apply Z.log2_lt_pow2; lia]).
  assert (Hrnd : forall s, Float.rnd s (Z.abs z) 1 0
                           = S754_finite s (Z.to_pos (Z.abs z * 2 ^ (52 - Z.log2 (Z.abs z))))
                                         (Z.log2 (Z.abs z) - 52)).
  { intros s. rewrite rnd_q1 by lia. rewrite norm53_small by lia.
    cbn [fst snd]. f_equal. lia. }
  unfold Float.of_Z, Float.of_dyadic.
  destruct z as [ | p | p]; [congruence | exact (Hrnd false) | exact (Hrnd true)].
Qed.

(** The product of such an integer and a positive normal double. *)
Lemma mul_int_literal (z : Z) (mc : positive) (ec : Z) :
  z <> 0 -> Z.abs z < 2 ^ 53 -> 2 ^ 52 <= Zpos mc < 2 ^ 53 -> -900 <= ec <= 800 ->
  Float.mul (Float.of_Z z) (S754_finite false mc ec)
  = S754_finite (z <? 0) (Z.to_pos (norm53 (Z.abs z * Zpos mc)).1)
                ((norm53 (Z.abs z * Zpos mc)).2 + ec).
Proof.
  intros Hz Hlt Hmc Hec. rewrite of_Z_value by assumption.
  set (n := Z.abs z) in *. assert (Hn : 0 < n) by lia.
  assert (Hl : 0 <= Z.log2 n < 53)
    by (split; [apply Z.log2_nonneg | apply Z.log2_lt_pow2; lia]).
  set (j := 52 - Z.log2 n).
  assert (H2j : 0 < 2 ^ j) by (apply Z.pow_pos_nonneg; lia).
  unfold Float.mul. rewrite xorb_false_r.
  rewrite Z2Pos.id by nia.
  replace (n * 2 ^ j * Z.pos mc) with (n * Z.pos mc * 2 ^ j) by lia.
  assert (HX : 2 ^ 52 <= n * Z.pos mc) by nia.
  assert (HXhi : n * Z.pos mc < 2 ^ 106).
  { change (2 ^ 106) with (2 ^ 53 * 2 ^ 53). nia. }
  assert (HlX : 52 <= Z.log2 (n * Z.pos mc) < 106).
  { split; [apply Z.log2_le_pow2; lia | apply Z.log2_lt_pow2; lia]. }
  rewrite rnd_q1.
  - rewrite norm53_scale by lia. cbn [fst snd]. f_equal. lia.
  - nia.
  - rewrite Z.log2_mul_pow2 by lia. lia.
  - rewrite Z.log2_mul_pow2 by lia. lia.
Qed.

(** ** Bounds of the nearest integer *)

Lemma nearest_even_le (p q c : Z) : 0 < q -> p <= c * q -> Float.nearest_even p q <= c.
Proof.
  intros Hq Hp. pose proof (nearest_even_bound p q Hq) as Hb.
  set (n := Float.nearest_even p q) in *.
  assert (H : q * (2 * (n - c) - 1) <= q * 0) by lia.
  destruct (Z.le_gt_cases n c) as [Hle | Hgt]; [exact Hle | exfalso].
  assert (q * 1 <= q * (2 * (n - c) - 1)) by (apply Z.mul_le_mono_nonneg_l; lia).
  lia.
Qed.

Lemma nearest_even_nonneg (p q : Z) : 0 < q -> 0 <= p -> 0 <= Float.nearest_even p q.
Proof.
  intros Hq Hp. pose proof (nearest_even_bound p q Hq) as Hb.
  set (n := Float.nearest_even p q) in *.
  destruct (Z.le_gt_cases 0 n) as [Hle | Hgt]; [exact Hle | exfalso].
  assert (q * n <= q * (-1)) by (apply Z.mul_le_mono_nonneg_l; lia).
  lia.
Qed.

(** ** Doubles as real numbers *)

Lemma pow2R_pos (z : Z) : (0 < powerRZ 2 z)%R.
Proof. apply powerRZ_lt. lra. Qed.

Lemma pow2R_add (a b : Z) : powerRZ 2 (a + b) = (powerRZ 2 a * powerRZ 2 b)%R.
Proof. apply powerRZ_add. lra. Qed.

Lemma pow2R_IZR (z : Z) : 0 <= z -> IZR (2 ^ z) = powerRZ 2 z.
Proof.
  intros Hz. rewrite <- (Z2Nat.id z Hz) at 1 2.
  rewrite <- pow_IZR, pow_powerRZ. reflexivity.
Qed.

Lemma pow2R_le (a b : Z) : a <= b -> (powerRZ 2 a <= powerRZ 2 b)%R.
Proof.
  intros Hab. replace b with (a + (b - a)) by lia. rewrite pow2R_add.
  rewrite <- (pow2R_IZR (b - a)) by lia.
  assert (H1 : (1 <= IZR (2 ^ (b - a)))%R).
  { apply IZR_le. pose proof (Z.pow_pos_nonneg 2 (b - a)). lia. }
  pose proof (pow2R_pos a). nra.
Qed.

Lemma pow2R_lt (a b : Z) : a < b -> (powerRZ 2 a < powerRZ 2 b)%R.
Proof.
  intros Hab. replace b with (a + (b - a)) by lia. rewrite pow2R_add.
  rewrite <- (pow2R_IZR (b - a)) by lia.
  assert (H1 : (2 <= IZR (2 ^ (b - a)))%R).
  { apply IZR_le. replace (b - a) with (Z.succ (b - a - 1)) by lia.
    rewrite Z.pow_succ_r by lia. pose proof (Z.pow_pos_nonneg 2 (b - a - 1)). lia. }
  pose proof (pow2R_pos a). nra.
Qed.

Lemma pow2R_lt_inv (a b : Z) : (powerRZ 2 a < powerRZ 2 b)%R -> a < b.
Proof.
  intros H. destruct (Z.lt_ge_cases a b) as [Hlt | Hge]; [exact Hlt | ].
  pose proof (pow2R_le b a Hge). lra.
Qed.

(** The bounds of a positive integer between two powers of two. *)
Lemma log2_bounds_R (p : Z) :
  0 < p -> (powerRZ 2 (Z.log2 p) <= IZR p < powerRZ 2 (Z.log2 p + 1))%R.
Proof.
  intros Hp. pose proof (Z.log2_spec p Hp) as [Hlo Hhi].
  pose proof (Z.log2_nonneg p) as Hl.
  rewrite <- !pow2R_IZR by lia.
  split; [apply IZR_le; exact Hlo | apply IZR_lt; rewrite <- Z.add_1_r in Hhi; exact Hhi].
Qed.

(** [ilog2_ratio p q] is the exponent of the leading bit of [p / q]. *)
Lemma ilog2_ratio_spec (p q : Z) :
  0 < p -> 0 < q ->
  (powerRZ 2 (Float.ilog2_ratio p q) * IZR q <= IZR p
   < powerRZ 2 (Float.ilog2_ratio p q + 1) * IZR q)%R.
Proof.
  intros Hp Hq.
  pose proof (log2_bounds_R p Hp) as [Hp1 Hp2].
  pose proof (log2_bounds_R q Hq) as [Hq1 Hq2].
  assert (HQ : (0 < IZR q)%R) by (apply IZR_lt; exact Hq).
  unfold Float.ilog2_ratio. set (l := Z.log2 p - Z.log2 q).
  assert (Htest : (if 0 <=? l then q * 2 ^ l <=? p else q <=? p * 2 ^ (- l)) = true
                  <-> (powerRZ 2 l * IZR q <= IZR p)%R).
  { destruct (Z.leb_spec 0 l) as [Hl | Hl].
    - rewrite Z.leb_le. rewrite <- pow2R_IZR by lia. rewrite <- mult_IZR.
      split; [intros H; apply IZR_le; lia | intros H; apply le_IZR in H; lia].
    - rewrite Z.leb_le.
      assert (Hinv : (powerRZ 2 l * IZR (2 ^ (- l)) = 1)%R).
      { rewrite pow2R_IZR by lia. rewrite <- pow2R_add.
        replace (l + - l) with 0 by lia. reflexivity. }
      pose proof (pow2R_pos l) as Hpl.
      assert (Hpn : (0 < IZR (2 ^ (- l)))%R)
        by (apply IZR_lt, Z.pow_pos_nonneg; lia).
      split.
      + intros H. apply IZR_le in H. rewrite mult_IZR in H. nra.
      + intros H. apply le_IZR. rewrite mult_IZR. nra. }
  pose proof (pow2R_pos l) as Hl0.
  assert (Hup : (IZR p < powerRZ 2 (l + 1) * IZR q)%R).
  { replace (l + 1) with ((Z.log2 p + 1) + - Z.log2 q) by (unfold l; lia).
    rewrite pow2R_add.
    assert (Hinv : (powerRZ 2 (- Z.log2 q) * powerRZ 2 (Z.log2 q) = 1)%R).
    { rewrite <- pow2R_add. replace (- Z.log2 q + Z.log2 q) with 0 by lia. reflexivity. }
    pose proof (pow2R_pos (- Z.log2 q)) as HN. pose proof (pow2R_pos (Z.log2 p + 1)) as HA.
    set (A := powerRZ 2 (Z.log2 p + 1)) in *. set (N := powerRZ 2 (- Z.log2 q)) in *.
    set (B := powerRZ 2 (Z.log2 q)) in *.
    assert (HAN : (0 <= A * N)%R) by nra.
    assert (H1 : (A * N * B <= A * N * IZR q)%R) by (apply Rmult_le_compat_l; lra).
    replace (A * N * B)%R with (A * (N * B))%R in H1 by ring. rewrite Hinv in H1. lra. }
  assert (Hdown : (powerRZ 2 (l - 1) * IZR q <= IZR p)%R).
  { replace (l - 1) with (Z.log2 p + - (Z.log2 q + 1)) by (unfold l; lia).
    rewrite pow2R_add.
    assert (Hinv : (powerRZ 2 (- (Z.log2 q + 1)) * powerRZ 2 (Z.log2 q + 1) = 1)%R).
    { rewrite <- pow2R_add. replace (- (Z.log2 q + 1) + (Z.log2 q + 1)) with 0 by lia.
      reflexivity. }
    pose proof (pow2R_pos (- (Z.log2 q + 1))) as HN. pose proof (pow2R_pos (Z.log2 p)) as HA.
    set (A := powerRZ 2 (Z.log2 p)) in *. set (N := powerRZ 2 (- (Z.log2 q + 1))) in *.
    set (B := powerRZ 2 (Z.log2 q + 1)) in *.
    assert (HAN : (0 <= A * N)%R) by nra.
    assert (H1 : (A * N * IZR q <= A * N * B)%R) by (apply Rmult_le_compat_l; lra).
    replace (A * N * B)%R with (A * (N * B))%R in H1 by ring. rewrite Hinv in H1. lra. }
  destruct (if 0 <=? l then q * 2 ^ l <=? p else q <=? p * 2 ^ (- l)) eqn:Ht.
  - split; [apply Htest; reflexivity | exact Hup].
  - split; [exact Hdown | ].
    replace (l - 1 + 1) with l by lia.
    apply Rnot_le_lt. intros H. apply Htest in H. discriminate H.
Qed.

Lemma Rabs_bounds (x y : R) : (Rabs x <= y)%R -> (- y <= x <= y)%R.
Proof. unfold Rabs. destruct (Rcase_abs x); lra. Qed.

(** The error of one rounding, on the reals: [M] is an integer nearest to
    [P * T / Q], which has 53 bits, and [U] is the weight of its last bit. *)
Lemma rounding_error (M Q PT U x : R) :
  (0 < Q)%R -> (0 < U)%R ->
  (Rabs (M * Q - PT) <= Q / 2)%R ->
  (4503599627370496 * Q <= PT)%R ->
  (x * Q = PT * U)%R ->
  (Rabs (M * U - x) <= x / 9007199254740992)%R.
Proof.
  intros HQ HU Hnear Hbig Hx.
  assert (HxU : (4503599627370496 * U <= x)%R).
  { apply Rmult_le_reg_r with Q; [exact HQ | ]. rewrite Hx. nra. }
  assert (Herr : (Rabs (M * U - x) * Q <= U / 2 * Q)%R).
  { rewrite <- (Rabs_pos_eq Q) at 1 by lra. rewrite <- Rabs_mult.
    replace ((M * U - x) * Q)%R with (U * (M * Q - PT))%R by (rewrite Rmult_minus_distr_r, Hx; ring).
    rewrite Rabs_mult, (Rabs_pos_eq U) by lra. nra. }
  apply Rmult_le_reg_r in Herr; [ | exact HQ]. lra.
Qed.

Lemma rnd_error (s : bool) (p q e : Z) :
  0 < p -> 0 < q ->
  -1022 <= Float.ilog2_ratio p q + e <= 1022 ->
  exists (m : positive) (u : Z),
    Float.rnd s p q e = S754_finite s m u
    /\ 2 ^ 52 <= Zpos m < 2 ^ 53
    /\ Float.ilog2_ratio p q + e - 52 <= u <= Float.ilog2_ratio p q + e - 51
    /\ forall x : R, (x * IZR q = IZR p * powerRZ 2 e)%R ->
         (Rabs (IZR (Zpos m) * powerRZ 2 u - x) <= x / 9007199254740992)%R.
Proof.
  intros Hp Hq Hrange.
  pose proof (ilog2_ratio_spec p q Hp Hq) as [Hlo Hhi].
  assert (HQ : (0 < IZR q)%R) by (apply IZR_lt; exact Hq).
  assert (HP : (0 < IZR p)%R) by (apply IZR_lt; exact Hp).
  unfold Float.rnd. set (l := Float.ilog2_ratio p q) in *.
  unfold Float.prec, Float.emax.
  change (53 - 1) with 52. change (3 - 1024 - 53) with (-1074). change (1024 - 53) with 971.
  rewrite Z.max_l by lia. set (u := l + e - 52).
  replace (e - u) with (52 - l) by (unfold u; lia). set (t := 52 - l).
  set (m0 := if 0 <=? t then Float.nearest_even (p * 2 ^ t) q
             else Float.nearest_even p (q * 2 ^ (- t))).
  pose proof (pow2R_pos t) as HT. pose proof (pow2R_pos u) as HU.
  (* the mantissa is nearest to the scaled quotient *)
  assert (Hnear : (Rabs (IZR m0 * IZR q - IZR p * powerRZ 2 t) <= IZR q / 2)%R).
  { unfold m0. destruct (Z.leb_spec 0 t) as [Ht | Ht].
    - pose proof (nearest_even_bound (p * 2 ^ t) q Hq) as Hb.
      apply IZR_le in Hb. rewrite mult_IZR, abs_IZR, minus_IZR, !mult_IZR in Hb.
      rewrite pow2R_IZR in Hb by exact Ht.
      rewrite Rabs_minus_sym. lra.
    - assert (Hq' : 0 < q * 2 ^ (- t)) by (apply Z.mul_pos_pos; [lia | apply Z.pow_pos_nonneg; lia]).
      pose proof (nearest_even_bound p (q * 2 ^ (- t)) Hq') as Hb.
      set (n := Float.nearest_even p (q * 2 ^ (- t))) in *.
      apply IZR_le in Hb. rewrite mult_IZR, abs_IZR, minus_IZR, !mult_IZR in Hb.
      rewrite pow2R_IZR in Hb by lia.
      pose proof (pow2R_pos (- t)) as HN.
      assert (Hinv : (powerRZ 2 (- t) * powerRZ 2 t = 1)%R).
      { rewrite <- pow2R_add. replace (- t + t) with 0 by lia. reflexivity. }
      set (N := powerRZ 2 (- t)) in *. set (T := powerRZ 2 t) in *.
      replace (IZR n * IZR q - IZR p * T)%R
        with ((IZR n * (IZR q * N) - IZR p) * T)%R
        by (transitivity (IZR n * IZR q * (N * T) - IZR p * T)%R; [ring | rewrite Hinv; ring]).
      rewrite Rabs_mult, (Rabs_pos_eq T) by lra.
      rewrite Rabs_minus_sym.
      assert (H2 : (Rabs (IZR p - IZR n * (IZR q * N)) * T <= IZR q * N / 2 * T)%R)
        by (apply Rmult_le_compat_r; lra).
      replace (IZR q * N / 2 * T)%R with (IZR q / 2 * (N * T))%R in H2 by field.
      rewrite Hinv in H2. lra. }
  (* the scaled quotient has 53 bits *)
  assert (Hbits : (4503599627370496 * IZR q <= IZR p * powerRZ 2 t
                   < 9007199254740992 * IZR q)%R).
  { assert (E52 : (powerRZ 2 t * powerRZ 2 l = 4503599627370496)%R).
    { rewrite <- pow2R_add. replace (t + l) with 52 by (unfold t; lia).
      rewrite <- pow2R_IZR by lia. reflexivity. }
    assert (E53 : (powerRZ 2 t * powerRZ 2 (l + 1) = 9007199254740992)%R).
    { rewrite <- pow2R_add. replace (t + (l + 1)) with 53 by (unfold t; lia).
      rewrite <- pow2R_IZR by lia. reflexivity. }
    set (T := powerRZ 2 t) in *.
    assert (H1 : (T * (powerRZ 2 l * IZR q) <= T * IZR p)%R)
      by (apply Rmult_le_compat_l; lra).
    assert (H2 : (T * IZR p < T * (powerRZ 2 (l + 1) * IZR q))%R)
      by (apply Rmult_lt_compat_l; lra).
    rewrite <- Rmult_assoc in H1, H2. rewrite E52 in H1. rewrite E53 in H2. lra. }
  assert (Hm0 : 2 ^ 52 <= m0 <= 2 ^ 53).
  { pose proof (Rabs_bounds _ _ Hnear) as [Hn1 Hn2]. split.
    - assert (H : (IZR (2 ^ 52 - 1) < IZR m0)%R).
      { change (2 ^ 52 - 1) with 4503599627370495.
        apply Rmult_lt_reg_r with (IZR q); [exact HQ | ]. lra. }
      apply lt_IZR in H. lia.
    - assert (H : (IZR m0 < IZR (2 ^ 53 + 1))%R).
      { change (2 ^ 53 + 1) with 9007199254740993.
        apply Rmult_lt_reg_r with (IZR q); [exact HQ | ]. lra. }
      apply lt_IZR in H. lia. }
  assert (Hval : forall x : R, (x * IZR q = IZR p * powerRZ 2 e)%R ->
                   (Rabs (IZR m0 * powerRZ 2 u - x) <= x / 9007199254740992)%R).
  { intros x Hx. apply (rounding_error _ (IZR q) (IZR p * powerRZ 2 t)); try assumption.
    - apply Hbits.
    - rewrite Hx. replace e with (t + u) at 1 by (unfold t, u; lia).
      rewrite pow2R_add. ring. }
  fold m0.
  destruct (Z.eqb_spec m0 (2 ^ 53)) as [Htop | Hin].
  - change (2 ^ 52) with 4503599627370496.
    destruct (Z.leb_spec (u + 1) 971); [ | unfold u in *; lia].
    exists 4503599627370496%positive, (u + 1).
    split; [reflexivity | ]. split; [cbn; lia | ]. split; [unfold u; lia | ].
    intros x Hx. specialize (Hval x Hx). rewrite Htop in Hval.
    rewrite pow2R_add. change (powerRZ 2 1) with (2 * 1)%R.
    change (2 ^ 53) with 9007199254740992 in Hval.
    replace (4503599627370496 * (powerRZ 2 u * (2 * 1)))%R
      with (9007199254740992 * powerRZ 2 u)%R by ring.
    exact Hval.
  - destruct m0 as [ | m' | m']; try lia.
    destruct (Z.leb_spec u 971); [ | unfold u in *; lia].
    exists m', u. split; [reflexivity | ]. split; [lia | ].
    split; [unfold u; lia | exact Hval].
Qed.

Lemma half_even_R (m e : Z) :
  (Rabs (IZR (Float.half_even m e) - IZR m * powerRZ 2 e) <= 1 / 2)%R.
Proof.
  pose proof (half_even_nearest m e) as H. cbv zeta in H.
  set (k := Z.max 0 (- e)) in *.
  assert (Hk : 0 <= k) by (unfold k; lia).
  assert (Hek : 0 <= e + k) by (unfold k; lia).
  apply IZR_le in H.
  rewrite mult_IZR, abs_IZR, minus_IZR, !mult_IZR, !pow2R_IZR in H by lia.
  rewrite pow2R_add in H. pose proof (pow2R_pos k) as HK.
  set (K := powerRZ 2 k) in *.
  replace (IZR (Float.half_even m e) * K - IZR m * (powerRZ 2 e * K))%R
    with ((IZR (Float.half_even m e) - IZR m * powerRZ 2 e) * K)%R in H by ring.
  rewrite Rabs_mult, (Rabs_pos_eq K) in H by lra.
  apply Rmult_le_reg_r with K; [exact HK | ]. lra.
Qed.

Lemma ilog2_ratio_range (p q a b : Z) :
  0 < p -> 0 < q ->
  (powerRZ 2 a * IZR q <= IZR p < powerRZ 2 b * IZR q)%R ->
  a <= Float.ilog2_ratio p q < b.
Proof.
  intros Hp Hq [Hlo Hhi].
  pose proof (ilog2_ratio_spec p q Hp Hq) as [Hl1 Hl2].
  assert (HQ : (0 < IZR q)%R) by (apply IZR_lt; exact Hq).
  split.
  - assert (H : a < Float.ilog2_ratio p q + 1); [ | lia].
    apply pow2R_lt_inv. apply Rmult_lt_reg_r with (IZR q); [exact HQ | lra].
  - apply pow2R_lt_inv. apply Rmult_lt_reg_r with (IZR q); [exact HQ | lra].
Qed.

(** The leading bit of the quotient of two normal mantissas. *)
Lemma ilog2_ratio_normal (mx my : Z) :
  2 ^ 52 <= mx < 2 ^ 53 -> 2 ^ 52 <= my < 2 ^ 53 ->
  -1 <= Float.ilog2_ratio mx my < 1.
Proof.
  intros Hx Hy. apply ilog2_ratio_range; [lia | lia | ].
  change (powerRZ 2 (-1)) with (/ (2 * 1))%R. change (powerRZ 2 1) with (2 * 1)%R.
  assert (H1 : (IZR my <= IZR (2 * mx))%R) by (apply IZR_le; lia).
  assert (H2 : (IZR mx < IZR (2 * my))%R) by (apply IZR_lt; lia).
  rewrite mult_IZR in H1, H2. lra.
Qed.

Lemma value_pos (m : positive) (e : Z) : (0 < IZR (Zpos m) * powerRZ 2 e)%R.
Proof.
  apply Rmult_lt_0_compat; [apply IZR_lt; lia | apply pow2R_pos].
Qed.

Lemma rel_ratio (x y u : R) :
  (0 < y)%R -> (Rabs (x - y) <= y * u)%R -> (Rabs (x / y - 1) <= u)%R.
Proof.
  intros Hy H. replace (x / y - 1)%R with ((x - y) * / y)%R by (field; lra).
  rewrite Rabs_mult, (Rabs_pos_eq (/ y)) by (left; apply Rinv_0_lt_compat; exact Hy).
  apply Rmult_le_reg_r with y; [exact Hy | ].
  rewrite Rmult_assoc, Rinv_l by lra. lra.
Qed.

(** Four relative errors, one of them squared in the denominator. *)
Lemma ratio_bound (u r1 r2 r3 r4 : R) :
  (0 <= u <= 1 / 100)%R ->
  (Rabs (r1 - 1) <= u)%R -> (Rabs (r2 - 1) <= u)%R ->
  (Rabs (r3 - 1) <= 2 * u)%R -> (Rabs (r4 - 1) <= u)%R ->
  ((1 - 8 * u) * (r2 * r2) <= r1 * r3 * r4 <= (1 + 8 * u) * (r2 * r2))%R.
Proof.
  intros Hu H1 H2 H3 H4.
  apply Rabs_bounds in H1, H2, H3, H4.
  assert (H13 : ((1 - u) * (1 - 2 * u) <= r1 * r3 <= (1 + u) * (1 + 2 * u))%R) by nra.
  assert (H134 : ((1 - u) * (1 - 2 * u) * (1 - u) <= r1 * r3 * r4
                  <= (1 + u) * (1 + 2 * u) * (1 + u))%R) by nra.
  assert (H22 : ((1 - u) * (1 - u) <= r2 * r2 <= (1 + u) * (1 + u))%R) by nra.
  split.
  - apply Rle_trans with ((1 - 8 * u) * ((1 + u) * (1 + u)))%R; [nra | ].
    apply Rle_trans with ((1 - u) * (1 - 2 * u) * (1 - u))%R; [nra | lra].
  - apply Rle_trans with ((1 + u) * (1 + 2 * u) * (1 + u))%R; [lra | ].
    apply Rle_trans with ((1 + 8 * u) * ((1 - u) * (1 - u)))%R; nra.
Qed.

(** ** The C library *)

Lemma hundred : Float.of_Z 100 = S754_finite false 7036874417766400 (-46).
Proof. vm_compute. reflexivity. Qed.

(** What an accurate library makes of [x ** 2]: a normal double within one
    unit in the last place of the square, and no exception. *)
Lemma pow2_accurate {libm : Float.Libm} (s : bool) (m : positive) (e : Z) :
  pow_accurate libm ->
  2 ^ 52 <= Zpos m < 2 ^ 53 -> -500 <= e <= 400 ->
  exists (m' : positive) (e' : Z),
    Float.pow2 (S754_finite s m e) = Ok (S754_finite false m' e')
    /\ 2 ^ 52 <= Zpos m' < 2 ^ 53 /\ 2 * e <= e'
    /\ Z.abs (Zpos m' * 2 ^ (e' - 2 * e) - Zpos m * Zpos m) <= 2 ^ (e' - 2 * e).
Proof.
  intros Hacc Hm He. unfold Float.pow2.
  destruct (SFeqb (S754_finite false m e) (Float.of_Z 1)) eqn:Hone.
  - exists 4503599627370496%positive, (-52).
    assert (Heq : m = 4503599627370496%positive /\ e = -52).
    { unfold SFeqb in Hone. change (Float.of_Z 1)
        with (S754_finite false 4503599627370496 (-52)) in Hone.
      cbn [SFcompare] in Hone.
      destruct (Z.compare_spec e (-52)) as [He52 | | ]; try discriminate Hone.
      split; [ | exact He52].
      destruct (Pos.compare_cont Eq m 4503599627370496) eqn:Hc; try discriminate Hone.
      apply Pos.compare_eq in Hc. exact Hc. }
    destruct Heq as [-> ->].
    split; [reflexivity | ]. split; [cbn; lia | ]. split; [lia | ].
    vm_compute. discriminate.
  - destruct (Hacc m e Hm He) as (m' & e' & -> & Hm' & He' & Herr).
    exists m', e'. cbn [Float.adjust_erange]. auto.
Qed.

(** The correctly rounded library is accurate. *)
Lemma exact_libm_accurate : pow_accurate exact_libm.
Proof.
  intros m e Hm He. unfold Float.libm_pow, exact_libm.
  change (SFeqb (Float.of_Z 2) (Float.of_Z 2)) with true. cbv iota.
  assert (HP : 2 ^ 104 <= Z.pos m * Z.pos m < 2 ^ 106).
  { change (2 ^ 104) with (2 ^ 52 * 2 ^ 52). change (2 ^ 106) with (2 ^ 53 * 2 ^ 53).
    split; [apply Z.mul_le_mono_nonneg; lia | apply Z.mul_lt_mono_nonneg; lia]. }
  set (p := Z.pos m * Z.pos m) in *.
  assert (Hp : 0 < p) by lia.
  assert (Hl : 104 <= Z.log2 p < 106)
    by (split; [apply Z.log2_le_pow2; lia | apply Z.log2_lt_pow2; lia]).
  pose proof (norm53_mantissa p Hp) as Hn.
  pose proof (norm53_exponent p) as Hx.
  destruct (norm53_value p Hp) as [Hval _].
  pose proof (to53_error p Hp) as Herr.
  pose proof (log2_bounds p Hp) as Hb.
  exists (Z.to_pos (norm53 p).1), ((norm53 p).2 + (e + e)).
  unfold Float.mul. fold p. rewrite rnd_q1 by lia. cbv iota beta.
  rewrite Z2Pos.id by lia.
  split; [reflexivity | ]. split; [exact Hn | ]. split; [lia | ].
  replace ((norm53 p).2 + (e + e) - 2 * e) with (norm53 p).2 by lia.
  rewrite (Hval ltac:(lia)).
  assert (Hpow : p < 2 ^ 53 * 2 ^ (norm53 p).2).
  { rewrite <- Z.pow_add_r by lia.
    apply Z.lt_le_trans with (2 * 2 ^ Z.log2 p); [lia | ].
    rewrite <- Z.pow_succ_r by lia. apply Z.pow_le_mono_r; lia. }
  assert (H2 : 0 < 2 ^ (norm53 p).2) by (apply Z.pow_pos_nonneg; lia).
  change (2 ^ 53) with 9007199254740992 in *. nia.
Qed.




(** ** The accuracy of [calculate_bmi] *)

(** The weight as a double: a moderate number converts with one rounding. *)
Lemma moderate_double (v : pyval) :
  moderate v ->
  exists (m : positive) (e : Z),
    to_double v = Ok (S754_finite false m e)
    /\ 2 ^ 52 <= Zpos m < 2 ^ 53 /\ -352 <= e <= 248
    /\ (0 < number v)%R
    /\ (Rabs (IZR (Zpos m) * powerRZ 2 e - number v) <= number v / 9007199254740992)%R.
Proof.
  destruct v as [ | | z | x | | | ]; cbn [moderate]; try contradiction.
  - intros [Hz Hsize].
    assert (Hlog : 0 <= Z.log2 z < 300)
      by (split; [apply Z.log2_nonneg | apply Z.log2_lt_pow2; lia]).
    destruct (rnd_error false z 1 0 Hz ltac:(lia)
                ltac:(rewrite ilog2_ratio_one by lia; lia))
      as (m & e & Hrnd & Hm & He & Herr).
    rewrite ilog2_ratio_one in He by lia.
    exists m, e. cbn [to_double number]. unfold int_to_double, Float.of_Z, Float.of_dyadic.
    destruct z as [ | p | p]; try lia. rewrite Hrnd.
    split; [reflexivity | ]. split; [exact Hm | ]. split; [lia | ].
    split; [apply IZR_lt; lia | ].
    apply Herr. cbn [powerRZ]. ring.
  - destruct x as [ | | | [ | ] m e]; try contradiction.
    intros [Hm He]. exists m, e. cbn [to_double number value Float.signed].
    pose proof (value_pos m e) as Hpos.
    split; [reflexivity | ]. split; [exact Hm | ]. split; [lia | ]. split; [exact Hpos | ].
    rewrite Rminus_diag, Rabs_R0. lra.
Qed.

(** The height in metres: [height / 100] is one rounding of the quotient. *)
Lemma moderate_metres (v : pyval) :
  moderate v ->
  exists (m : positive) (e : Z),
    div_by_int v 100 = Ok (S754_finite false m e)
    /\ 2 ^ 52 <= Zpos m < 2 ^ 53 /\ -359 <= e <= 248
    /\ (0 < number v)%R
    /\ (Rabs (IZR (Zpos m) * powerRZ 2 e - number v / 100)
        <= number v / 100 / 9007199254740992)%R.
Proof.
  destruct v as [ | | z | x | | | ]; cbn [moderate]; try contradiction.
  - intros [Hz Hsize].
    assert (HZ : (1 <= IZR z < powerRZ 2 300)%R).
    { rewrite <- pow2R_IZR by lia. split; [apply IZR_le; lia | apply IZR_lt; lia]. }
    assert (Hl : -7 <= Float.ilog2_ratio z 100 < 300).
    { apply ilog2_ratio_range; [lia | lia | ].
      change (powerRZ 2 (-7)) with (/ (2 * (2 * (2 * (2 * (2 * (2 * (2 * 1))))))))%R.
      pose proof (pow2R_pos 300). lra. }
    destruct (rnd_error false z 100 0 Hz ltac:(lia) ltac:(lia))
      as (m & e & Hrnd & Hm & He & Herr).
    exists m, e. cbn [div_by_int number]. destruct z as [ | p | p]; try lia.
    change (int_truediv (Z.pos p) 100)
      with (match Float.rnd false (Z.pos p) 100 0 with
            | S754_infinity _ => Raise OverflowError
            | f => Ok f
            end).
    rewrite Hrnd.
    split; [reflexivity | ]. split; [exact Hm | ]. split; [lia | ].
    split; [lra | ]. apply Herr. cbn [powerRZ]. field.
  - destruct x as [ | | | [ | ] mh eh]; try contradiction.
    intros [Hm He].
    pose proof (ilog2_ratio_normal (Zpos mh) 7036874417766400 Hm ltac:(cbn; lia)) as Hl.
    destruct (rnd_error false (Zpos mh) 7036874417766400 (eh - -46) ltac:(lia) ltac:(lia)
                ltac:(lia)) as (m & e & Hrnd & Hm' & He' & Herr).
    exists m, e. cbn [div_by_int number value Float.signed].
    unfold Float.truediv. rewrite hundred. cbn [Float.is_zero Float.div xorb].
    rewrite Hrnd. pose proof (value_pos mh eh) as Hpos.
    split; [reflexivity | ]. split; [exact Hm' | ]. split; [lia | ]. split; [exact Hpos | ].
    apply Herr. replace (eh - -46) with (eh + 46) by lia. rewrite pow2R_add.
    rewrite <- (pow2R_IZR 46) by lia. change (2 ^ 46) with 70368744177664.
    field.
Qed.

(** The exponent of an accurate square. *)
Lemma square_exponent (m m' d : Z) :
  2 ^ 52 <= m < 2 ^ 53 -> 2 ^ 52 <= m' < 2 ^ 53 -> 0 <= d ->
  Z.abs (m' * 2 ^ d - m * m) <= 2 ^ d -> 51 <= d <= 54.
Proof.
  intros Hm Hm' Hd Herr.
  assert (HP : 2 ^ 104 <= m * m < 2 ^ 106).
  { change (2 ^ 104) with (2 ^ 52 * 2 ^ 52). change (2 ^ 106) with (2 ^ 53 * 2 ^ 53).
    split; [apply Z.mul_le_mono_nonneg; lia | apply Z.mul_lt_mono_nonneg; lia]. }
  assert (HD : 0 < 2 ^ d) by (apply Z.pow_pos_nonneg; lia).
  split.
  - destruct (Z.le_gt_cases 51 d) as [H | H]; [exact H | exfalso].
    assert (2 ^ d <= 2 ^ 50) by (apply Z.pow_le_mono_r; lia).
    change (2 ^ 104) with (2 ^ 54 * 2 ^ 50) in HP.
    change (2 ^ 53) with 9007199254740992 in *. change (2 ^ 54) with 18014398509481984 in *.
    change (2 ^ 50) with 1125899906842624 in *. nia.
  - destruct (Z.le_gt_cases d 54) as [H | H]; [exact H | exfalso].
    assert (2 ^ 55 <= 2 ^ d) by (apply Z.pow_le_mono_r; lia).
    change (2 ^ 106) with (2 ^ 51 * 2 ^ 55) in HP.
    change (2 ^ 52) with 4503599627370496 in *. change (2 ^ 51) with 2251799813685248 in *.
    change (2 ^ 55) with 36028797018963968 in *. nia.
Qed.

(** The double of a decimal [k / 10], against the decimal. *)
Lemma tenths_value (k : Z) :
  0 <= k < 2 ^ 1000 ->
  (Rabs (value (tenths false k) - IZR k / 10) <= IZR k / 10 / 9007199254740992)%R.
Proof.
  intros Hk. unfold tenths. destruct (Z.eqb_spec k 0) as [-> | Hk0].
  - cbn [value]. replace (0 - 0 / 10)%R with 0%R by field. rewrite Rabs_R0. lra.
  - assert (Hpos : 0 < k) by lia.
    assert (HK : (1 <= IZR k < powerRZ 2 1000)%R).
    { rewrite <- pow2R_IZR by lia. split; [apply IZR_le; lia | apply IZR_lt; lia]. }
    assert (Hl : -4 <= Float.ilog2_ratio k 10 < 1000).
    { apply ilog2_ratio_range; [lia | lia | ].
      change (powerRZ 2 (-4)) with (/ (2 * (2 * (2 * (2 * 1)))))%R.
      pose proof (pow2R_pos 1000). lra. }
    destruct (rnd_error false k 10 0 Hpos ltac:(lia) ltac:(lia))
      as (m & e & Hrnd & Hm & He & Herr).
    cbn [Float.signed]. destruct k as [ | p | p]; try lia.
    change (Float.ratio (Z.pos p) 10) with (Float.rnd false (Z.pos p) 10 0).
    rewrite Hrnd. cbn [value Float.signed].
    apply Herr. cbn [powerRZ]. field.
Qed.

Lemma half_even_nonneg (m e : Z) : 0 <= m -> 0 <= Float.half_even m e.
Proof.
  intros Hm. unfold Float.half_even. destruct (Z.leb_spec 0 e).
  - apply Z.mul_nonneg_nonneg; [exact Hm | apply Z.pow_nonneg; lia].
  - apply nearest_even_nonneg; [apply Z.pow_pos_nonneg; lia | exact Hm].
Qed.

Lemma half_even_le (m e c : Z) :
  0 <= m -> 0 <= c -> e <= c -> Float.half_even m e <= m * 2 ^ c.
Proof.
  intros Hm Hc He. unfold Float.half_even. destruct (Z.leb_spec 0 e).
  - apply Z.mul_le_mono_nonneg_l; [exact Hm | apply Z.pow_le_mono_r; lia].
  - assert (H2e : 0 < 2 ^ (- e)) by (apply Z.pow_pos_nonneg; lia).
    assert (H2c : 0 < 2 ^ c) by (apply Z.pow_pos_nonneg; lia).
    apply Z.le_trans with m; [apply nearest_even_le; nia | nia].
Qed.

(** The BMI the code computes, against the formula on the reals: the
    decimal returned is within one twentieth of the exact quotient, up to
    a relative error of [2^-50] that the four roundings leave. *)
Lemma calculate_bmi_accuracy {libm : Float.Libm} (weight height : pyval) :
  pow_accurate libm -> moderate weight -> moderate height ->
  exists k : Z,
    0 <= k
    /\ calculate_bmi weight height = Ok (tenths false k)
    /\ (Rabs (value (tenths false k) - IZR k / 10) <= IZR k / 10 / 2 ^ 53)%R
    /\ (Rabs (IZR k / 10 - bmi_exact weight height)
        <= 1 / 20 + bmi_exact weight height / 2 ^ 50)%R.
Proof.
  intros Hacc Hw Hh.
  destruct (moderate_metres height Hh) as (m1 & e1 & Hdiv & Hm1 & He1 & HH & Herr1).
  destruct (pow2_accurate false m1 e1 Hacc Hm1 ltac:(lia))
    as (ms & es & Hpow & Hms & Hes & Herr2).
  pose proof (square_exponent (Zpos m1) (Zpos ms) (es - 2 * e1) Hm1 Hms ltac:(lia) Herr2)
    as Hd.
  destruct (moderate_double weight Hw) as (mw & ew & Hdbl & Hmw & Hew & HW & Herr0).
  pose proof (ilog2_ratio_normal (Zpos mw) (Zpos ms) Hmw Hms) as Hl.
  destruct (rnd_error false (Zpos mw) (Zpos ms) (ew - es) ltac:(lia) ltac:(lia)
              ltac:(lia)) as (mq & eq & Hrnd & Hmq & Heq & Herr3).
  exists (Float.half_even (10 * Zpos mq) eq).
  split; [apply half_even_nonneg; lia | ].
  split.
  { unfold calculate_bmi. rewrite Hdiv. cbn [mbind result_bind]. rewrite Hpow.
    cbn [mbind result_bind]. rewrite Hdbl. cbn [mbind result_bind].
    unfold Float.truediv. cbn [Float.is_zero mbind result_bind Float.div xorb].
    rewrite Hrnd. reflexivity. }
  split.
  { replace (2 ^ 53)%R with 9007199254740992%R by lra.
    apply tenths_value. split; [apply half_even_nonneg; lia | ].
    apply Z.le_lt_trans with (10 * Zpos mq * 2 ^ 864);
      [apply half_even_le; lia | ].
    change (2 ^ 1000) with (2 ^ 4 * 2 ^ 53 * 2 ^ 79 * 2 ^ 864).
    apply Z.mul_lt_mono_pos_r; [apply Z.pow_pos_nonneg; lia | ].
    change (2 ^ 4) with 16. change (2 ^ 79) with 604462909807314587353088. lia. }
  unfold bmi_exact.
  set (W := number weight) in *. set (H := number height) in *.
  pose proof (value_pos mw ew) as Ha. pose proof (value_pos m1 e1) as Hhm.
  pose proof (value_pos ms es) as Hs. pose proof (value_pos mq eq) as Hq.
  set (a := (IZR (Zpos mw) * powerRZ 2 ew)%R) in *.
  set (hm := (IZR (Zpos m1) * powerRZ 2 e1)%R) in *.
  set (s := (IZR (Zpos ms) * powerRZ 2 es)%R) in *.
  set (q := (IZR (Zpos mq) * powerRZ 2 eq)%R) in *.
  set (u := (/ 9007199254740992)%R).
  (* the square *)
  assert (Hsq : (Rabs (hm * hm - s) <= s * (2 * u))%R).
  { apply IZR_le in Herr2.
    rewrite abs_IZR, minus_IZR, !mult_IZR, !pow2R_IZR in Herr2 by lia.
    pose proof (pow2R_pos (e1 + e1)) as HE.
    assert (Hes2 : (powerRZ 2 (es - 2 * e1) * powerRZ 2 (e1 + e1) = powerRZ 2 es)%R).
    { rewrite <- pow2R_add. f_equal. lia. }
    assert (H1 : (Rabs (IZR (Zpos ms) * powerRZ 2 (es - 2 * e1)
                        - IZR (Zpos m1) * IZR (Zpos m1)) * powerRZ 2 (e1 + e1)
                  <= powerRZ 2 (es - 2 * e1) * powerRZ 2 (e1 + e1))%R)
      by (apply Rmult_le_compat_r; lra).
    rewrite <- (Rabs_pos_eq (powerRZ 2 (e1 + e1))) in H1 at 1 by lra.
    rewrite <- Rabs_mult, Hes2 in H1.
    replace ((IZR (Zpos ms) * powerRZ 2 (es - 2 * e1) - IZR (Zpos m1) * IZR (Zpos m1))
             * powerRZ 2 (e1 + e1))%R with (s - hm * hm)%R in H1.
    2:{ unfold s, hm. rewrite <- Hes2, pow2R_add. ring. }
    rewrite Rabs_minus_sym.
    assert (H2 : (powerRZ 2 es <= s * (2 * u))%R).
    { unfold s, u. pose proof (pow2R_pos es).
      assert (H52 : (4503599627370496 <= IZR (Zpos ms))%R) by (apply IZR_le; lia).
      replace (IZR (Z.pos ms) * powerRZ 2 es * (2 * / 9007199254740992))%R
        with (IZR (Z.pos ms) * / 4503599627370496 * powerRZ 2 es)%R by field.
      nra. }
    lra. }
  (* the quotient *)
  assert (Hquot : (Rabs (q - a / s) <= a / s * u)%R).
  { apply Herr3. unfold a, s.
    replace (ew - es) with (ew + - es) by lia.
    rewrite pow2R_add, powerRZ_neg'.
    pose proof (pow2R_pos es). pose proof (pow2R_pos ew).
    assert (IZR (Zpos ms) <> 0%R) by (apply not_0_IZR; lia).
    field. split; lra. }
  (* the decimal *)
  pose proof (half_even_R (10 * Zpos mq) eq) as Hdec.
  rewrite mult_IZR in Hdec. fold q in Hdec.
  set (k := Float.half_even (10 * Zpos mq) eq) in *.
  replace (IZR 10 * IZR (Zpos mq) * powerRZ 2 eq)%R with (10 * q)%R in Hdec
    by (unfold q; ring).
  (* the four relative errors *)
  assert (Hy : (0 < a / s)%R) by (apply Rdiv_lt_0_compat; assumption).
  assert (HHm : (0 < H / 100)%R) by lra.
  pose proof (rel_ratio a W u HW Herr0) as R1.
  pose proof (rel_ratio hm (H / 100) u HHm Herr1) as R2.
  pose proof (rel_ratio (hm * hm) s (2 * u) Hs Hsq) as R3.
  pose proof (rel_ratio q (a / s) u Hy Hquot) as R4.
  assert (Hu : (0 <= u <= 1 / 100)%R) by (unfold u; lra).
  pose proof (ratio_bound u _ _ _ _ Hu R1 R2 R3 R4) as [Blo Bhi].
  set (B := (W / (H / 100) ^ 2)%R).
  assert (HB : (0 < B)%R).
  { unfold B. apply Rdiv_lt_0_compat; [exact HW | ]. nra. }
  assert (Hr2 : (0 < hm / (H / 100) * (hm / (H / 100)))%R).
  { assert (0 < hm / (H / 100))%R by (apply Rdiv_lt_0_compat; assumption). nra. }
  assert (Heq' : (q * (hm / (H / 100) * (hm / (H / 100)))
                  = B * (a / W * (hm * hm / s) * (q / (a / s))))%R).
  { unfold B. field. repeat split; lra. }
  set (r22 := (hm / (H / 100) * (hm / (H / 100)))%R) in *.
  set (r134 := (a / W * (hm * hm / s) * (q / (a / s)))%R) in *.
  assert (HqB : (B * (1 - 8 * u) <= q <= B * (1 + 8 * u))%R).
  { split.
    - apply Rmult_le_reg_r with r22; [exact Hr2 | ]. rewrite Heq'.
      rewrite Rmult_assoc. apply Rmult_le_compat_l; lra.
    - apply Rmult_le_reg_r with r22; [exact Hr2 | ]. rewrite Heq'.
      rewrite Rmult_assoc. apply Rmult_le_compat_l; lra. }
  replace (2 ^ 50)%R with 1125899906842624%R by lra.
  apply Rabs_bounds in Hdec. unfold u in HqB.
  apply Rabs_le. lra.
Qed.

(** A BMI that is not near a tie is the same on every accurate platform. *)
Lemma calculate_bmi_value {libm : Float.Libm} (weight height : pyval) (n : Z) :
  pow_accurate libm -> moderate weight -> moderate height ->
  (Rabs (10 * bmi_exact weight height - IZR n) <= 9 / 20)%R ->
  (bmi_exact weight height <= 1000)%R ->
  calculate_bmi weight height = Ok (tenths false n).
Proof.
  intros Hacc Hw Hh Hn Hsmall.
  destruct (calculate_bmi_accuracy weight height Hacc Hw Hh) as (k & _ & -> & _ & Hk).
  set (B := bmi_exact weight height) in *.
  replace (2 ^ 50)%R with 1125899906842624%R in Hk by lra.
  apply Rabs_bounds in Hk, Hn.
  assert (H1 : (IZR (n - 1) < IZR k)%R) by (rewrite minus_IZR; lra).
  assert (H2 : (IZR k < IZR (n + 1))%R) by (rewrite plus_IZR; lra).
  apply lt_IZR in H1, H2. replace k with n by lia. reflexivity.
Qed.

(** [float(z)] stands for [z], for an int of at most 53 bits. *)
Lemma value_of_Z (z : Z) : 0 < z < 2 ^ 53 -> value (Float.of_Z z) = IZR z.
Proof.
  intros Hz. rewrite of_Z_value by lia.
  assert (Hl : 0 <= Z.log2 z < 53)
    by (split; [apply Z.log2_nonneg | apply Z.log2_lt_pow2; lia]).
  rewrite Z.abs_eq by lia.
  destruct (Z.ltb_spec z 0); [lia | ].
  assert (Hpos : 0 < z * 2 ^ (52 - Z.log2 z))
    by (apply Z.mul_pos_pos; [lia | apply Z.pow_pos_nonneg; lia]).
  cbn [value Float.signed]. rewrite Z2Pos.id by exact Hpos.
  rewrite mult_IZR, pow2R_IZR by lia. rewrite Rmult_assoc, <- pow2R_add.
  replace (52 - Z.log2 z + (Z.log2 z - 52)) with 0 by lia. cbn [powerRZ]. ring.
Qed.

(** The examples of the specification, on every accurate platform. *)
Lemma calculate_bmi_examples {libm : Float.Libm} :
  pow_accurate libm ->
  calculate_bmi (PInt 70) (PInt 175) = Ok (Float.lit 229 1)
  /\ calculate_bmi (PInt 84) (PInt 190) = Ok (Float.lit 233 1)
  /\ calculate_bmi (PFloat (Float.of_Z 50)) (PFloat (Float.of_Z 160))
     = Ok (Float.lit 195 1).
Proof.
  intros Hacc.
  assert (Hint : forall z, 0 < z < 1000 -> moderate (PInt z)).
  { intros z Hz. cbn [moderate]. split; [lia | ].
    apply Z.lt_trans with (2 ^ 10); [cbn; lia | apply Z.pow_lt_mono_r; lia]. }
  split; [ | split].
  - change (Float.lit 229 1) with (tenths false 229).
    apply calculate_bmi_value; [exact Hacc | apply Hint; lia | apply Hint; lia | | ];
      unfold bmi_exact; cbn [number].
    + replace (10 * (70 / (175 / 100) ^ 2) - 229)%R with (- (3 / 7))%R by field.
      rewrite Rabs_Ropp, Rabs_pos_eq; lra.
    + replace (70 / (175 / 100) ^ 2)%R with (160 / 7)%R by field. lra.
  - change (Float.lit 233 1) with (tenths false 233).
    apply calculate_bmi_value; [exact Hacc | apply Hint; lia | apply Hint; lia | | ];
      unfold bmi_exact; cbn [number].
    + replace (10 * (84 / (190 / 100) ^ 2) - 233)%R with (- (113 / 361))%R by field.
      rewrite Rabs_Ropp, Rabs_pos_eq; lra.
    + replace (84 / (190 / 100) ^ 2)%R with (8400 / 361)%R by field. lra.
  - change (Float.lit 195 1) with (tenths false 195).
    assert (H50 : moderate (PFloat (Float.of_Z 50))) by (vm_compute; intuition discriminate).
    assert (H160 : moderate (PFloat (Float.of_Z 160)))
      by (vm_compute; intuition discriminate).
    apply calculate_bmi_value; [exact Hacc | exact H50 | exact H160 | | ];
      unfold bmi_exact; cbn [number]; rewrite !value_of_Z by (cbn; lia).
    + replace (10 * (50 / (160 / 100) ^ 2) - 195)%R with (5 / 16)%R by field.
      rewrite Rabs_pos_eq; lra.
    + replace (50 / (160 / 100) ^ 2)%R with (625 / 32)%R by field. lra.
Qed.

(** The metrics of the two example profiles, on every accurate platform. *)
Lemma example_metrics {libm : Float.Libm} :
  pow_accurate libm ->
  compute_metrics example_profile = Ok (1696, Float.lit 229 1, "Normal Weight", 2544)
  /\ compute_metrics tall_profile = Ok (2012, Float.lit 233 1, "Normal Weight", 3018).
Proof.
  intros Hacc. destruct (calculate_bmi_examples Hacc) as (H1 & H2 & _).
  unfold compute_metrics. split.
  - change (getitem example_profile "weight") with (Ok (PInt 70)).
    change (getitem example_profile "height") with (Ok (PInt 175)).
    change (getitem example_profile "age") with (Ok (PInt 30)).
    change (getitem example_profile "gender") with (Ok (PStr "male")).
    cbn [mbind result_bind].
    change (calculate_bmr (PInt 70) (PInt 175) (PInt 30) (PStr "male")) with (Ok 1696).
    cbn [mbind result_bind]. rewrite H1. cbn [mbind result_bind].
    vm_compute. reflexivity.
  - change (getitem tall_profile "weight") with (Ok (PInt 84)).
    change (getitem tall_profile "height") with (Ok (PInt 190)).
    change (getitem tall_profile "age") with (Ok (PInt 20)).
    change (getitem tall_profile "gender") with (Ok (PStr "male")).
    cbn [mbind result_bind].
    change (calculate_bmr (PInt 84) (PInt 190) (PInt 20) (PStr "male")) with (Ok 2012).
    cbn [mbind result_bind]. rewrite H2. cbn [mbind result_bind].
    vm_compute. reflexivity.
Qed.



(** ** A decimal literal times an integer, rounded to an integer

    The literal [a / b] is the double [mc * 2^-h], off by [c0 / (b * 2^h)].
    For [n] small enough, rounding [n] times the double to 53 bits and then
    to an integer gives the integer nearest to [a * n / b], ties to even:
    the two roundings commit no error that shows. *)

Lemma scaled_bounds (c x d : Z) : 0 <= c -> - d <= x <= d -> - (c * d) <= c * x <= c * d.
Proof. intros Hc Hx. nia. Qed.

Lemma cancel_lt (c x y : Z) : 0 < c -> c * x < c * y -> x < y.
Proof. intros Hc H. nia. Qed.

Lemma off_tie_arith (a b c0 n H X y k : Z) :
  0 < b -> 0 < n -> 0 < H ->
  b * X = n * (a * H + c0) ->
  Z.abs (y - X) < n ->
  2 * Z.abs (a * n - k * b) <= b - 1 ->
  n * (2 * b + 2 * Z.abs c0) < H ->
  2 * Z.abs (y - k * H) < H.
Proof.
  intros Hb Hn HH HX Hy Hk Hsmall.
  pose proof (scaled_bounds b (y - X) (n - 1) ltac:(lia) ltac:(lia)) as H1.
  pose proof (scaled_bounds n c0 (Z.abs c0) ltac:(lia) ltac:(lia)) as H2.
  pose proof (scaled_bounds H (2 * (a * n - k * b)) (b - 1) ltac:(lia) ltac:(lia)) as H3.
  assert (Heq : 2 * (b * (y - k * H))
                = 2 * (b * (y - X)) + 2 * (n * c0) + H * (2 * (a * n - k * b))) by lia.
  assert (Hlo : - (b * H) < 2 * (b * (y - k * H))) by lia.
  assert (Hhi : 2 * (b * (y - k * H)) < b * H) by lia.
  assert (- H < 2 * (y - k * H)) by (apply (cancel_lt b); lia).
  assert (2 * (y - k * H) < H) by (apply (cancel_lt b); lia).
  lia.
Qed.

Lemma below_double (T S n mc : Z) :
  0 < T -> 0 < n -> T * S <= n * mc -> mc < 2 * T -> S < 2 * n.
Proof. intros HT Hn H1 H2. nia. Qed.

Lemma tie_gap (T S n mc b c0 : Z) :
  0 < T -> 0 < n -> 0 < b ->
  n * mc < 2 * T * S -> 4 * T * Z.abs c0 <= b * mc ->
  2 * (n * Z.abs c0) < b * S.
Proof.
  intros HT Hn Hb H1 H2.
  assert (4 * T * (n * Z.abs c0) <= b * (n * mc)) by nia.
  assert (b * (n * mc) < b * (2 * T * S)) by nia.
  nia.
Qed.

Lemma tie_close (b d S nc : Z) :
  0 < b -> b * d = nc -> 2 * Z.abs nc < b * S -> 2 * Z.abs d < S.
Proof. intros Hb <- H. rewrite Z.abs_mul in H. nia. Qed.

Section Literal.

Variables a b mc h c0 : Z.
Hypothesis Ha : 0 < a.
Hypothesis Hb : 0 < b.
Hypothesis Hmc : 2 ^ 52 <= mc < 2 ^ 53.
Hypothesis Hh : 2 <= h.
Hypothesis Hlit : b * mc = a * 2 ^ h + c0.
Hypothesis Hc0 : 2 ^ 54 * Z.abs c0 <= b * mc.

Lemma literal_share_off_tie (n : Z) :
  1 <= n -> n * (2 * b + 2 * Z.abs c0) < 2 ^ h ->
  2 * ((a * n) mod b) <> b ->
  Float.half_even (to53 (n * mc)) (- h) = Float.nearest_even (a * n) b.
Proof.
  intros Hn Hsmall Hoff.
  unfold Float.half_even. destruct (Z.leb_spec 0 (- h)); [lia | ].
  rewrite Z.opp_involutive.
  assert (H2h : 0 < 2 ^ h) by (apply Z.pow_pos_nonneg; lia).
  apply nearest_even_unique; [exact H2h | ].
  pose proof (nearest_even_strict (a * n) b Hb Hoff) as Hk.
  assert (Hx : 0 < n * mc) by (apply Z.mul_pos_pos; lia).
  pose proof (to53_error (n * mc) Hx) as Herr.
  assert (Hy : Z.abs (to53 (n * mc) - n * mc) < n).
  { apply (cancel_lt (2 ^ 53)); [lia | ].
    assert (n * mc < 2 ^ 53 * n) by (rewrite (Z.mul_comm (2 ^ 53)); apply Z.mul_lt_mono_pos_l; lia).
    lia. }
  apply (off_tie_arith a b c0 n (2 ^ h) (n * mc)); try assumption; lia.
Qed.

Lemma literal_share_on_tie (n k : Z) :
  1 <= n -> 4 * n <= 2 ^ h ->
  2 * (a * n) = (2 * k + 1) * b ->
  to53 (n * mc) = (2 * k + 1) * 2 ^ (h - 1).
Proof.
  intros Hn Hsmall Htie.
  assert (H2h : 2 ^ h = 2 * 2 ^ (h - 1)).
  { replace h with (1 + (h - 1)) at 1 by lia. rewrite Z.pow_add_r by lia. reflexivity. }
  assert (H2h1 : 0 < 2 ^ (h - 1)) by (apply Z.pow_pos_nonneg; lia).
  set (t := (2 * k + 1) * 2 ^ (h - 1)).
  assert (Hdiff : b * (n * mc - t) = n * c0).
  { unfold t.
    assert (b * (n * mc) = n * (b * mc)) by lia.
    assert (2 * (b * ((2 * k + 1) * 2 ^ (h - 1))) = (2 * (a * n)) * 2 ^ h)
      by (rewrite Htie, H2h; lia).
    rewrite Hlit in H. lia. }
  assert (Hx : 0 < n * mc) by (apply Z.mul_pos_pos; lia).
  pose proof (log2_bounds (n * mc) Hx) as Hl.
  change (2 ^ 53) with (2 * 2 ^ 52) in Hmc.
  change (2 ^ 54) with (4 * 2 ^ 52) in Hc0.
  unfold to53. destruct (Z.ltb_spec 0 (Z.log2 (n * mc) - 52)) as [Hs | Hs].
  - replace (Z.log2 (n * mc)) with (52 + (Z.log2 (n * mc) - 52)) in Hl by lia.
    rewrite Z.pow_add_r in Hl by lia.
    set (s := Z.log2 (n * mc) - 52) in *.
    assert (HS : 0 < 2 ^ s) by (apply Z.pow_pos_nonneg; lia).
    assert (Hslt : s < h - 1).
    { apply (Z.pow_lt_mono_r_iff 2); [lia | lia | ].
      pose proof (below_double (2 ^ 52) (2 ^ s) n mc ltac:(lia) ltac:(lia) ltac:(lia) ltac:(lia)).
      lia. }
    assert (Ht : t = (2 * k + 1) * 2 ^ (h - 1 - s) * 2 ^ s).
    { unfold t. rewrite <- Z.mul_assoc, <- Z.pow_add_r by lia. do 2 f_equal. lia. }
    rewrite Ht. f_equal.
    apply nearest_even_unique; [exact HS | ].
    rewrite <- Ht.
    apply (tie_close b _ _ (n * c0) Hb Hdiff).
    rewrite Z.abs_mul, (Z.abs_eq n) by lia.
    apply (tie_gap (2 ^ 52) (2 ^ s) n mc b c0); lia.
  - assert (Hn1 : n = 1).
    { assert (Z.log2 (n * mc) <= 52) by lia.
      assert (n * mc < 2 ^ 53) by (apply Z.log2_lt_pow2; lia).
      change (2 ^ 53) with (2 * 2 ^ 52) in *.
      assert (n < 2); [ | lia].
      apply (cancel_lt (2 ^ 52)); [lia | ].
      assert (n * 2 ^ 52 <= n * mc) by (apply Z.mul_le_mono_nonneg_l; lia). lia. }
    assert (Hdiff1 : b * (mc - t) = c0) by (rewrite Hn1 in Hdiff; lia).
    rewrite Hn1, Z.mul_1_l.
    assert (Hc : 2 * Z.abs c0 < b).
    { apply (cancel_lt (2 * 2 ^ 52)); [lia | ].
      assert (b * mc < b * (2 * 2 ^ 52)) by (apply Z.mul_lt_mono_pos_l; lia). lia. }
    assert (2 * Z.abs (mc - t) < 1); [ | lia].
    apply (tie_close b _ _ c0 Hb Hdiff1). lia.
Qed.

Lemma literal_share (n : Z) :
  1 <= n -> n * (2 * b + 2 * Z.abs c0) < 2 ^ h -> 4 * n <= 2 ^ h ->
  Float.half_even (to53 (n * mc)) (- h) = Float.nearest_even (a * n) b.
Proof.
  intros Hn Hsmall Hsmall'.
  destruct (Z.eq_dec (2 * ((a * n) mod b)) b) as [Htie | Hoff];
    [ | apply literal_share_off_tie; assumption].
  pose proof (Z.div_mod (a * n) b ltac:(lia)) as Hdm.
  set (k := a * n / b) in *.
  assert (Hk : 2 * (a * n) = (2 * k + 1) * b) by lia.
  rewrite (literal_share_on_tie n k Hn Hsmall' Hk).
  rewrite (nearest_even_tie (a * n) b k Hb Hk).
  unfold Float.half_even. destruct (Z.leb_spec 0 (- h)); [lia | ].
  rewrite Z.opp_involutive.
  apply nearest_even_tie; [apply Z.pow_pos_nonneg; lia | ].
  replace h with (1 + (h - 1)) at 2 by lia. rewrite Z.pow_add_r by lia. lia.
Qed.

End Literal.

Lemma nearest_even_opp (p q : Z) :
  0 < q -> Float.nearest_even (- p) q = - Float.nearest_even p q.
Proof.
  intros Hq. destruct (Z.eq_dec (2 * (p mod q)) q) as [Htie | Hoff].
  - pose proof (Z.div_mod p q ltac:(lia)) as Hdm.
    set (k := p / q) in *.
    assert (Hk : 2 * p = (2 * k + 1) * q) by lia.
    rewrite (nearest_even_tie p q k Hq Hk).
    rewrite (nearest_even_tie (- p) q (- k - 1) Hq ltac:(lia)).
    replace (- k - 1) with (- (k + 1)) by lia. rewrite Z.even_opp.
    replace (k + 1) with (Z.succ k) by lia. rewrite Z.even_succ, <- Z.negb_even.
    destruct (Z.even k); simpl; lia.
  - apply nearest_even_unique; [exact Hq | ].
    pose proof (nearest_even_strict p q Hq Hoff). lia.
Qed.

(** [round(z * c)] for an int [z] and the double [c = mc * 2^-h] of the
    literal [a / b]: the integer nearest to [a * z / b], ties to even. *)
Lemma rounded_share_value (a b c0 h : Z) (mc : positive) (z : Z) :
  0 < a -> 0 < b -> 2 ^ 52 <= Zpos mc < 2 ^ 53 -> 2 <= h <= 900 ->
  b * Zpos mc = a * 2 ^ h + c0 ->
  2 ^ 54 * Z.abs c0 <= b * Zpos mc ->
  Z.abs z * (2 * b + 2 * Z.abs c0) < 2 ^ h -> 4 * Z.abs z <= 2 ^ h ->
  Z.abs z < 2 ^ 53 ->
  rounded_share z (S754_finite false mc (- h)) = Ok (Float.nearest_even (a * z) b).
Proof.
  intros Ha Hb Hmc Hh Hlit Hc0 Hsmall Hsmall' Hz53.
  destruct (Z.eq_dec z 0) as [-> | Hz].
  { rewrite Z.mul_0_r, nearest_even_zero by exact Hb. reflexivity. }
  unfold rounded_share, int_times, int_to_double.
  pose proof (of_Z_value z Hz Hz53) as Hof. rewrite Hof. cbn [mbind result_bind].
  rewrite <- Hof. rewrite mul_int_literal by (try assumption; lia).
  cbn [Float.round].
  assert (Hx : 0 < Z.abs z * Z.pos mc) by (apply Z.mul_pos_pos; lia).
  pose proof (norm53_mantissa _ Hx) as Hm.
  rewrite Z2Pos.id by lia. rewrite half_even_norm53 by exact Hx.
  rewrite (literal_share a b (Z.pos mc) h c0) by (try assumption; lia).
  f_equal. destruct (Z.ltb_spec z 0) as [Hneg | Hpos]; unfold Float.signed.
  - rewrite Z.abs_neq by lia.
    replace (a * - z) with (- (a * z)) by lia.
    rewrite nearest_even_opp by exact Hb. lia.
  - rewrite Z.abs_eq by lia. reflexivity.
Qed.

(** The literals of the module, as doubles. *)
Lemma literal_values :
  Float.lit 25 2 = S754_finite false 4503599627370496 (- 54)
  /\ Float.lit 10 2 = S754_finite false 7205759403792794 (- 56)
  /\ Float.lit 30 2 = S754_finite false 5404319552844595 (- 54)
  /\ Float.lit 45 2 = S754_finite false 8106479329266893 (- 54)
  /\ Float.lit 15 1 = S754_finite false 6755399441055744 (- 52).
Proof. repeat split; vm_compute; reflexivity. Qed.

(** The calorie shares and the calorie target, for ints below [2^48] in
    absolute value: the products with 0.25, 0.10, 0.30 and 1.5 round as
    the exact fractions do. *)
Lemma rounded_share_exact (z : Z) :
  Z.abs z < 2 ^ 48 ->
  rounded_share z (Float.lit 25 2) = Ok (Float.nearest_even z 4)
  /\ rounded_share z (Float.lit 10 2) = Ok (Float.nearest_even z 10)
  /\ rounded_share z (Float.lit 30 2) = Ok (Float.nearest_even (3 * z) 10)
  /\ rounded_share z (Float.lit 15 1) = Ok (Float.nearest_even (3 * z) 2).
Proof.
  intros Hz. destruct literal_values as (-> & -> & -> & _ & ->).
  change (2 ^ 48) with 281474976710656 in Hz.
  split; [ | split; [ | split]].
  - replace z with (1 * z) at 2 by lia.
    apply (rounded_share_value 1 4 0 54); cbn; lia.
  - replace z with (1 * z) at 2 by lia.
    apply (rounded_share_value 1 10 4 56); cbn; lia.
  - apply (rounded_share_value 3 10 (-2) 54); cbn; lia.
  - apply (rounded_share_value 3 2 0 52); cbn; lia.
Qed.

(** ** Division of a double by 4 and by 9 *)

Lemma log2_normal (m : Z) : 2 ^ 52 <= m < 2 ^ 53 -> Z.log2 m = 52.
Proof. intros Hm. apply Z.log2_unique; [lia | exact Hm]. Qed.

(** Dividing by [2^2] only lowers the exponent. *)
Lemma truediv_four (s : bool) (m : positive) (e : Z) :
  2 ^ 52 <= Zpos m < 2 ^ 53 -> -1000 <= e <= 971 ->
  Float.truediv (S754_finite s m e) (Float.of_Z 4) = Ok (S754_finite s m (e - 2)).
Proof.
  intros Hm He.
  change (Float.of_Z 4) with (S754_finite false 4503599627370496 (-50)).
  unfold Float.truediv. cbn [Float.is_zero Float.div]. f_equal.
  rewrite xorb_false_r. unfold Float.rnd, Float.ilog2_ratio.
  rewrite (log2_normal _ Hm).
  change (Z.log2 (Z.pos 4503599627370496)) with 52. change (52 - 52) with 0.
  cbn [Z.leb Z.compare]. change (2 ^ 0) with 1. rewrite Z.mul_1_r.
  change (Z.pos 4503599627370496) with (2 ^ 52).
  destruct (Z.leb_spec (2 ^ 52) (Z.pos m)); [ | lia].
  unfold Float.prec, Float.emax.
  change (53 - 1) with 52. change (3 - 1024 - 53) with (-1074). change (1024 - 53) with 971.
  rewrite Z.max_l by lia.
  replace (e - -50 - (0 + (e - -50) - 52)) with 52 by lia.
  cbn [Z.leb Z.compare].
  rewrite nearest_even_exact by lia.
  destruct (Z.eqb_spec (Z.pos m) (2 ^ 53)); [lia | ].
  destruct (Z.leb_spec (0 + (e - -50) - 52) 971); [ | lia].
  f_equal. lia.
Qed.

(** [round(z * c / 4)] for an int [z] and the double [c = mc * 2^(2-h)]
    of a literal whose quarter is [a / b]. *)
Lemma rounded_quarter_value (a b c0 h : Z) (mc : positive) (z : Z) :
  0 < a -> 0 < b -> 2 ^ 52 <= Zpos mc < 2 ^ 53 -> 4 <= h <= 900 ->
  b * Zpos mc = a * 2 ^ h + c0 ->
  2 ^ 54 * Z.abs c0 <= b * Zpos mc ->
  Z.abs z * (2 * b + 2 * Z.abs c0) < 2 ^ h -> 4 * Z.abs z <= 2 ^ h ->
  Z.abs z < 2 ^ 53 ->
  (x ← int_times z (S754_finite false mc (2 - h));
   q ← Float.truediv x (Float.of_Z 4);
   Float.round q) = Ok (Float.nearest_even (a * z) b).
Proof.
  intros Ha Hb Hmc Hh Hlit Hc0 Hsmall Hsmall' Hz53.
  destruct (Z.eq_dec z 0) as [-> | Hz].
  { rewrite Z.mul_0_r, nearest_even_zero by exact Hb. reflexivity. }
  unfold int_times, int_to_double.
  pose proof (of_Z_value z Hz Hz53) as Hof. rewrite Hof. cbn [mbind result_bind].
  rewrite <- Hof. rewrite mul_int_literal by (try assumption; lia).
  assert (Hx : 0 < Z.abs z * Z.pos mc) by (apply Z.mul_pos_pos; lia).
  pose proof (norm53_mantissa _ Hx) as Hm.
  assert (Hrange : 0 <= (norm53 (Z.abs z * Z.pos mc)).2 <= 60).
  { assert (Z.abs z * Z.pos mc < 2 ^ 106).
    { change (2 ^ 106) with (2 ^ 53 * 2 ^ 53).
      apply Z.mul_lt_mono_nonneg; lia. }
    assert (2 ^ 52 <= Z.abs z * Z.pos mc).
    { replace (2 ^ 52) with (1 * 2 ^ 52) by lia. apply Z.mul_le_mono_nonneg; lia. }
    assert (52 <= Z.log2 (Z.abs z * Z.pos mc) < 106)
      by (split; [apply Z.log2_le_pow2; lia | apply Z.log2_lt_pow2; lia]).
    unfold norm53.
    destruct (0 <? Z.log2 (Z.abs z * Z.pos mc) - 52);
      [destruct (_ =? _) | ]; cbn [snd]; lia. }
  rewrite truediv_four by (rewrite ?Z2Pos.id by lia; lia).
  cbn [mbind result_bind Float.round].
  rewrite Z2Pos.id by lia.
  replace ((norm53 (Z.abs z * Z.pos mc)).2 + (2 - h) - 2)
    with ((norm53 (Z.abs z * Z.pos mc)).2 + - h) by lia.
  rewrite half_even_norm53 by exact Hx.
  rewrite (literal_share a b (Z.pos mc) h c0) by (try assumption; lia).
  f_equal. destruct (Z.ltb_spec z 0) as [Hneg | Hpos]; unfold Float.signed.
  - rewrite Z.abs_neq by lia.
    replace (a * - z) with (- (a * z)) by lia.
    rewrite nearest_even_opp by exact Hb. lia.
  - rewrite Z.abs_eq by lia. reflexivity.
Qed.

(** Dividing a normal double by 9: the quotient of the mantissas, taken
    with 3 or 4 more bits, rounded. *)
Lemma truediv_nine (s : bool) (m : positive) (e : Z) :
  2 ^ 52 <= Zpos m < 2 ^ 53 -> -1000 <= e <= 971 ->
  Float.truediv (S754_finite s m e) (Float.of_Z 9)
  = Ok (S754_finite s (Z.to_pos (Float.nearest_even (Zpos m * 2 ^ ninth_shift (Zpos m)) 9))
                    (e - ninth_shift (Zpos m))).
Proof.
  intros Hm He.
  change (Float.of_Z 9) with (S754_finite false 5066549580791808 (-49)).
  unfold Float.truediv. cbn [Float.is_zero Float.div]. f_equal.
  rewrite xorb_false_r. unfold Float.rnd, Float.ilog2_ratio, ninth_shift.
  rewrite (log2_normal _ Hm).
  change (Z.log2 (Z.pos 5066549580791808)) with 52. change (52 - 52) with 0.
  cbn [Z.leb Z.compare]. change (2 ^ 0) with 1. rewrite Z.mul_1_r.
  change (Z.pos 5066549580791808) with (9 * 2 ^ 49).
  unfold Float.prec, Float.emax.
  change (53 - 1) with 52. change (3 - 1024 - 53) with (-1074). change (1024 - 53) with 971.
  change (2 ^ 53) with 9007199254740992 in *. change (2 ^ 52) with 4503599627370496 in *.
  change (9 * 2 ^ 49) with 5066549580791808.
  destruct (Z.leb_spec 5066549580791808 (Z.pos m)) as [Hge | Hlt].
  - rewrite Z.max_l by lia.
    replace (e - -49 - (0 + (e - -49) - 52)) with 52 by lia.
    cbn [Z.leb Z.compare].
    assert (Hq : Float.nearest_even (Z.pos m * 2 ^ 52) 5066549580791808
                 = Float.nearest_even (Z.pos m * 2 ^ 3) 9).
    { rewrite <- (nearest_even_scale _ 9 (2 ^ 49)) by lia. f_equal.
      change (2 ^ 52) with (2 ^ 3 * 2 ^ 49). lia. }
    rewrite Hq.
    pose proof (nearest_even_bound (Z.pos m * 2 ^ 3) 9 ltac:(lia)) as Hb.
    set (q := Float.nearest_even (Z.pos m * 2 ^ 3) 9) in *.
    change (2 ^ 3) with 8 in Hb.
    destruct (Z.eqb_spec q 9007199254740992); [lia | ].
    destruct q as [ | q' | q']; try lia.
    destruct (Z.leb_spec (0 + (e - -49) - 52) 971); [ | lia].
    cbn [Z.to_pos]. f_equal. lia.
  - rewrite Z.max_l by lia.
    replace (e - -49 - (0 - 1 + (e - -49) - 52)) with 53 by lia.
    cbn [Z.leb Z.compare].
    assert (Hq : Float.nearest_even (Z.pos m * 2 ^ 53) 5066549580791808
                 = Float.nearest_even (Z.pos m * 2 ^ 4) 9).
    { rewrite <- (nearest_even_scale _ 9 (2 ^ 49)) by lia. f_equal.
      change (2 ^ 53) with (2 ^ 4 * 2 ^ 49). lia. }
    rewrite Hq.
    pose proof (nearest_even_bound (Z.pos m * 2 ^ 4) 9 ltac:(lia)) as Hb.
    set (q := Float.nearest_even (Z.pos m * 2 ^ 4) 9) in *.
    change (2 ^ 4) with 16 in Hb.
    destruct (Z.eqb_spec q 9007199254740992); [lia | ].
    destruct q as [ | q' | q']; try lia.
    destruct (Z.leb_spec (0 - 1 + (e - -49) - 52) 971); [ | lia].
    cbn [Z.to_pos]. f_equal. lia.
Qed.

(** ** The fat grams: [round(z * 0.30 / 9)]

    Three roundings: the product to 53 bits, the quotient by 9 to 53 bits,
    the result to an integer.  [Ex], [D] and [Et] stand for the powers of
    two of the exponents involved. *)

Lemma ninth_off_tie_arith (n M Ex Et D H X Y N9 K : Z) :
  0 < n -> 0 < Ex -> 0 < D -> 0 < Et ->
  M * Ex = Y -> Z.abs (Y - X) < n -> 10 * X = n * (3 * H - 2) ->
  2 * Z.abs (9 * N9 - M * Et) <= 9 ->
  Ex * D = H * Et -> Ex < 2 * n ->
  2 * Z.abs (n - 30 * K) <= 29 ->
  160 * n + 24 * (n * Et) < 6 * (H * Et) ->
  2 * Z.abs (N9 - K * D) < D.
Proof.
  intros Hn HEx HD HEt HY Hv HX Hu Hexp HExn Hw Hsmall.
  assert (HHEt : 0 < H * Et) by (rewrite <- Hexp; apply Z.mul_pos_pos; lia).
  pose proof (scaled_bounds Ex (9 * N9 - M * Et) 4 ltac:(lia) ltac:(lia)) as B1.
  pose proof (scaled_bounds Et (10 * (Y - X) - 2 * n) (12 * n) ltac:(lia) ltac:(lia)) as B2.
  pose proof (scaled_bounds (H * Et) (n - 30 * K) 14 ltac:(lia) ltac:(lia)) as B3.
  assert (E1 : Et * (M * Ex) = Et * Y) by (rewrite HY; reflexivity).
  assert (E2 : Et * (10 * X) = Et * (n * (3 * H - 2))) by (rewrite HX; reflexivity).
  assert (E3 : K * (Ex * D) = K * (H * Et)) by (rewrite Hexp; reflexivity).
  assert (Heq : 90 * (Ex * (N9 - K * D))
                = 10 * (Ex * (9 * N9 - M * Et)) + Et * (10 * (Y - X) - 2 * n)
                  + 3 * (H * Et * (n - 30 * K))) by lia.
  assert (Hlo : Ex * (- D) < Ex * (2 * (N9 - K * D))) by lia.
  assert (Hhi : Ex * (2 * (N9 - K * D)) < Ex * D) by lia.
  apply cancel_lt in Hlo; [ | exact HEx]. apply cancel_lt in Hhi; [ | exact HEx].
  lia.
Qed.

Lemma ninth_grams (n : Z) :
  1 <= n < 2 ^ 48 ->
  Float.half_even
    (Float.nearest_even ((norm53 (n * mc30)).1 * 2 ^ ninth_shift (norm53 (n * mc30)).1) 9)
    ((norm53 (n * mc30)).2 + - 54 - ninth_shift (norm53 (n * mc30)).1)
  = Float.nearest_even n 30.
Proof.
  intros Hn. change (2 ^ 48) with 281474976710656 in Hn.
  assert (Hmc : 2 ^ 52 <= mc30 < 2 ^ 53) by (unfold mc30; cbn; lia).
  assert (Hlit : 10 * mc30 = 3 * 2 ^ 54 + -2) by reflexivity.
  assert (HX : 0 < n * mc30) by (apply Z.mul_pos_pos; unfold mc30; lia).
  pose proof (norm53_mantissa _ HX) as HM.
  destruct (norm53_value _ HX) as [Hval _].
  pose proof (to53_error _ HX) as Herr.
  assert (HXlo : 2 ^ 52 <= n * mc30).
  { replace (2 ^ 52) with (1 * 2 ^ 52) by lia. apply Z.mul_le_mono_nonneg; lia. }
  assert (Hx0 : 0 <= (norm53 (n * mc30)).2).
  { assert (52 <= Z.log2 (n * mc30)) by (apply Z.log2_le_pow2; lia).
    unfold norm53. destruct (0 <? Z.log2 (n * mc30) - 52);
      [destruct (_ =? _) | ]; cbn [snd]; lia. }
  specialize (Hval Hx0).
  set (M := (norm53 (n * mc30)).1) in *. set (x := (norm53 (n * mc30)).2) in *.
  set (Y := to53 (n * mc30)) in *.
  assert (Hv : Z.abs (Y - n * mc30) < n).
  { apply (cancel_lt (2 ^ 53)); [lia | ].
    assert (n * mc30 < 2 ^ 53 * n)
      by (rewrite (Z.mul_comm (2 ^ 53)); apply Z.mul_lt_mono_pos_l; lia).
    lia. }
  assert (HEx : 0 < 2 ^ x) by (apply Z.pow_pos_nonneg; lia).
  assert (HExn : 2 ^ x < 2 * n).
  { apply (cancel_lt (2 ^ 52)); [lia | ].
    assert (2 ^ 52 * 2 ^ x <= M * 2 ^ x) by (apply Z.mul_le_mono_nonneg_r; lia).
    assert (n * mc30 < n * 2 ^ 53) by (apply Z.mul_lt_mono_pos_l; lia).
    change (2 ^ 53) with (2 * 2 ^ 52) in *. lia. }
  assert (Hx : x < 49).
  { apply (Z.pow_lt_mono_r_iff 2); [lia | lia | ]. change (2 ^ 49) with 562949953421312. lia. }
  set (tau := ninth_shift M).
  assert (Htau : tau = 3 \/ tau = 4) by (unfold tau, ninth_shift; destruct (_ <=? _); lia).
  assert (HEt : 2 ^ tau = 8 \/ 2 ^ tau = 16) by (destruct Htau as [-> | ->]; [left | right]; reflexivity).
  set (g := 54 + tau - x).
  assert (Hg : 1 <= g) by (unfold g; lia).
  assert (HD : 0 < 2 ^ g) by (apply Z.pow_pos_nonneg; lia).
  assert (Hexp : 2 ^ x * 2 ^ g = 2 ^ 54 * 2 ^ tau).
  { rewrite <- !Z.pow_add_r by lia. f_equal. unfold g. lia. }
  unfold Float.half_even.
  destruct (Z.leb_spec 0 (x + -54 - tau)); [lia | ].
  replace (- (x + -54 - tau)) with g by (unfold g; lia).
  pose proof (nearest_even_bound (M * 2 ^ tau) 9 ltac:(lia)) as Hu.
  set (N9 := Float.nearest_even (M * 2 ^ tau) 9) in *.
  destruct (Z.eq_dec (2 * (n mod 30)) 30) as [Htie | Hoff].
  - pose proof (Z.div_mod n 30 ltac:(lia)) as Hdm.
    set (k := n / 30) in *.
    assert (Hk : 2 * n = (2 * k + 1) * 30) by lia.
    rewrite (nearest_even_tie n 30 k ltac:(lia) Hk).
    assert (HY : Y = (2 * (9 * k + 4) + 1) * 2 ^ (54 - 1)).
    { assert (Hc0 : 2 ^ 54 * Z.abs (-2) <= 10 * mc30) by (unfold mc30; cbn; lia).
      assert (H4n : 4 * n <= 2 ^ 54) by (change (2 ^ 54) with 18014398509481984; lia).
      exact (literal_share_on_tie 3 10 mc30 54 (-2) ltac:(lia) Hmc ltac:(lia) Hlit Hc0
               n (9 * k + 4) ltac:(lia) H4n ltac:(lia)). }
    change (54 - 1) with 53 in HY.
    assert (Hg2 : 2 ^ g = 2 * 2 ^ (g - 1)).
    { replace g with (1 + (g - 1)) at 1 by lia. rewrite Z.pow_add_r by lia. reflexivity. }
    assert (HD2 : 0 < 2 ^ (g - 1)) by (apply Z.pow_pos_nonneg; lia).
    assert (HN9 : N9 = (2 * k + 1) * 2 ^ (g - 1)).
    { unfold N9.
      replace (M * 2 ^ tau) with ((2 * k + 1) * 2 ^ (g - 1) * 9);
        [apply nearest_even_exact; lia | ].
      apply (Z.mul_cancel_r _ _ (2 ^ x)); [lia | ].
      assert (E1 : M * 2 ^ tau * 2 ^ x = (M * 2 ^ x) * 2 ^ tau) by lia.
      rewrite E1, Hval, HY.
      assert (E2 : (2 * k + 1) * 2 ^ (g - 1) * 9 * 2 ^ x
                   = 9 * (2 * k + 1) * (2 ^ x * 2 ^ (g - 1))) by lia.
      rewrite E2.
      assert (E3 : 2 * (2 ^ x * 2 ^ (g - 1)) = 2 * (2 ^ 53 * 2 ^ tau)).
      { change (2 ^ 54) with (2 * 2 ^ 53) in Hexp. rewrite Hg2 in Hexp. lia. }
      assert (E4 : 2 ^ x * 2 ^ (g - 1) = 2 ^ 53 * 2 ^ tau) by lia.
      rewrite E4. lia. }
    rewrite HN9. apply nearest_even_tie; [exact HD | ]. rewrite Hg2. lia.
  - apply nearest_even_unique; [exact HD | ].
    pose proof (nearest_even_strict n 30 ltac:(lia) Hoff) as Hw.
    assert (HnX : 10 * (n * mc30) = n * (3 * 2 ^ 54 - 2)).
    { assert (n * (10 * mc30) = n * (3 * 2 ^ 54 + -2)) by (rewrite Hlit; reflexivity). lia. }
    assert (Hsmall : 160 * n + 24 * (n * 2 ^ tau) < 6 * (2 ^ 54 * 2 ^ tau)).
    { change (2 ^ 54) with 18014398509481984. destruct HEt as [-> | ->]; lia. }
    apply (ninth_off_tie_arith n M (2 ^ x) (2 ^ tau) (2 ^ g) (2 ^ 54) (n * mc30) Y);
      try assumption; lia.
Qed.

Lemma int_times_small (z : Z) (c : float) :
  Z.abs z < 2 ^ 53 -> int_times z c = Ok (Float.mul (Float.of_Z z) c).
Proof.
  intros Hz. unfold int_times, int_to_double.
  destruct (Z.eq_dec z 0) as [-> | Hnz]; [reflexivity | ].
  pose proof (of_Z_value z Hnz Hz) as Hof. rewrite Hof. reflexivity.
Qed.

Lemma signed_nearest_even (z a b : Z) :
  0 < b ->
  Float.signed (z <? 0) (Float.nearest_even (a * Z.abs z) b) = Float.nearest_even (a * z) b.
Proof.
  intros Hb. destruct (Z.ltb_spec z 0) as [Hneg | Hpos]; unfold Float.signed.
  - rewrite Z.abs_neq by lia.
    replace (a * - z) with (- (a * z)) by lia.
    rewrite nearest_even_opp by exact Hb. lia.
  - rewrite Z.abs_eq by lia. reflexivity.
Qed.

(** [round(z * 0.30 / 9)]. *)
Lemma rounded_ninth_value (z : Z) :
  Z.abs z < 2 ^ 48 ->
  (q ← Float.truediv (Float.mul (Float.of_Z z) (Float.lit 30 2)) (Float.of_Z 9);
   Float.round q) = Ok (Float.nearest_even z 30).
Proof.
  intros Hz. destruct (Z.eq_dec z 0) as [-> | Hnz]; [reflexivity | ].
  destruct literal_values as (_ & _ & -> & _ & _).
  change (2 ^ 48) with 281474976710656 in Hz.
  change 5404319552844595%positive with (Z.to_pos mc30).
  assert (Hmc : 2 ^ 52 <= Z.pos (Z.to_pos mc30) < 2 ^ 53) by (cbn; lia).
  rewrite mul_int_literal by (try assumption; lia).
  change (Z.pos (Z.to_pos mc30)) with mc30.
  assert (HX : 0 < Z.abs z * mc30) by (apply Z.mul_pos_pos; unfold mc30; lia).
  pose proof (norm53_mantissa _ HX) as HM.
  assert (Hx : 0 <= (norm53 (Z.abs z * mc30)).2 <= 60).
  { assert (Z.abs z * mc30 < 2 ^ 106).
    { change (2 ^ 106) with (2 ^ 53 * 2 ^ 53).
      apply Z.mul_lt_mono_nonneg; unfold mc30; cbn; lia. }
    assert (2 ^ 52 <= Z.abs z * mc30).
    { replace (2 ^ 52) with (1 * 2 ^ 52) by lia.
      apply Z.mul_le_mono_nonneg; unfold mc30; cbn; lia. }
    assert (52 <= Z.log2 (Z.abs z * mc30) < 106)
      by (split; [apply Z.log2_le_pow2; lia | apply Z.log2_lt_pow2; lia]).
    unfold norm53.
    destruct (0 <? Z.log2 (Z.abs z * mc30) - 52);
      [destruct (_ =? _) | ]; cbn [snd]; lia. }
  rewrite truediv_nine by (rewrite ?Z2Pos.id by lia; lia).
  cbn [mbind result_bind Float.round].
  rewrite !(Z2Pos.id (norm53 (Z.abs z * mc30)).1) by lia.
  pose proof (nearest_even_bound
                ((norm53 (Z.abs z * mc30)).1 * 2 ^ ninth_shift (norm53 (Z.abs z * mc30)).1)
                9 ltac:(lia)) as Hq.
  assert (Hshift : 8 <= 2 ^ ninth_shift (norm53 (Z.abs z * mc30)).1)
    by (unfold ninth_shift; destruct (_ <=? _); cbn; lia).
  rewrite Z2Pos.id.
  - rewrite (ninth_grams (Z.abs z)) by (change (2 ^ 48) with 281474976710656; lia).
    f_equal. replace (Z.abs z) with (1 * Z.abs z) by lia.
    rewrite signed_nearest_even by lia. f_equal. lia.
  - assert (2 ^ 52 * 8 <= (norm53 (Z.abs z * mc30)).1
                          * 2 ^ ninth_shift (norm53 (Z.abs z * mc30)).1)
      by (apply Z.mul_le_mono_nonneg; lia).
    change (2 ^ 52 * 8) with 36028797018963968 in *. lia.
Qed.

(** The macro grams: the 25, 45 and 30 per cent shares at 4, 4 and 9 kcal
    per gram round as the exact fractions [z/16], [9z/80] and [z/30] do. *)
Lemma macro_grams_exact (z : Z) :
  Z.abs z < 2 ^ 48 ->
  macro_grams z
  = Ok (Float.nearest_even z 16, Float.nearest_even (9 * z) 80, Float.nearest_even z 30).
Proof.
  intros Hz. assert (Hz53 : Z.abs z < 2 ^ 53).
  { change (2 ^ 48) with 281474976710656 in Hz. change (2 ^ 53) with 9007199254740992. lia. }
  pose proof (rounded_quarter_value 1 16 0 56 4503599627370496 z) as Hp.
  pose proof (rounded_quarter_value 9 80 16 56 8106479329266893 z) as Hc.
  pose proof (rounded_ninth_value z Hz) as Hf.
  change (2 ^ 48) with 281474976710656 in Hz.
  rewrite int_times_small in Hp, Hc by exact Hz53.
  cbn [mbind result_bind] in Hp, Hc.
  unfold macro_grams, macro_calories.
  rewrite !int_times_small by exact Hz53. cbn [mbind result_bind].
  destruct literal_values as (E25 & _ & _ & E45 & _).
  rewrite E25, E45.
  change (2 - 56) with (-54) in Hp, Hc.
  rewrite Hp by (cbn; lia). cbn [mbind result_bind].
  rewrite Hc by (cbn; lia). cbn [mbind result_bind].
  rewrite Hf. cbn [mbind result_bind].
  replace (1 * z) with z by lia. reflexivity.
Qed.

(** ** C2: the five calorie slots of a day *)

Lemma slot_sum_day_of (c1 c2 c3 c4 c5 : Z) (b s1 l s2 d : string) :
  slot_sum (day_of c1 c2 c3 c4 c5 b s1 l s2 d) = c1 + c2 + c3 + c4 + c5.
Proof.
  set (day := day_of c1 c2 c3 c4 c5 b s1 l s2 d).
  assert (H1 : day !! "breakfast" = Some {| meal := b; calories := c1 |})
    by (vm_compute; reflexivity).
  assert (H2 : day !! "morning_snack" = Some {| meal := s1; calories := c2 |})
    by (vm_compute; reflexivity).
  assert (H3 : day !! "lunch" = Some {| meal := l; calories := c3 |})
    by (vm_compute; reflexivity).
  assert (H4 : day !! "afternoon_snack" = Some {| meal := s2; calories := c4 |})
    by (vm_compute; reflexivity).
  assert (H5 : day !! "dinner" = Some {| meal := d; calories := c5 |})
    by (vm_compute; reflexivity).
  unfold slot_sum, slot_names. cbn [fmap list_fmap foldr].
  rewrite H1, H2, H3, H4, H5. simpl. lia.
Qed.

(** The three rounded shares are within 2 of the whole. *)
Lemma shares_within_two (n : Z) :
  Z.abs (Float.nearest_even n 4 + Float.nearest_even n 10 + Float.nearest_even (3 * n) 10
         + Float.nearest_even n 10 + Float.nearest_even n 4 - n) <= 2.
Proof.
  pose proof (nearest_even_bound n 4 ltac:(lia)).
  pose proof (nearest_even_bound n 10 ltac:(lia)).
  pose proof (nearest_even_bound (3 * n) 10 ltac:(lia)).
  lia.
Qed.

Lemma shares_of_multiple (n : Z) :
  n mod 20 = 0 ->
  Float.nearest_even n 4 + Float.nearest_even n 10 + Float.nearest_even (3 * n) 10
  + Float.nearest_even n 10 + Float.nearest_even n 4 = n.
Proof.
  intros Hmod. pose proof (Z.div_mod n 20 ltac:(lia)) as Hdm. rewrite Hmod in Hdm.
  set (t := n / 20) in *.
  replace n with (5 * t * 4) at 1 5 by lia.
  replace n with (2 * t * 10) at 1 3 by lia.
  replace (3 * n) with (6 * t * 10) by lia.
  rewrite !nearest_even_exact by lia. lia.
Qed.

(** A day of meals for a calorie target below [2^48] in absolute value:
    the run succeeds after five draws and the slots carry the exactly
    rounded shares. *)
Lemma generate_daily_meals_exact (daily_calories : Z) (user_data : pyval) (w : world) :
  Z.abs daily_calories < 2 ^ 48 ->
  exists breakfast morning_snack lunch afternoon_snack dinner,
    breakfast ∈ breakfast_options /\ morning_snack ∈ snack_options
    /\ lunch ∈ lunch_options /\ afternoon_snack ∈ snack_options
    /\ dinner ∈ dinner_options
    /\ generate_daily_meals daily_calories user_data w
       = (Ok (day_of (Float.nearest_even daily_calories 4)
                     (Float.nearest_even daily_calories 10)
                     (Float.nearest_even (3 * daily_calories) 10)
                     (Float.nearest_even daily_calories 10)
                     (Float.nearest_even daily_calories 4)
                     breakfast morning_snack lunch afternoon_snack dinner),
          Nat.iter 5 advance w).
Proof.
  intros Hdc. pose proof (generate_daily_meals_cases daily_calories user_data w) as H.
  destruct (rounded_share_exact daily_calories Hdc) as (E25 & E10 & E30 & _).
  rewrite E25, E10, E30 in H. exact H.
Qed.

(** C2 (amended). For a calorie target below [2^48] in absolute value
    [generate_daily_meals] returns a day whose five calorie values are the
    25, 10, 30, 10 and 25 per cent shares, each rounded to the nearest
    integer (ties to even); their sum is within 2 of [daily_calories], and
    equal to it when [daily_calories] is a multiple of 20. *)
Theorem slot_calories_sum (daily_calories : Z) (user_data : pyval) (w : world) :
  Z.abs daily_calories < 2 ^ 48 ->
  exists meals,
    generate_daily_meals daily_calories user_data w = (Ok meals, Nat.iter 5 advance w)
    /\ calories <$> meals
       = list_to_map [ ("breakfast", Float.nearest_even daily_calories 4);
                       ("morning_snack", Float.nearest_even daily_calories 10);
                       ("lunch", Float.nearest_even (3 * daily_calories) 10);
                       ("afternoon_snack", Float.nearest_even daily_calories 10);
                       ("dinner", Float.nearest_even daily_calories 4) ]
    /\ Z.abs (slot_sum meals - daily_calories) <= 2
    /\ (daily_calories mod 20 = 0 -> slot_sum meals = daily_calories).
Proof.
  intros Hdc.
  destruct (generate_daily_meals_exact daily_calories user_data w Hdc)
    as (b & s1 & l & s2 & d & _ & _ & _ & _ & _ & Hrun).
  eexists. split; [exact Hrun | ].
  split; [apply day_of_calories | ].
  rewrite slot_sum_day_of.
  split; [apply shares_within_two | apply shares_of_multiple].
Qed.

Lemma slot_calories_sum_witness :
  exists meals,
    generate_daily_meals 2000 PNone (world_of S ConnectionFailed)
    = (Ok meals, Nat.iter 5 advance (world_of S ConnectionFailed))
    /\ calories <$> meals
       = list_to_map [ ("breakfast", Float.nearest_even 2000 4);
                       ("morning_snack", Float.nearest_even 2000 10);
                       ("lunch", Float.nearest_even (3 * 2000) 10);
                       ("afternoon_snack", Float.nearest_even 2000 10);
                       ("dinner", Float.nearest_even 2000 4) ]
    /\ Z.abs (slot_sum meals - 2000) <= 2
    /\ (2000 mod 20 = 0 -> slot_sum meals = 2000).
Proof.
  apply (slot_calories_sum 2000 PNone (world_of S ConnectionFailed)). reflexivity.
Defined.

(** The profile of the specification's example gives a calorie target of
    2544, and the five slots of every day generated for it add up to 2543. *)
Lemma slot_sum_counterexample :
  (forall libm : Float.Libm,
     pow_accurate libm ->
     compute_metrics example_profile = Ok (1696, Float.lit 229 1, "Normal Weight", 2544))
  /\ forall w, exists meals,
       generate_daily_meals 2544 example_profile w = (Ok meals, Nat.iter 5 advance w)
       /\ slot_sum meals = 2543 /\ slot_sum meals <> 2544.
Proof.
  split; [intros libm Hacc; apply (example_metrics Hacc) | ].
  intros w.
  destruct (generate_daily_meals_exact 2544 example_profile w ltac:(reflexivity))
    as (b & s1 & l & s2 & d & _ & _ & _ & _ & _ & Hrun).
  eexists. split; [exact Hrun | ].
  rewrite slot_sum_day_of. split; [reflexivity | discriminate].
Qed.

(** ** C4: the calorie target and the macro grams *)

Lemma nearest_even_add (p q j : Z) :
  0 < q -> Float.nearest_even (p + 2 * j * q) q = Float.nearest_even p q + 2 * j.
Proof.
  intros Hq. unfold Float.nearest_even.
  rewrite Z.mod_add, Z.div_add by lia.
  rewrite Z.even_add_mul_2.
  destruct (2 * (p mod q) ?= q); [destruct (Z.even (p / q)) | | ]; lia.
Qed.

Lemma macro_error_period (n t : Z) : macro_error (n + 480 * t) = macro_error n.
Proof.
  unfold macro_error.
  replace (n + 480 * t) with (n + 2 * (15 * t) * 16) at 1 by lia.
  replace (9 * (n + 480 * t)) with (9 * n + 2 * (27 * t) * 80) by lia.
  replace (n + 480 * t) with (n + 2 * (8 * t) * 30) at 1 by lia.
  rewrite !nearest_even_add by lia. lia.
Qed.

Lemma all_below_spec (P : Z -> bool) (count : nat) (start n : Z) :
  all_below P start count = true -> start <= n < start + Z.of_nat count -> P n = true.
Proof.
  revert start. induction count as [ | k IH]; intros start Hall Hn; [lia | ].
  cbn [all_below] in Hall. apply andb_true_iff in Hall. destruct Hall as [Hs Hrest].
  destruct (Z.eq_dec n start) as [-> | Hne]; [exact Hs | ].
  apply (IH (start + 1) Hrest). lia.
Qed.

(** The rounded grams account for the target within 7 kcal. *)
Lemma macro_error_bound (n : Z) : Z.abs (macro_error n) <= 7.
Proof.
  pose proof (Z.div_mod n 480 ltac:(lia)) as Hdm.
  pose proof (Z.mod_pos_bound n 480 ltac:(lia)) as Hr.
  replace n with (n mod 480 + 480 * (n / 480)) by lia.
  rewrite macro_error_period.
  assert (Hall : all_below (fun r => Z.abs (macro_error r) <=? 7) 0 480 = true)
    by (vm_compute; reflexivity).
  apply Z.leb_le. apply (all_below_spec _ 480 0 _ Hall). lia.
Qed.

Lemma to53_small (n : Z) : 0 < n < 2 ^ 53 -> to53 n = n.
Proof.
  intros Hn. unfold to53.
  assert (Z.log2 n < 53) by (apply Z.log2_lt_pow2; lia).
  destruct (Z.ltb_spec 0 (Z.log2 n - 52)); [lia | reflexivity].
Qed.

(** A share [z * c], for a double [c = mc * 2^-54], in units of [2^-54]. *)
Lemma scaled_share (z : Z) (mc : positive) :
  z <> 0 -> Z.abs z < 2 ^ 53 -> 2 ^ 52 <= Zpos mc < 2 ^ 53 ->
  scaled 54 (Float.mul (Float.of_Z z) (S754_finite false mc (- 54)))
  = Float.signed (z <? 0) (to53 (Z.abs z * Zpos mc)).
Proof.
  intros Hz Hz53 Hmc. rewrite mul_int_literal by (try assumption; lia).
  cbn [scaled]. f_equal.
  assert (HX : 0 < Z.abs z * Z.pos mc) by (apply Z.mul_pos_pos; lia).
  pose proof (norm53_mantissa _ HX) as HM.
  destruct (norm53_value _ HX) as [Hval _].
  assert (Hx0 : 0 <= (norm53 (Z.abs z * Z.pos mc)).2).
  { assert (2 ^ 52 <= Z.abs z * Z.pos mc).
    { replace (2 ^ 52) with (1 * 2 ^ 52) by lia. apply Z.mul_le_mono_nonneg; lia. }
    assert (52 <= Z.log2 (Z.abs z * Z.pos mc)) by (apply Z.log2_le_pow2; lia).
    unfold norm53. destruct (0 <? Z.log2 (Z.abs z * Z.pos mc) - 52);
      [destruct (_ =? _) | ]; cbn [snd]; lia. }
  rewrite Z2Pos.id by lia.
  replace ((norm53 (Z.abs z * Z.pos mc)).2 + -54 + 54)
    with (norm53 (Z.abs z * Z.pos mc)).2 by lia.
  exact (Hval Hx0).
Qed.

(** The three calorie shares are doubles; their exact sum misses the
    target by at most [1.5 * |z| * 2^-54]. *)
Lemma shares_sum_close (z : Z) :
  Z.abs z < 2 ^ 48 ->
  exists protein_cals carb_cals fat_cals,
    macro_calories z = Ok (protein_cals, carb_cals, fat_cals)
    /\ 2 * Z.abs (scaled 54 protein_cals + scaled 54 carb_cals + scaled 54 fat_cals
                  - z * 2 ^ 54) <= 3 * Z.abs z.
Proof.
  intros Hz. assert (Hz53 : Z.abs z < 2 ^ 53).
  { change (2 ^ 48) with 281474976710656 in Hz. change (2 ^ 53) with 9007199254740992. lia. }
  unfold macro_calories. rewrite !int_times_small by exact Hz53. cbn [mbind result_bind].
  do 3 eexists. split; [reflexivity | ].
  destruct (Z.eq_dec z 0) as [-> | Hnz]; [vm_compute; discriminate | ].
  destruct literal_values as (-> & _ & -> & -> & _).
  rewrite !scaled_share by (try assumption; cbn; lia).
  set (n := Z.abs z) in *. assert (Hn : 0 < n) by lia.
  assert (H25 : to53 (n * 4503599627370496) = n * 2 ^ 52).
  { change 4503599627370496 with (2 ^ 52). rewrite to53_scale by lia.
    rewrite to53_small by lia. reflexivity. }
  rewrite H25.
  pose proof (to53_error (n * 8106479329266893) ltac:(lia)) as H45.
  pose proof (to53_error (n * 5404319552844595) ltac:(lia)) as H30.
  set (y45 := to53 (n * 8106479329266893)) in *.
  set (y30 := to53 (n * 5404319552844595)) in *.
  change (2 ^ 53) with 9007199254740992 in *. change (2 ^ 52) with 4503599627370496 in *.
  change (2 ^ 54) with 18014398509481984.
  destruct (Z.ltb_spec z 0); unfold Float.signed; lia.
Qed.

(** C4 (amended). For a BMR below [2^47] in absolute value the calorie
    target [round(bmr * 1.5)] is the integer nearest to [3 * bmr / 2]; the
    gram counts are the integers nearest to a 25, 45 and 30 per cent share
    of it divided by 4, 4 and 9 kcal per gram (that is [dc/16], [9 dc/80],
    [dc/30]); the calories of the three gram counts are within 7 of the
    target; and the three calorie shares, which are doubles, sum to the
    target up to the rounding of the products: their exact sum is within
    [1.5 * |dc| * 2^-54] of it. *)
Theorem macro_split (bmr : Z) :
  Z.abs bmr < 2 ^ 47 ->
  let daily_calories := Float.nearest_even (3 * bmr) 2 in
  let protein_grams := Float.nearest_even daily_calories 16 in
  let carb_grams := Float.nearest_even (9 * daily_calories) 80 in
  let fat_grams := Float.nearest_even daily_calories 30 in
  rounded_share bmr (Float.lit 15 1) = Ok daily_calories
  /\ macro_grams daily_calories = Ok (protein_grams, carb_grams, fat_grams)
  /\ Z.abs (protein_grams * 4 + carb_grams * 4 + fat_grams * 9 - daily_calories) <= 7
  /\ exists protein_cals carb_cals fat_cals,
       macro_calories daily_calories = Ok (protein_cals, carb_cals, fat_cals)
       /\ 2 * Z.abs (scaled 54 protein_cals + scaled 54 carb_cals + scaled 54 fat_cals
                     - daily_calories * 2 ^ 54) <= 3 * Z.abs daily_calories.
Proof.
  intros Hbmr. cbv zeta.
  assert (Hbmr48 : Z.abs bmr < 2 ^ 48).
  { change (2 ^ 47) with 140737488355328 in Hbmr. change (2 ^ 48) with 281474976710656. lia. }
  assert (Hdc : Z.abs (Float.nearest_even (3 * bmr) 2) < 2 ^ 48).
  { pose proof (nearest_even_bound (3 * bmr) 2 ltac:(lia)).
    change (2 ^ 47) with 140737488355328 in Hbmr. change (2 ^ 48) with 281474976710656. lia. }
  split; [apply (rounded_share_exact bmr Hbmr48) | ].
  split; [apply macro_grams_exact, Hdc | ].
  split.
  - pose proof (macro_error_bound (Float.nearest_even (3 * bmr) 2)) as H.
    unfold macro_error in H. lia.
  - apply shares_sum_close, Hdc.
Qed.

Lemma macro_split_witness :
  rounded_share 1696 (Float.lit 15 1) = Ok (Float.nearest_even (3 * 1696) 2).
Proof.
  exact (proj1 (macro_split 1696 eq_refl)).
Defined.

(** His calorie target is 3018; the three calorie shares do not sum to it,
    neither exactly nor as Python adds them. *)
Lemma shares_sum_counterexample :
  (forall libm : Float.Libm,
     pow_accurate libm ->
     compute_metrics tall_profile = Ok (2012, Float.lit 233 1, "Normal Weight", 3018))
  /\ exists protein_cals carb_cals fat_cals,
       macro_calories 3018 = Ok (protein_cals, carb_cals, fat_cals)
       /\ scaled 54 protein_cals + scaled 54 carb_cals + scaled 54 fat_cals
          <> 3018 * 2 ^ 54
       /\ Float.add (Float.add protein_cals carb_cals) fat_cals <> Float.of_Z 3018.
Proof.
  split; [intros libm Hacc; apply (example_metrics Hacc) | ].
  do 3 eexists. split; [vm_compute; reflexivity | ].
  split; vm_compute; discriminate.
Qed.

(** ** The week as a function of the draws *)

Lemma pick_elem (options : list string) (n : nat) :
  options <> [] -> pick options n ∈ options.
Proof.
  intros Hne. unfold pick.
  assert (Hlt : (n mod length options < length options)%nat).
  { apply Nat.mod_upper_bound. destruct options; [congruence | discriminate]. }
  destruct (lookup_lt_is_Some_2 _ _ Hlt) as [o Ho]. rewrite Ho.
  eapply list_elem_of_lookup_2, Ho.
Qed.

Lemma choice_pick (options : list string) (w : world) :
  options <> [] -> choice options w = (Ok (pick options (draws w (cursor w))), advance w).
Proof.
  intros Hne. unfold choice, pick.
  assert (Hlt : (draws w (cursor w) mod length options < length options)%nat).
  { apply Nat.mod_upper_bound. destruct options; [congruence | discriminate]. }
  destruct (lookup_lt_is_Some_2 _ _ Hlt) as [o Ho]. rewrite Ho. reflexivity.
Qed.

Lemma iter_advance (k : nat) (w : world) :
  draws (Nat.iter k advance w) = draws w
  /\ cursor (Nat.iter k advance w) = (cursor w + k)%nat
  /\ service (Nat.iter k advance w) = service w
  /\ posts (Nat.iter k advance w) = posts w.
Proof.
  induction k as [ | k (Hd & Hc & Hs & Hp)]; simpl.
  - repeat split; try reflexivity; lia.
  - rewrite Hd, Hc, Hs, Hp. repeat split; try reflexivity; lia.
Qed.

(** A day is a function of the shares and of five draws. *)
Lemma generate_daily_meals_run (daily_calories : Z) (user_data : pyval) (w : world)
    (c25 c10 c30 : Z) :
  rounded_share daily_calories (Float.lit 25 2) = Ok c25 ->
  rounded_share daily_calories (Float.lit 10 2) = Ok c10 ->
  rounded_share daily_calories (Float.lit 30 2) = Ok c30 ->
  generate_daily_meals daily_calories user_data w
  = (Ok (day_at c25 c10 c30 (draws w) (cursor w)), Nat.iter 5 advance w).
Proof.
  intros H25 H10 H30. unfold generate_daily_meals, lift, mbind, M_bind.
  rewrite H25, H10, H30.
  rewrite !choice_pick by discriminate.
  simpl. unfold day_at, day_of.
  replace (cursor w + 1)%nat with (S (cursor w)) by lia.
  replace (cursor w + 2)%nat with (S (S (cursor w))) by lia.
  replace (cursor w + 3)%nat with (S (S (S (cursor w)))) by lia.
  replace (cursor w + 4)%nat with (S (S (S (S (cursor w))))) by lia.
  reflexivity.
Qed.

Lemma generate_daily_meals_raise (daily_calories : Z) (user_data : pyval) (w : world) :
  (forall c25 c10 c30,
      rounded_share daily_calories (Float.lit 25 2) = Ok c25 ->
      rounded_share daily_calories (Float.lit 10 2) = Ok c10 ->
      rounded_share daily_calories (Float.lit 30 2) = Ok c30 -> False) ->
  exists e, generate_daily_meals daily_calories user_data w = (Raise e, w).
Proof.
  intros Hno. pose proof (generate_daily_meals_cases daily_calories user_data w) as H.
  destruct (rounded_share daily_calories (Float.lit 25 2)) as [c25 | e]; [ | exact H].
  destruct (rounded_share daily_calories (Float.lit 10 2)) as [c10 | e]; [ | exact H].
  destruct (rounded_share daily_calories (Float.lit 30 2)) as [c30 | e]; [ | exact H].
  exfalso. exact (Hno c25 c10 c30 eq_refl eq_refl eq_refl).
Qed.

Lemma fill_week_run (daily_calories : Z) (user_data : pyval) (c25 c10 c30 : Z)
    (ds : list string) (week : gmap string (gmap string meal_slot)) (w : world) :
  rounded_share daily_calories (Float.lit 25 2) = Ok c25 ->
  rounded_share daily_calories (Float.lit 10 2) = Ok c10 ->
  rounded_share daily_calories (Float.lit 30 2) = Ok c30 ->
  fill_week ds daily_calories user_data week w
  = (Ok (week_at ds c25 c10 c30 (draws w) (cursor w) week),
     Nat.iter (5 * length ds) advance w).
Proof.
  intros H25 H10 H30. revert week w.
  induction ds as [ | day rest IH]; intros week w; [reflexivity | ].
  cbn [fill_week week_at]. unfold mbind, M_bind.
  rewrite (generate_daily_meals_run _ _ _ _ _ _ H25 H10 H30).
  rewrite IH.
  destruct (iter_advance 5 w) as (-> & -> & _ & _).
  f_equal. cbn [length].
  replace (5 * S (length rest))%nat with (5 * length rest + 5)%nat by lia.
  rewrite Nat.iter_add. reflexivity.
Qed.

(** [generate_fallback_plan] either returns that plan after 35 draws or
    raises without drawing. *)
Lemma generate_fallback_plan_run (parse_int : string -> result Z) (user_data : pyval)
    (bmr : Z) (bmi : float) (bmi_category : string) (daily_calories : Z) (w : world) :
  match fallback_plan_of parse_int user_data bmi bmi_category daily_calories
          (draws w) (cursor w) with
  | Ok plan =>
      generate_fallback_plan parse_int user_data bmr bmi bmi_category daily_calories w
      = (Ok plan, Nat.iter 35 advance w)
  | Raise _ =>
      exists e,
        generate_fallback_plan parse_int user_data bmr bmi bmi_category daily_calories w
        = (Raise e, w)
  end.
Proof.
  unfold fallback_plan_of, generate_fallback_plan, lift, mbind, M_bind, result_bind.
  destruct (macro_grams daily_calories) as [[[pg cg] fg] | e]; [ | eauto].
  destruct (getitem user_data "name") as [name | e]; [ | eauto].
  destruct (getitem user_data "age") as [age | e]; [ | eauto].
  destruct (getitem user_data "gender") as [gender | e]; [ | eauto].
  destruct (getitem user_data "weight") as [weight | e]; [ | eauto].
  destruct (getitem user_data "height") as [height | e]; [ | eauto].
  destruct (get_lifestyle_recommendations parse_int user_data) as [recs | e]; [ | eauto].
  destruct (rounded_share daily_calories (Float.lit 25 2)) as [c25 | e25] eqn:H25;
    [destruct (rounded_share daily_calories (Float.lit 10 2)) as [c10 | e10] eqn:H10;
     [destruct (rounded_share daily_calories (Float.lit 30 2)) as [c30 | e30] eqn:H30 | ] | ].
  - rewrite (fill_week_run _ _ _ _ _ _ _ _ H25 H10 H30). reflexivity.
  - destruct (generate_daily_meals_raise daily_calories user_data w) as [e He].
    { intros ? ? ? _ _ H. rewrite H30 in H. discriminate. }
    cbn [days fill_week]. unfold mbind, M_bind. rewrite He. eauto.
  - destruct (generate_daily_meals_raise daily_calories user_data w) as [e He].
    { intros ? ? ? _ H _. rewrite H10 in H. discriminate. }
    cbn [days fill_week]. unfold mbind, M_bind. rewrite He. eauto.
  - destruct (generate_daily_meals_raise daily_calories user_data w) as [e He].
    { intros ? ? ? H _ _. rewrite H25 in H. discriminate. }
    cbn [days fill_week]. unfold mbind, M_bind. rewrite He. eauto.
Qed.

Lemma week_at_days (c25 c10 c30 : Z) (f : nat -> nat) (i : nat) (k : nat) (day : string) :
  days !! k = Some day ->
  week_at days c25 c10 c30 f i ∅ !! day = Some (day_at c25 c10 c30 f (i + 5 * k)).
Proof.
  intros Hk. unfold days in *. cbn [week_at].
  do 7 (destruct k as [ | k];
        [injection Hk as <-;
         repeat (rewrite lookup_insert_ne by discriminate);
         rewrite lookup_insert_eq; do 2 f_equal; lia | ]).
  discriminate Hk.
Qed.

Lemma week_at_dom (c25 c10 c30 : Z) (f : nat -> nat) (i : nat) :
  dom (week_at days c25 c10 c30 f i ∅) = list_to_set days.
Proof.
  unfold days. cbn [week_at list_to_set]. rewrite !dom_insert_L, dom_empty_L. set_solver.
Qed.

Lemma day_at_dom (c25 c10 c30 : Z) (f : nat -> nat) (i : nat) :
  dom (day_at c25 c10 c30 f i) = list_to_set slot_names.
Proof.
  unfold day_at, day_of, slot_names. cbn [list_to_map foldr uncurry list_to_set].
  rewrite !dom_insert_L, dom_empty_L. set_solver.
Qed.

Lemma day_at_slots (c25 c10 c30 : Z) (f : nat -> nat) (i : nat)
    (slot : string) (options : list string) :
  (slot, options) ∈ slot_options ->
  exists entry, day_at c25 c10 c30 f i !! slot = Some entry /\ meal entry ∈ options.
Proof.
  unfold day_at. apply day_of_slots; apply pick_elem; discriminate.
Qed.

Lemma day_at_constant (c25 c10 c30 : Z) (f : nat -> nat) (i j : nat) :
  (forall n, f n = f O) -> day_at c25 c10 c30 f i = day_at c25 c10 c30 f j.
Proof.
  intros Hconst. unfold day_at.
  rewrite (Hconst i), (Hconst (i + 1)%nat), (Hconst (i + 2)%nat), (Hconst (i + 3)%nat),
    (Hconst (i + 4)%nat), (Hconst j), (Hconst (j + 1)%nat), (Hconst (j + 2)%nat),
    (Hconst (j + 3)%nat), (Hconst (j + 4)%nat).
  reflexivity.
Qed.

(** ** Overflow

    The ints the module multiplies by its literals are themselves rounded
    doubles, so their products and quotients stay within the doubles. *)

(** A double that [rnd] returns has at most 53 bits and an exponent
    within the format. *)
Lemma rnd_one_bounded (s : bool) (p e : Z) :
  0 < p ->
  match Float.rnd s p 1 e with
  | S754_finite _ m u => Zpos m < 2 ^ 53 /\ u <= 971
  | S754_nan => False
  | _ => True
  end.
Proof.
  intros Hp. unfold Float.rnd. rewrite (ilog2_ratio_one p Hp).
  unfold Float.prec, Float.emax.
  change (53 - 1) with 52. change (3 - 1024 - 53) with (-1074). change (1024 - 53) with 971.
  set (u := Z.max (Z.log2 p + e - 52) (-1074)).
  assert (Ht : e - u <= 52 - Z.log2 p) by (unfold u; lia).
  set (t := e - u) in *.
  pose proof (Z.log2_nonneg p) as Hl.
  set (m := if 0 <=? t then Float.nearest_even (p * 2 ^ t) 1
            else Float.nearest_even p (1 * 2 ^ (- t))).
  assert (Hm : m <= 2 ^ 53).
  { unfold m. destruct (Z.leb_spec 0 t).
    - rewrite nearest_even_one. apply Z.lt_le_incl, Z.log2_lt_pow2.
      + apply Z.mul_pos_pos; [exact Hp | apply Z.pow_pos_nonneg; lia].
      + rewrite Z.log2_mul_pow2 by lia. lia.
    - rewrite Z.mul_1_l. apply nearest_even_le; [apply Z.pow_pos_nonneg; lia | ].
      rewrite <- Z.pow_add_r by lia. apply Z.lt_le_incl, Z.log2_lt_pow2; lia. }
  destruct (Z.eqb_spec m (2 ^ 53)) as [Hn | Hn].
  - change (2 ^ 52) with 4503599627370496.
    destruct (Z.leb_spec (u + 1) 971); [split; [reflexivity | assumption] | exact I].
  - destruct m as [ | m' | m']; try exact I.
    destruct (Z.leb_spec u 971); [split; [lia | assumption] | exact I].
Qed.

Lemma mul_bounded (x y : float) :
  match Float.mul x y with
  | S754_finite _ m u => Zpos m < 2 ^ 53 /\ u <= 971
  | _ => True
  end.
Proof.
  destruct x as [sx | sx | | sx mx ex], y as [sy | sy | | sy my ey]; try exact I.
  unfold Float.mul.
  pose proof (rnd_one_bounded (xorb sx sy) (Z.pos mx * Z.pos my) (ex + ey) ltac:(lia)) as H.
  destruct (Float.rnd _ _ _ _); try exact I. exact H.
Qed.

Lemma max_double_pos : 2 ^ 53 - 1 <= max_double < 2 ^ 1024.
Proof.
  unfold max_double. change (2 ^ 1024) with (2 ^ 53 * 2 ^ 971).
  assert (0 < 2 ^ 971) by (apply Z.pow_pos_nonneg; lia).
  set (T := 2 ^ 971) in *. change (2 ^ 53) with 9007199254740992. lia.
Qed.

(** [round] of such a double is an int within the doubles. *)
Lemma round_bounded (x : float) (n : Z) :
  match x with
  | S754_finite _ m u => Zpos m < 2 ^ 53 /\ u <= 971
  | _ => True
  end ->
  Float.round x = Ok n -> Z.abs n <= max_double.
Proof.
  pose proof max_double_pos as Hmax.
  destruct x as [s | s | | s m e]; cbn [Float.round]; try discriminate.
  - intros _ [= <-]. change (2 ^ 53) with 9007199254740992 in Hmax. simpl. lia.
  - intros [Hm He] [= <-].
    assert (Hh : 0 <= Float.half_even (Z.pos m) e <= max_double).
    { unfold Float.half_even. destruct (Z.leb_spec 0 e).
      - split; [apply Z.mul_nonneg_nonneg; [lia | apply Z.pow_nonneg; lia] | ].
        unfold max_double. apply Z.mul_le_mono_nonneg; try lia.
        apply Z.pow_le_mono_r; lia.
      - assert (HQ : 0 < 2 ^ (- e)) by (apply Z.pow_pos_nonneg; lia).
        split; [apply nearest_even_nonneg; lia | ].
        assert (Float.nearest_even (Z.pos m) (2 ^ (- e)) <= Z.pos m).
        { apply nearest_even_le; [exact HQ | ].
          replace (Z.pos m) with (Z.pos m * 1) at 1 by lia.
          apply Z.mul_le_mono_nonneg_l; lia. }
        lia. }
    destruct s; unfold Float.signed; lia.
Qed.

(** Every int that [round(z * c)] returns is within the doubles. *)
Lemma rounded_share_range (z : Z) (c : float) (n : Z) :
  rounded_share z c = Ok n -> Z.abs n <= max_double.
Proof.
  unfold rounded_share, int_times.
  destruct (int_to_double z) as [x | e]; cbn [mbind result_bind]; [ | discriminate].
  apply round_bounded. apply mul_bounded.
Qed.

Lemma norm53_top (p : Z) : 0 < p -> p <= max_double -> (norm53 p).2 <= 971.
Proof.
  intros Hp Hmax. pose proof max_double_pos as Hpos.
  assert (Hl : Z.log2 p < 1024) by (apply Z.log2_lt_pow2; lia).
  unfold norm53. destruct (Z.ltb_spec 0 (Z.log2 p - 52)) as [Hs | Hs]; [ | cbn [snd]; lia].
  destruct (Z.eqb_spec (Float.nearest_even p (2 ^ (Z.log2 p - 52))) (2 ^ 53)) as [Hn | Hn];
    cbn [snd]; [ | lia].
  destruct (Z.eq_dec (Z.log2 p - 52) 971) as [Htop | Hlow]; [exfalso | lia].
  rewrite Htop in Hn.
  assert (Float.nearest_even p (2 ^ 971) <= 2 ^ 53 - 1).
  { apply nearest_even_le; [apply Z.pow_pos_nonneg; lia | exact Hmax]. }
  lia.
Qed.

(** [float(z)] for an int within the doubles: a normal double. *)
Lemma of_Z_normal (z : Z) :
  z <> 0 -> Z.abs z <= max_double ->
  exists m e, Float.of_Z z = S754_finite (z <? 0) m e
              /\ 2 ^ 52 <= Zpos m < 2 ^ 53 /\ -52 <= e <= 971.
Proof.
  intros Hz Hmax.
  assert (Hp : 0 < Z.abs z) by lia.
  pose proof (norm53_mantissa _ Hp) as Hm.
  pose proof (norm53_top _ Hp Hmax) as Htop.
  pose proof (norm53_exponent (Z.abs z)) as Hexp.
  pose proof (Z.log2_nonneg (Z.abs z)) as Hl.
  exists (Z.to_pos (norm53 (Z.abs z)).1), ((norm53 (Z.abs z)).2 + 0).
  split; [ | rewrite Z2Pos.id by lia; lia].
  assert (Hrnd : forall s, Float.rnd s (Z.abs z) 1 0
                           = S754_finite s (Z.to_pos (norm53 (Z.abs z)).1)
                                         ((norm53 (Z.abs z)).2 + 0))
    by (intros s; apply rnd_one; lia).
  unfold Float.of_Z, Float.of_dyadic.
  destruct z as [ | p | p]; [congruence | exact (Hrnd false) | exact (Hrnd true)].
Qed.

(** The product of two normal doubles, away from overflow and underflow. *)
Lemma mul_normal (sx sy : bool) (mx my : positive) (ex ey : Z) :
  2 ^ 52 <= Zpos mx < 2 ^ 53 -> 2 ^ 52 <= Zpos my < 2 ^ 53 ->
  -1074 <= 52 + (ex + ey) -> 53 + (ex + ey) < 971 ->
  exists m e,
    Float.mul (S754_finite sx mx ex) (S754_finite sy my ey) = S754_finite (xorb sx sy) m e
    /\ 2 ^ 52 <= Zpos m < 2 ^ 53 /\ 52 + (ex + ey) <= e <= 54 + (ex + ey).
Proof.
  intros Hmx Hmy Hlo Hhi.
  assert (HP : 2 ^ 104 <= Z.pos mx * Z.pos my < 2 ^ 106).
  { change (2 ^ 104) with (2 ^ 52 * 2 ^ 52). change (2 ^ 106) with (2 ^ 53 * 2 ^ 53).
    split; [apply Z.mul_le_mono_nonneg; lia | apply Z.mul_lt_mono_nonneg; lia]. }
  assert (Hl : 104 <= Z.log2 (Z.pos mx * Z.pos my) < 106)
    by (split; [apply Z.log2_le_pow2; lia | apply Z.log2_lt_pow2; lia]).
  pose proof (norm53_mantissa (Z.pos mx * Z.pos my) ltac:(lia)) as Hm.
  pose proof (norm53_exponent (Z.pos mx * Z.pos my)) as Hexp.
  exists (Z.to_pos (norm53 (Z.pos mx * Z.pos my)).1),
         ((norm53 (Z.pos mx * Z.pos my)).2 + (ex + ey)).
  split; [ | rewrite Z2Pos.id by lia; lia].
  unfold Float.mul. apply rnd_q1; lia.
Qed.

(** [round(z * c)] returns, for an int within the doubles and a normal
    literal below one. *)
Lemma rounded_share_total (z : Z) (mc : positive) (ec : Z) :
  Z.abs z <= max_double -> 2 ^ 52 <= Zpos mc < 2 ^ 53 -> -1000 <= ec <= -54 ->
  exists n, rounded_share z (S754_finite false mc ec) = Ok n.
Proof.
  intros Hz Hmc Hec. destruct (Z.eq_dec z 0) as [-> | Hnz]; [exists 0; reflexivity | ].
  destruct (of_Z_normal z Hnz Hz) as (m & e & Hof & Hm & He).
  unfold rounded_share, int_times, int_to_double. rewrite Hof. cbn [mbind result_bind].
  destruct (mul_normal (z <? 0) false m mc e ec Hm Hmc ltac:(lia) ltac:(lia))
    as (m' & e' & -> & _ & _).
  cbn [Float.round]. eexists. reflexivity.
Qed.

(** The macro grams are computed without overflow as well. *)
Lemma macro_grams_total (z : Z) :
  Z.abs z <= max_double -> exists grams, macro_grams z = Ok grams.
Proof.
  intros Hz. destruct (Z.eq_dec z 0) as [-> | Hnz]; [exists (0, 0, 0); reflexivity | ].
  destruct (of_Z_normal z Hnz Hz) as (m & e & Hof & Hm & He).
  destruct literal_values as (E25 & _ & E30 & E45 & _).
  unfold macro_grams, macro_calories, int_times, int_to_double.
  rewrite Hof, E25, E45, E30. cbn [mbind result_bind].
  destruct (mul_normal (z <? 0) false m 4503599627370496 e (-54) Hm
              ltac:(cbn; lia) ltac:(lia) ltac:(lia)) as (m1 & e1 & -> & Hm1 & He1).
  destruct (mul_normal (z <? 0) false m 8106479329266893 e (-54) Hm
              ltac:(cbn; lia) ltac:(lia) ltac:(lia)) as (m2 & e2 & -> & Hm2 & He2).
  destruct (mul_normal (z <? 0) false m 5404319552844595 e (-54) Hm
              ltac:(cbn; lia) ltac:(lia) ltac:(lia)) as (m3 & e3 & -> & Hm3 & He3).
  rewrite !truediv_four by (try assumption; lia).
  rewrite truediv_nine by (try assumption; lia).
  cbn [mbind result_bind Float.round]. eexists. reflexivity.
Qed.
(** ** The fallback plan exists *)

Lemma round_special (x c y : float) :
  (exists s m e, c = S754_finite s m e) ->
  match y with S754_infinity _ | S754_nan => True | _ => False end ->
  exists e, Float.round (Float.sub x (Float.mul c y)) = Raise e.
Proof.
  intros (s & m & e & ->) Hy.
  destruct y as [sy | sy | | sy my ey]; try contradiction;
    destruct x as [sx | sx | | sx mx ex]; try destruct sx; destruct s; try destruct sy;
    cbn; eauto.
Qed.

(** The Harris-Benedict sum with any coefficients: an age it accepts is a
    number that is neither infinite nor NaN. *)
Lemma bmr_terms_age (c0 c1 c2 c3 : float) (weight height age : pyval) (bmr : Z) :
  (exists s m e, c3 = S754_finite s m e) ->
  (x ← (w ← float_mul c1 weight;
        h ← float_mul c2 height;
        a ← float_mul c3 age;
        Ok (Float.sub (Float.add (Float.add c0 w) h) a));
   Float.round x) = Ok bmr ->
  match age with
  | PBool _ | PInt _ | PFloat (S754_zero _) | PFloat (S754_finite _ _ _) => True
  | _ => False
  end.
Proof.
  intros Hc3 H.
  destruct (float_mul c1 weight) as [w | ]; cbn [mbind result_bind] in H; [ | discriminate].
  destruct (float_mul c2 height) as [h | ]; cbn [mbind result_bind] in H; [ | discriminate].
  destruct age as [ | b | z | x | t | l | d];
    cbn [float_mul to_double mbind result_bind] in H; try discriminate; try exact I.
  destruct x as [sx | sx | | sx mx ex]; try exact I.
  - destruct (round_special (Float.add (Float.add c0 w) h) c3 (S754_infinity sx) Hc3 I)
      as [e He].
    rewrite He in H. discriminate.
  - destruct (round_special (Float.add (Float.add c0 w) h) c3 S754_nan Hc3 I) as [e He].
    rewrite He in H. discriminate.
Qed.

(** An age that [calculate_bmr] accepts is one that [int] accepts. *)
Lemma calculate_bmr_age (parse_int : string -> result Z)
    (weight height age gender : pyval) (bmr : Z) :
  calculate_bmr weight height age gender = Ok bmr ->
  exists n, py_int parse_int age = Ok n.
Proof.
  unfold calculate_bmr.
  destruct (str_lower gender) as [g | ]; cbn [mbind result_bind]; [ | discriminate].
  intros H.
  assert (Hnum : match age with
                 | PBool _ | PInt _ | PFloat (S754_zero _) | PFloat (S754_finite _ _ _) => True
                 | _ => False
                 end).
  { destruct (String.eqb g "male").
    - apply (bmr_terms_age _ _ _ _ _ _ _ _ ltac:(vm_compute; eauto) H).
    - apply (bmr_terms_age _ _ _ _ _ _ _ _ ltac:(vm_compute; eauto) H). }
  destruct age as [ | b | z | x | t | l | d]; try contradiction; cbn [py_int]; eauto.
  destruct x; try contradiction; cbn [Float.to_int]; eauto.
Qed.

Lemma compute_metrics_inv {libm : Float.Libm} (user_data : pyval) (bmr : Z) (bmi : float)
    (bmi_category : string) (daily_calories : Z) :
  compute_metrics user_data = Ok (bmr, bmi, bmi_category, daily_calories) ->
  exists weight height age gender,
    getitem user_data "age" = Ok age
    /\ calculate_bmr weight height age gender = Ok bmr
    /\ rounded_share bmr (Float.lit 15 1) = Ok daily_calories.
Proof.
  unfold compute_metrics.
  destruct (getitem user_data "weight") as [weight | ];
    cbn [mbind result_bind]; [ | discriminate].
  destruct (getitem user_data "height") as [height | ];
    cbn [mbind result_bind]; [ | discriminate].
  destruct (getitem user_data "age") as [age | ];
    cbn [mbind result_bind]; [ | discriminate].
  destruct (getitem user_data "gender") as [gender | ];
    cbn [mbind result_bind]; [ | discriminate].
  destruct (calculate_bmr weight height age gender) as [b | ] eqn:Hbmr;
    cbn [mbind result_bind]; [ | discriminate].
  destruct (calculate_bmi weight height) as [i | ]; cbn [mbind result_bind]; [ | discriminate].
  destruct (get_bmi_category i) as [category advice].
  destruct (rounded_share b (Float.lit 15 1)) as [dc | ] eqn:Hdc;
    cbn [mbind result_bind]; [ | discriminate].
  intros [= <- <- <- <-]. exists weight, height, age, gender. auto.
Qed.

Lemma build_prompt_inv (format : pyval -> string) (user_data : pyval) (bmi : float)
    (bmi_category : string) (daily_calories : Z) (prompt : string) :
  build_prompt format user_data bmi bmi_category daily_calories = Ok prompt ->
  forall field, field ∈ required_fields -> exists v, getitem user_data field = Ok v.
Proof.
  unfold build_prompt.
  destruct (getitem user_data "name") eqn:?; cbn [mbind result_bind]; [ | discriminate].
  destruct (getitem user_data "age") eqn:?; cbn [mbind result_bind]; [ | discriminate].
  destruct (getitem user_data "gender") eqn:?; cbn [mbind result_bind]; [ | discriminate].
  destruct (getitem user_data "weight") eqn:?; cbn [mbind result_bind]; [ | discriminate].
  destruct (getitem user_data "height") eqn:?; cbn [mbind result_bind]; [ | discriminate].
  destruct (getitem user_data "smoking") eqn:?; cbn [mbind result_bind]; [ | discriminate].
  destruct (getitem user_data "drinking") eqn:?; cbn [mbind result_bind]; [ | discriminate].
  intros _ field Hin. unfold required_fields in Hin.
  repeat (apply elem_of_cons in Hin; destruct Hin as [-> | Hin]; [eauto | ]).
  apply elem_of_nil in Hin. destruct Hin.
Qed.

(** With every required field present the validation loop finds none
    missing. *)
Lemma first_missing_none (user_data : pyval) :
  (forall field, field ∈ required_fields -> exists v, getitem user_data field = Ok v) ->
  first_missing required_fields user_data = Ok None.
Proof.
  intros Hall. destruct (Hall "name" ltac:(set_solver)) as [v Hv].
  destruct user_data as [ | | | | | | d]; try discriminate.
  rewrite first_missing_dict. f_equal.
  destruct (find _ required_fields) as [field | ] eqn:Hfind; [exfalso | reflexivity].
  apply find_some in Hfind. destruct Hfind as [Hin Hmiss].
  destruct (Hall field ltac:(apply list_elem_of_In; exact Hin)) as [v' Hv'].
  cbn [getitem] in Hv'. destruct (d !! field) eqn:Hd; [ | discriminate].
  rewrite bool_decide_eq_true_2 in Hmiss by eauto. discriminate.
Qed.

(** Once the metrics are computed and the prompt is built, the fallback
    plan exists whatever the draws. *)
Lemma fallback_plan_total {libm : Float.Libm} (parse_int : string -> result Z) (format : pyval -> string)
    (user_data : pyval) (bmr : Z) (bmi : float) (bmi_category : string)
    (daily_calories : Z) (prompt : string) (f : nat -> nat) (i : nat) :
  compute_metrics user_data = Ok (bmr, bmi, bmi_category, daily_calories) ->
  build_prompt format user_data bmi bmi_category daily_calories = Ok prompt ->
  exists plan,
    fallback_plan_of parse_int user_data bmi bmi_category daily_calories f i = Ok plan.
Proof.
  intros Hmetrics Hprompt.
  destruct (compute_metrics_inv _ _ _ _ _ Hmetrics)
    as (weight & height & age & gender & Hage & Hbmr & Hdc).
  pose proof (rounded_share_range _ _ _ Hdc) as Hrange.
  pose proof (build_prompt_inv _ _ _ _ _ _ Hprompt) as Hfields.
  destruct (macro_grams_total _ Hrange) as [[[pg cg] fg] Hgrams].
  destruct (Hfields "name" ltac:(set_solver)) as [v1 H1].
  destruct (Hfields "gender" ltac:(set_solver)) as [v3 H3].
  destruct (Hfields "weight" ltac:(set_solver)) as [v4 H4].
  destruct (Hfields "height" ltac:(set_solver)) as [v5 H5].
  destruct (Hfields "smoking" ltac:(set_solver)) as [v6 H6].
  destruct (Hfields "drinking" ltac:(set_solver)) as [v7 H7].
  destruct (calculate_bmr_age parse_int _ _ _ _ _ Hbmr) as [n Hn].
  pose proof (get_lifestyle_recommendations_eq parse_int _ _ _ _ _ H6 H7 Hage Hn) as Hrecs.
  destruct literal_values as (E25 & E10 & E30 & _ & _).
  destruct (rounded_share_total daily_calories 4503599627370496 (-54) Hrange
              ltac:(cbn; lia) ltac:(lia)) as [c25 H25].
  destruct (rounded_share_total daily_calories 7205759403792794 (-56) Hrange
              ltac:(cbn; lia) ltac:(lia)) as [c10 H10].
  destruct (rounded_share_total daily_calories 5404319552844595 (-54) Hrange
              ltac:(cbn; lia) ltac:(lia)) as [c30 H30].
  rewrite <- E25 in H25. rewrite <- E10 in H10. rewrite <- E30 in H30.
  unfold fallback_plan_of.
  rewrite Hgrams, H1, Hage, H3, H4, H5, Hrecs, H25, H10, H30.
  cbn [mbind result_bind]. eexists. reflexivity.
Qed.

(** ** C8: the weekly plan *)

Lemma fallback_plan_of_week (parse_int : string -> result Z) (user_data : pyval)
    (bmi : float) (bmi_category : string) (daily_calories : Z)
    (f : nat -> nat) (i : nat) (plan : meal_plan) :
  fallback_plan_of parse_int user_data bmi bmi_category daily_calories f i = Ok plan ->
  exists c25 c10 c30, weekly_plan plan = week_at days c25 c10 c30 f i ∅.
Proof.
  unfold fallback_plan_of.
  destruct (macro_grams daily_calories) as [[[pg cg] fg] | e];
    cbn [mbind result_bind]; [ | discriminate].
  destruct (getitem user_data "name"); cbn [mbind result_bind]; [ | discriminate].
  destruct (getitem user_data "age"); cbn [mbind result_bind]; [ | discriminate].
  destruct (getitem user_data "gender"); cbn [mbind result_bind]; [ | discriminate].
  destruct (getitem user_data "weight"); cbn [mbind result_bind]; [ | discriminate].
  destruct (getitem user_data "height"); cbn [mbind result_bind]; [ | discriminate].
  destruct (get_lifestyle_recommendations parse_int user_data);
    cbn [mbind result_bind]; [ | discriminate].
  destruct (rounded_share daily_calories (Float.lit 25 2)) as [c25 | ];
    cbn [mbind result_bind]; [ | discriminate].
  destruct (rounded_share daily_calories (Float.lit 10 2)) as [c10 | ];
    cbn [mbind result_bind]; [ | discriminate].
  destruct (rounded_share daily_calories (Float.lit 30 2)) as [c30 | ];
    cbn [mbind result_bind]; [ | discriminate].
  intros [= <-]. exists c25, c10, c30. reflexivity.
Qed.

(** C8. A plan that [generate_fallback_plan] returns has a weekly plan
    whose keys are exactly Monday to Sunday; each day maps exactly the
    five slots breakfast, morning_snack, lunch, afternoon_snack and dinner
    to a meal of the slot's option list with its calories.  The day at
    position [k] is built from the draws [5k] to [5k + 4] after the cursor
    alone, and nothing keeps two days apart: when all draws are equal all
    seven days are the same.  The run consumes 35 draws. *)
Theorem weekly_plan_shape (parse_int : string -> result Z) (user_data : pyval) (bmr : Z)
    (bmi : float) (bmi_category : string) (daily_calories : Z) (w w' : world)
    (plan : meal_plan) :
  generate_fallback_plan parse_int user_data bmr bmi bmi_category daily_calories w
  = (Ok plan, w') ->
  dom (weekly_plan plan)
  = list_to_set [ "Monday"; "Tuesday"; "Wednesday"; "Thursday"; "Friday"; "Saturday";
                  "Sunday" ]
  /\ (forall day, day ∈ days ->
      exists meals,
        weekly_plan plan !! day = Some meals
        /\ dom meals
           = list_to_set [ "breakfast"; "morning_snack"; "lunch"; "afternoon_snack";
                           "dinner" ]
        /\ forall slot options, (slot, options) ∈ slot_options ->
             exists entry, meals !! slot = Some entry /\ meal entry ∈ options)
  /\ (exists c25 c10 c30, forall k day, days !! k = Some day ->
        weekly_plan plan !! day
        = Some (day_at c25 c10 c30 (draws w) (cursor w + 5 * k)))
  /\ ((forall n, draws w n = draws w O) ->
      forall d1 d2, d1 ∈ days -> d2 ∈ days ->
        weekly_plan plan !! d1 = weekly_plan plan !! d2)
  /\ w' = Nat.iter 35 advance w.
Proof.
  intros Hrun.
  pose proof (generate_fallback_plan_run parse_int user_data bmr bmi bmi_category
                daily_calories w) as Hfact.
  destruct (fallback_plan_of parse_int user_data bmi bmi_category daily_calories
              (draws w) (cursor w)) as [plan' | e] eqn:Hplan.
  - rewrite Hrun in Hfact. injection Hfact as -> ->.
    destruct (fallback_plan_of_week _ _ _ _ _ _ _ _ Hplan) as (c25 & c10 & c30 & Hweek).
    rewrite Hweek. split; [apply week_at_dom | ].
    split.
    { intros day Hday. apply list_elem_of_lookup in Hday. destruct Hday as [k Hk].
      rewrite (week_at_days _ _ _ _ _ _ _ Hk). eexists. split; [reflexivity | ].
      split; [apply day_at_dom | ]. intros slot options. apply day_at_slots. }
    split; [exists c25, c10, c30; intros k day Hk; apply week_at_days; exact Hk | ].
    split; [ | reflexivity].
    intros Hconst d1 d2 H1 H2.
    apply list_elem_of_lookup in H1, H2. destruct H1 as [k1 Hk1], H2 as [k2 Hk2].
    rewrite (week_at_days _ _ _ _ _ _ _ Hk1), (week_at_days _ _ _ _ _ _ _ Hk2).
    f_equal. apply day_at_constant. exact Hconst.
  - destruct Hfact as [e' He']. rewrite Hrun in He'. discriminate.
Qed.

Lemma weekly_plan_shape_witness :
  exists plan,
    generate_fallback_plan no_parse example_profile 1696 (Float.lit 229 1) "Normal Weight"
      2544 (world_of S ConnectionFailed)
    = (Ok plan, Nat.iter 35 advance (world_of S ConnectionFailed))
    /\ dom (weekly_plan plan)
       = list_to_set [ "Monday"; "Tuesday"; "Wednesday"; "Thursday"; "Friday"; "Saturday";
                       "Sunday" ].
Proof.
  assert (Hmetrics : compute_metrics (libm := exact_libm) example_profile
                     = Ok (1696, Float.lit 229 1, "Normal Weight", 2544))
    by (vm_compute; reflexivity).
  assert (Hprompt : exists prompt,
             build_prompt text_only example_profile (Float.lit 229 1) "Normal Weight" 2544
             = Ok prompt)
    by (eexists; vm_compute; reflexivity).
  destruct Hprompt as [prompt Hprompt].
  destruct (fallback_plan_total no_parse text_only _ _ _ _ _ _
              (draws (world_of S ConnectionFailed)) (cursor (world_of S ConnectionFailed))
              Hmetrics Hprompt) as [plan Hplan].
  pose proof (generate_fallback_plan_run no_parse example_profile 1696 (Float.lit 229 1)
                "Normal Weight" 2544 (world_of S ConnectionFailed)) as Hrun.
  rewrite Hplan in Hrun.
  exists plan. split; [exact Hrun | ].
  exact (proj1 (weekly_plan_shape _ _ _ _ _ _ _ _ _ Hrun)).
Defined.

(** ** C5: the fallback *)

Lemma silent_lift {A : Type} (c : result A) : silent (lift c).
Proof. intros w. reflexivity. Qed.

Lemma silent_bind {A B : Type} (c : M A) (k : A -> M B) :
  silent c -> (forall a, silent (k a)) -> silent (c ≫= k).
Proof.
  intros Hc Hk w. unfold mbind, M_bind. specialize (Hc w).
  destruct (c w) as [[a | e] w1]; cbn [snd] in *; [ | exact Hc].
  rewrite Hk. exact Hc.
Qed.

Lemma silent_fmap {A B : Type} (g : A -> B) (c : M A) : silent c -> silent (g <$> c).
Proof.
  intros Hc w. unfold fmap, M_fmap. specialize (Hc w).
  destruct (c w) as [[a | e] w1]; exact Hc.
Qed.

Lemma silent_fallback (parse_int : string -> result Z) (user_data : pyval) (bmr : Z)
    (bmi : float) (bmi_category : string) (daily_calories : Z) :
  silent (generate_fallback_plan parse_int user_data bmr bmi bmi_category daily_calories).
Proof.
  intros w.
  pose proof (generate_fallback_plan_run parse_int user_data bmr bmi bmi_category
                daily_calories w) as Hrun.
  destruct (fallback_plan_of _ _ _ _ _ _ _) as [plan | e].
  - rewrite Hrun. cbn [snd]. apply iter_advance.
  - destruct Hrun as [e' ->]. reflexivity.
Qed.

Lemma try_except_posts {A : Type} (body handler : M A) (w : world) :
  silent handler -> posts (try_except body handler w).2 = posts (body w).2.
Proof.
  intros Hh. unfold try_except.
  destruct (body w) as [[a | e] w1]; cbn [snd]; [reflexivity | apply Hh].
Qed.

Lemma bind_posts {A B : Type} (c : M A) (k : A -> M B) (w : world) :
  (forall a, silent (k a)) -> posts ((c ≫= k) w).2 = posts (c w).2.
Proof.
  intros Hk. unfold mbind, M_bind.
  destruct (c w) as [[a | e] w1]; cbn [snd]; [apply Hk | reflexivity].
Qed.

Lemma lift_bind {A B : Type} (c : result A) (k : A -> M B) (w : world) :
  (lift c ≫= k) w = match c with
                    | Ok a => k a w
                    | Raise e => (Raise e, w)
                    end.
Proof. destruct c; reflexivity. Qed.

(** [generate_ai_diet_plan] posts its prompt once, or nothing at all. *)
Lemma generate_ai_diet_plan_posts {libm : Float.Libm} (parse_int : string -> result Z)
    (format : pyval -> string) (user_data : pyval) (w : world) :
  posts (generate_ai_diet_plan parse_int format user_data w).2 = posts w
  \/ exists prompt,
       posts (generate_ai_diet_plan parse_int format user_data w).2 = posts w ++ [prompt].
Proof.
  unfold generate_ai_diet_plan.
  destruct (compute_metrics user_data) as [[[[bmr bmi] bmi_category] daily_calories] | e];
    [ | left; reflexivity].
  rewrite try_except_posts by apply silent_fmap, silent_fallback.
  rewrite lift_bind.
  destruct (build_prompt format user_data bmi bmi_category daily_calories) as [prompt | e];
    [ | left; reflexivity].
  right. exists prompt. rewrite bind_posts.
  { unfold requests_post. destruct (service w prompt); reflexivity. }
  intros [status_code json].
  destruct (status_code =? 200); [ | apply silent_fmap, silent_fallback].
  apply silent_bind; [apply silent_lift | ]. intros ai_response.
  destruct (is_loading ai_response); [apply silent_fmap, silent_fallback | ].
  apply silent_bind; [apply silent_lift | ]. intros generated_text.
  unfold format_ai_response.
  apply silent_bind; [apply silent_lift | ]. intros name.
  apply silent_bind; [apply silent_lift | ]. intros insights.
  apply silent_bind; [apply silent_fallback | ]. intros structured w1. reflexivity.
Qed.

(** C5. When the metrics are computed, the prompt is built and the call
    to the inference service fails (it raises, answers with a status other
    than 200, with a body that is not JSON or with one that says the model
    is loading), [generate_ai_diet_plan] returns the fallback plan, with its
    seven days and without an AI text, and the endpoint answers 200 with
    that plan; a 200 answer always carries the same success flag and
    message, whether or not the plan is a fallback; and a request posts to
    the service once at most. *)
Theorem fallback_on_failure {libm : Float.Libm} (parse_int : string -> result Z) (format : pyval -> string)
    (user_data : pyval) (w : world) :
  (forall bmr bmi bmi_category daily_calories prompt,
      compute_metrics user_data = Ok (bmr, bmi, bmi_category, daily_calories) ->
      build_prompt format user_data bmi bmi_category daily_calories = Ok prompt ->
      call_failed (service w prompt) = true ->
      exists plan,
        fallback_plan_of parse_int user_data bmi bmi_category daily_calories
          (draws w) (cursor w) = Ok plan
        /\ dom (weekly_plan plan) = list_to_set days
        /\ generate_ai_diet_plan parse_int format user_data w
           = (Ok (Fallback plan), Nat.iter 35 advance (log_post prompt w))
        /\ generate_diet_plan parse_int format user_data w
           = ({| status := 200;
                 payload := PlanBody true (Fallback plan)
                              "Diet plan generated successfully!" |},
              Nat.iter 35 advance (log_post prompt w))
        /\ posts (Nat.iter 35 advance (log_post prompt w)) = posts w ++ [prompt])
  /\ (status (generate_diet_plan parse_int format user_data w).1 = 200 ->
      exists data,
        payload (generate_diet_plan parse_int format user_data w).1
        = PlanBody true data "Diet plan generated successfully!")
  /\ (posts (generate_diet_plan parse_int format user_data w).2 = posts w
      \/ exists prompt,
           posts (generate_diet_plan parse_int format user_data w).2 = posts w ++ [prompt]).
Proof.
  split; [ | split].
  - intros bmr bmi bmi_category daily_calories prompt Hmetrics Hprompt Hfail.
    destruct (fallback_plan_total parse_int format _ _ _ _ _ _ (draws w) (cursor w)
                Hmetrics Hprompt) as [plan Hplan].
    exists plan. split; [exact Hplan | ].
    split.
    { destruct (fallback_plan_of_week _ _ _ _ _ _ _ _ Hplan) as (c25 & c10 & c30 & ->).
      apply week_at_dom. }
    pose proof (generate_fallback_plan_run parse_int user_data bmr bmi bmi_category
                  daily_calories (log_post prompt w)) as Hrun.
    cbn [log_post draws cursor] in Hrun. rewrite Hplan in Hrun.
    assert (Hai : generate_ai_diet_plan parse_int format user_data w
                  = (Ok (Fallback plan), Nat.iter 35 advance (log_post prompt w))).
    { unfold generate_ai_diet_plan. rewrite Hmetrics.
      unfold try_except, mbind, M_bind, fmap, M_fmap, lift, requests_post.
      rewrite Hprompt. unfold call_failed in Hfail.
      destruct (service w prompt) as [ | status_code json].
      - rewrite Hrun. reflexivity.
      - destruct (Z.eqb_spec status_code 200) as [-> | Hne].
        + cbn [negb orb] in Hfail. destruct json as [ai_response | ].
          * rewrite Hfail, Hrun. reflexivity.
          * rewrite Hrun. reflexivity.
        + rewrite Hrun. reflexivity. }
    split; [exact Hai | ].
    split.
    + unfold generate_diet_plan.
      rewrite (first_missing_none _ (build_prompt_inv _ _ _ _ _ _ Hprompt)).
      rewrite Hai. reflexivity.
    + destruct (iter_advance 35 (log_post prompt w)) as (_ & _ & _ & ->). reflexivity.
  - unfold generate_diet_plan.
    destruct (first_missing required_fields user_data) as [[field | ] | e];
      cbn [fst status payload]; try discriminate.
    destruct (generate_ai_diet_plan parse_int format user_data w) as [[plan | e] w1];
      cbn [fst status payload]; [eauto | discriminate].
  - pose proof (generate_ai_diet_plan_posts parse_int format user_data w) as Hposts.
    unfold generate_diet_plan.
    destruct (first_missing required_fields user_data) as [[field | ] | e];
      cbn [snd]; try (left; reflexivity).
    destruct (generate_ai_diet_plan parse_int format user_data w) as [[plan | e] w1];
      exact Hposts.
Qed.

Lemma fallback_on_failure_witness :
  exists plan,
    (generate_diet_plan (libm := exact_libm) no_parse text_only example_profile (world_of S ConnectionFailed)).1
    = {| status := 200;
         payload := PlanBody true (Fallback plan) "Diet plan generated successfully!" |}
    /\ length (posts (generate_diet_plan (libm := exact_libm) no_parse text_only example_profile
                        (world_of S ConnectionFailed)).2) = 1%nat.
Proof.
  assert (Hmetrics : compute_metrics (libm := exact_libm) example_profile
                     = Ok (1696, Float.lit 229 1, "Normal Weight", 2544))
    by (vm_compute; reflexivity).
  assert (Hprompt : exists prompt,
             build_prompt text_only example_profile (Float.lit 229 1) "Normal Weight" 2544
             = Ok prompt)
    by (eexists; vm_compute; reflexivity).
  destruct Hprompt as [prompt Hprompt].
  destruct (proj1 (fallback_on_failure no_parse text_only example_profile
                     (world_of S ConnectionFailed)) _ _ _ _ _ Hmetrics Hprompt eq_refl)
    as (plan & _ & _ & _ & Hresponse & Hposts).
  exists plan. rewrite Hresponse. split; [reflexivity | ].
  cbn [snd]. rewrite Hposts. reflexivity.
Defined.

(** * More properties of the module *)

(** ** The plan generator on every answer of the service *)

(** With the metrics computed and the prompt built, [generate_ai_diet_plan]
    returns whatever the service does: the fallback plan on the draws that
    follow, with the AI text when the answer yields one. *)
Lemma generate_ai_diet_plan_run {libm : Float.Libm} (parse_int : string -> result Z) (format : pyval -> string)
    (user_data : pyval) (w : world) (bmr : Z) (bmi : float) (bmi_category : string)
    (daily_calories : Z) (prompt : string) :
  compute_metrics user_data = Ok (bmr, bmi, bmi_category, daily_calories) ->
  build_prompt format user_data bmi bmi_category daily_calories = Ok prompt ->
  exists plan name,
    fallback_plan_of parse_int user_data bmi bmi_category daily_calories
      (draws w) (cursor w) = Ok plan
    /\ getitem user_data "name" = Ok name
    /\ generate_ai_diet_plan parse_int format user_data w
       = (Ok match insights_of format (service w prompt) with
             | Some insights => AIPlan name bmi bmi_category daily_calories insights plan
             | None => Fallback plan
             end,
          Nat.iter 35 advance (log_post prompt w)).
Proof.
  intros Hmetrics Hprompt.
  destruct (fallback_plan_total parse_int format _ _ _ _ _ _ (draws w) (cursor w)
              Hmetrics Hprompt) as [plan Hplan].
  destruct (build_prompt_inv _ _ _ _ _ _ Hprompt "name" ltac:(set_solver)) as [name Hname].
  exists plan, name. split; [exact Hplan | ]. split; [exact Hname | ].
  pose proof (generate_fallback_plan_run parse_int user_data bmr bmi bmi_category
                daily_calories (log_post prompt w)) as Hrun.
  cbn [log_post draws cursor] in Hrun. rewrite Hplan in Hrun.
  unfold generate_ai_diet_plan. rewrite Hmetrics.
  unfold try_except, format_ai_response, mbind, M_bind, fmap, M_fmap, lift, requests_post.
  rewrite Hprompt. unfold insights_of.
  destruct (service w prompt) as [ | status_code json]; [rewrite Hrun; reflexivity | ].
  destruct (status_code =? 200); cbn [andb]; [ | rewrite Hrun; destruct json; reflexivity].
  destruct json as [ai_response | ]; [ | rewrite Hrun; reflexivity].
  destruct (is_loading ai_response); cbn [negb]; [rewrite Hrun; reflexivity | ].
  destruct (extract_text format ai_response) as [generated_text | e];
    cbn [mbind result_bind]; [ | rewrite Hrun; reflexivity].
  rewrite Hname.
  destruct (truncate_text generated_text) as [insights | e]; rewrite Hrun; reflexivity.
Qed.

(** A body that passes the validation and has its metrics computed is a
    dict with the seven fields, so the prompt is built. *)
Lemma first_missing_none_inv (user_data : pyval) (field : string) :
  first_missing required_fields user_data = Ok None ->
  (exists v, getitem user_data "weight" = Ok v) ->
  field ∈ required_fields -> exists v, getitem user_data field = Ok v.
Proof.
  intros Hnone [v Hv] Hin.
  destruct user_data as [ | | | | | | d]; try discriminate.
  rewrite first_missing_dict in Hnone.
  assert (Hfind : find (fun f => negb (bool_decide (is_Some (d !! f)))) required_fields
                  = None) by congruence.
  apply list_elem_of_In in Hin.
  pose proof (find_none _ _ Hfind field Hin) as Hpresent.
  apply negb_false_iff, bool_decide_eq_true in Hpresent. destruct Hpresent as [x Hx].
  exists x. cbn [getitem]. rewrite Hx. reflexivity.
Qed.

Lemma build_prompt_total (format : pyval -> string) (user_data : pyval) (bmi : float)
    (bmi_category : string) (daily_calories : Z) :
  (forall field, field ∈ required_fields -> exists v, getitem user_data field = Ok v) ->
  exists prompt, build_prompt format user_data bmi bmi_category daily_calories = Ok prompt.
Proof.
  intros Hall. unfold build_prompt.
  destruct (Hall "name" ltac:(set_solver)) as [v1 ->].
  destruct (Hall "age" ltac:(set_solver)) as [v2 ->].
  destruct (Hall "gender" ltac:(set_solver)) as [v3 ->].
  destruct (Hall "weight" ltac:(set_solver)) as [v4 ->].
  destruct (Hall "height" ltac:(set_solver)) as [v5 ->].
  destruct (Hall "smoking" ltac:(set_solver)) as [v6 ->].
  destruct (Hall "drinking" ltac:(set_solver)) as [v7 ->].
  cbn [mbind result_bind]. eexists. reflexivity.
Qed.

Lemma compute_metrics_weight {libm : Float.Libm} (user_data : pyval) (m : Z * float * string * Z) :
  compute_metrics user_data = Ok m -> exists v, getitem user_data "weight" = Ok v.
Proof.
  unfold compute_metrics.
  destruct (getitem user_data "weight") as [v | ]; [eauto | discriminate].
Qed.

(** X4. The endpoint answers 200, 400 or 500.  It answers 200 exactly when the
    body passes the validation and its metrics can be computed, whatever
    the service does; it has then posted one prompt and drawn 35 times.
    When it answers 400 or 500 it has not called the service and has drawn
    nothing. *)
Theorem generate_diet_plan_status {libm : Float.Libm} (parse_int : string -> result Z)
    (format : pyval -> string) (user_data : pyval) (w : world) :
  let answer := generate_diet_plan parse_int format user_data w in
  (status answer.1 = 200 \/ status answer.1 = 400 \/ status answer.1 = 500)
  /\ (status answer.1 = 200 <->
      first_missing required_fields user_data = Ok None
      /\ exists metrics, compute_metrics user_data = Ok metrics)
  /\ (status answer.1 = 200 ->
      cursor answer.2 = (cursor w + 35)%nat
      /\ exists prompt, posts answer.2 = posts w ++ [prompt])
  /\ (status answer.1 <> 200 -> answer.2 = w).
Proof.
  cbv zeta. unfold generate_diet_plan.
  destruct (first_missing required_fields user_data) as [[field | ] | e] eqn:Hvalid;
    cbn [fst snd status].
  - split; [auto | ]. split; [split; [discriminate | intros [[=] _]] | ].
    split; [discriminate | reflexivity].
  - destruct (compute_metrics user_data) as [[[[bmr bmi] bmi_category] daily_calories] | e]
      eqn:Hmetrics.
    + assert (Hfields : forall field, field ∈ required_fields ->
                          exists v, getitem user_data field = Ok v).
      { intros field. apply first_missing_none_inv; [exact Hvalid | ].
        exact (compute_metrics_weight _ _ Hmetrics). }
      destruct (build_prompt_total format user_data bmi bmi_category daily_calories Hfields)
        as [prompt Hprompt].
      destruct (generate_ai_diet_plan_run parse_int format user_data w _ _ _ _ _
                  Hmetrics Hprompt) as (plan & name & _ & _ & ->).
      cbn [fst snd status].
      destruct (iter_advance 35 (log_post prompt w)) as (_ & -> & _ & ->).
      split; [auto | ]. split; [split; eauto | ].
      split; [split; [reflexivity | eauto] | congruence].
    + unfold generate_ai_diet_plan. rewrite Hmetrics. cbn [lift fst snd status].
      split; [auto | ]. split; [split; [discriminate | intros [_ [m [=]]]] | ].
      split; [discriminate | reflexivity].
  - split; [auto | ]. split; [split; [discriminate | intros [[=] _]] | ].
    split; [discriminate | reflexivity].
Qed.

Lemma generate_diet_plan_status_witness :
  status (generate_diet_plan (libm := exact_libm) no_parse text_only example_profile
            (world_of S ConnectionFailed)).1 = 200.
Proof.
  assert (Hvalid : first_missing required_fields example_profile = Ok None)
    by (vm_compute; reflexivity).
  assert (Hmetrics : compute_metrics (libm := exact_libm) example_profile
                     = Ok (1696, Float.lit 229 1, "Normal Weight", 2544))
    by (vm_compute; reflexivity).
  exact (proj2 (proj1 (proj2 (generate_diet_plan_status no_parse text_only example_profile
                                (world_of S ConnectionFailed))))
               (conj Hvalid (ex_intro _ _ Hmetrics))).
Defined.

(** X5. The plan of an answer is the same whatever the service replies; the
    reply only decides whether an AI text comes with it. *)
Theorem plan_ignores_service {libm : Float.Libm} (parse_int : string -> result Z) (format : pyval -> string)
    (user_data : pyval) (w : world) (bmr : Z) (bmi : float) (bmi_category : string)
    (daily_calories : Z) :
  first_missing required_fields user_data = Ok None ->
  compute_metrics user_data = Ok (bmr, bmi, bmi_category, daily_calories) ->
  exists plan,
    fallback_plan_of parse_int user_data bmi bmi_category daily_calories
      (draws w) (cursor w) = Ok plan
    /\ forall answers, exists data,
         (generate_diet_plan parse_int format user_data (with_service w answers)).1
         = {| status := 200;
              payload := PlanBody true data "Diet plan generated successfully!" |}
         /\ structured data = plan.
Proof.
  intros Hvalid Hmetrics.
  assert (Hfields : forall field, field ∈ required_fields ->
                      exists v, getitem user_data field = Ok v).
  { intros field. apply first_missing_none_inv; [exact Hvalid | ].
    exact (compute_metrics_weight _ _ Hmetrics). }
  destruct (build_prompt_total format user_data bmi bmi_category daily_calories Hfields)
    as [prompt Hprompt].
  destruct (fallback_plan_total parse_int format _ _ _ _ _ _ (draws w) (cursor w)
              Hmetrics Hprompt) as [plan Hplan].
  exists plan. split; [exact Hplan | ]. intros answers.
  destruct (generate_ai_diet_plan_run parse_int format user_data (with_service w answers)
              _ _ _ _ _ Hmetrics Hprompt) as (plan' & name & Hplan' & _ & Hrun).
  cbn [with_service draws cursor] in Hplan'.
  assert (plan' = plan) as -> by congruence.
  unfold generate_diet_plan. rewrite Hvalid, Hrun. cbn [fst].
  eexists. split; [reflexivity | ].
  destruct (insights_of format _); reflexivity.
Qed.

Lemma plan_ignores_service_witness :
  exists plan,
    fallback_plan_of no_parse example_profile (Float.lit 229 1) "Normal Weight" 2544
      S O = Ok plan
    /\ forall answers, exists data,
         (generate_diet_plan (libm := exact_libm) no_parse text_only example_profile
            (with_service (world_of S ConnectionFailed) answers)).1
         = {| status := 200;
              payload := PlanBody true data "Diet plan generated successfully!" |}
         /\ structured data = plan.
Proof.
  assert (Hvalid : first_missing required_fields example_profile = Ok None)
    by (vm_compute; reflexivity).
  assert (Hmetrics : compute_metrics (libm := exact_libm) example_profile
                     = Ok (1696, Float.lit 229 1, "Normal Weight", 2544))
    by (vm_compute; reflexivity).
  exact (plan_ignores_service no_parse text_only example_profile
           (world_of S ConnectionFailed) _ _ _ _ Hvalid Hmetrics).
Defined.

(** ** [format_ai_response]: the AI text *)

Lemma str_len_append (a b : string) : str_len (a +:+ b) = (str_len a + str_len b)%nat.
Proof.
  induction a as [ | c a IH]; [reflexivity | ].
  simpl. destruct (is_continuation c); rewrite IH; reflexivity.
Qed.

Lemma str_len_take (n : nat) (s : string) :
  str_len (str_take n s) = Nat.min n (str_len s).
Proof.
  revert n. induction s as [ | c s IH]; intros n; simpl.
  - rewrite Nat.min_0_r. reflexivity.
  - destruct (is_continuation c) eqn:Hc; simpl; rewrite ?Hc.
    + apply IH.
    + destruct n as [ | n]; simpl; rewrite ?Hc, ?IH; reflexivity.
Qed.

Lemma str_take_all (n : nat) (s : string) : (str_len s <= n)%nat -> str_take n s = s.
Proof.
  revert n. induction s as [ | c s IH]; intros n Hn; simpl in *; [reflexivity | ].
  destruct (is_continuation c).
  - rewrite IH by exact Hn. reflexivity.
  - destruct n as [ | n]; [lia | ]. rewrite IH by lia. reflexivity.
Qed.

Lemma str_take_prefix (n : nat) (s : string) : String.prefix (str_take n s) s = true.
Proof.
  revert n. induction s as [ | c s IH]; intros n; simpl; [reflexivity | ].
  destruct (is_continuation c).
  - simpl. destruct (ascii_dec c c); [apply IH | congruence].
  - destruct n as [ | n]; [reflexivity | ].
    simpl. destruct (ascii_dec c c); [apply IH | congruence].
Qed.

(** Characters that follow the first [n] do not count. *)
Lemma str_take_append (s t : string) (c : ascii) :
  is_continuation c = false -> str_take (str_len s) (s +:+ String c t) = s.
Proof.
  intros Hc. induction s as [ | a s IH]; simpl.
  - rewrite Hc. reflexivity.
  - destruct (is_continuation a); simpl; rewrite IH; reflexivity.
Qed.

Lemma str_len_ascii (s : string) :
  (forall c, In c (list_ascii_of_string s) -> (nat_of_ascii c < 128)%nat) ->
  str_len s = String.length s.
Proof.
  induction s as [ | c s IH]; intros Hs; simpl; [reflexivity | ].
  rewrite IH by (intros a Ha; apply Hs; right; exact Ha).
  assert (Hc : (nat_of_ascii c < 128)%nat) by (apply Hs; left; reflexivity).
  destruct c as [b0 b1 b2 b3 b4 b5 b6 [ | ]]; [ | reflexivity].
  exfalso. revert Hc. destruct b0, b1, b2, b3, b4, b5, b6; vm_compute; lia.
Qed.

Lemma cut_spec (t : string) :
  (str_len (cut_text t) <= 503)%nat
  /\ str_take 500 (cut_text t) = str_take 500 t
  /\ String.prefix (str_take 500 t) t = true
  /\ ((str_len t <= 500)%nat -> cut_text t = t)
  /\ ((500 < str_len t)%nat ->
      str_len (cut_text t) = 503%nat /\ cut_text t = str_take 500 t +:+ "...").
Proof.
  unfold cut_text. destruct (Nat.ltb_spec 500 (str_len t)) as [Hlong | Hshort].
  - assert (Hlen : str_len (str_take 500 t +:+ "...") = 503%nat).
    { rewrite str_len_append, str_len_take. cbn [str_len is_continuation andb negb]. lia. }
    assert (H500 : str_len (str_take 500 t) = 500%nat) by (rewrite str_len_take; lia).
    split; [lia | ].
    split.
    { rewrite <- H500 at 1. apply str_take_append. reflexivity. }
    split; [apply str_take_prefix | ].
    split; [lia | ]. intros _. split; [exact Hlen | reflexivity].
  - split; [lia | ]. split; [reflexivity | ]. split; [apply str_take_prefix | ].
    split; [reflexivity | lia].
Qed.

(** X7. [format_ai_response], given the name and the fallback plan: a string
    is kept when it has at most 500 characters and is cut to its first 500
    followed by an ellipsis otherwise, so the AI text never exceeds 503
    characters; a list or dict of at most 500 entries is passed on as it
    is; a longer one, and a value with no length, raise before anything is
    drawn. *)
Theorem format_ai_response_text (parse_int : string -> result Z) (user_data : pyval)
    (ai_text : pyval) (bmr : Z) (bmi : float) (bmi_category : string)
    (daily_calories : Z) (w : world) (name : pyval) (plan : meal_plan) :
  getitem user_data "name" = Ok name ->
  fallback_plan_of parse_int user_data bmi bmi_category daily_calories
    (draws w) (cursor w) = Ok plan ->
  let run := format_ai_response parse_int user_data ai_text bmr bmi bmi_category
               daily_calories w in
  let answer insights :=
    (Ok (AIPlan name bmi bmi_category daily_calories insights plan),
     Nat.iter 35 advance w) in
  match ai_text with
  | PStr t =>
      run = answer (PStr (cut_text t))
      /\ (str_len (cut_text t) <= 503)%nat
      /\ str_take 500 (cut_text t) = str_take 500 t
      /\ String.prefix (str_take 500 t) t = true
      /\ ((str_len t <= 500)%nat -> cut_text t = t)
      /\ ((500 < str_len t)%nat -> cut_text t = str_take 500 t +:+ "...")
  | PList l =>
      if (500 <? length l)%nat then run = (Raise TypeError, w) else run = answer ai_text
  | PDict d =>
      if (500 <? size d)%nat then exists e, run = (Raise e, w) else run = answer ai_text
  | _ => run = (Raise TypeError, w)
  end.
Proof.
  intros Hname Hplan. cbv zeta.
  pose proof (generate_fallback_plan_run parse_int user_data bmr bmi bmi_category
                daily_calories w) as Hrun.
  rewrite Hplan in Hrun.
  unfold format_ai_response, mbind, M_bind, lift. rewrite Hname.
  destruct ai_text as [ | b | z | x | t | l | d]; try reflexivity.
  - destruct (cut_spec t) as (Hlen & Hsame & Hprefix & Hshort & Hlong).
    split; [ | split; [exact Hlen | split; [exact Hsame | split; [exact Hprefix | ]]]].
    + unfold truncate_text, cut_text. cbn [py_len mbind result_bind].
      destruct (500 <? str_len t)%nat; rewrite Hrun; reflexivity.
    + split; [exact Hshort | ]. intros H. apply Hlong, H.
  - unfold truncate_text. cbn [py_len mbind result_bind].
    destruct (500 <? length l)%nat; [reflexivity | rewrite Hrun; reflexivity].
  - unfold truncate_text. cbn [py_len mbind result_bind].
    destruct (500 <? size d)%nat; [eexists; reflexivity | rewrite Hrun; reflexivity].
Qed.

Lemma format_ai_response_text_witness :
  exists plan,
    format_ai_response no_parse example_profile (PStr accented_text) 1696 (Float.lit 229 1)
      "Normal Weight" 2544 (world_of S ConnectionFailed)
    = (Ok (AIPlan (PStr "Ann") (Float.lit 229 1) "Normal Weight" 2544 (PStr accented_text)
             plan),
       Nat.iter 35 advance (world_of S ConnectionFailed))
    /\ str_len accented_text = 300%nat /\ String.length accented_text = 600%nat.
Proof.
  assert (Hmetrics : compute_metrics (libm := exact_libm) example_profile
                     = Ok (1696, Float.lit 229 1, "Normal Weight", 2544))
    by (vm_compute; reflexivity).
  assert (Hprompt : exists prompt,
             build_prompt text_only example_profile (Float.lit 229 1) "Normal Weight" 2544
             = Ok prompt)
    by (eexists; vm_compute; reflexivity).
  destruct Hprompt as [prompt Hprompt].
  destruct (fallback_plan_total no_parse text_only _ _ _ _ _ _
              (draws (world_of S ConnectionFailed)) (cursor (world_of S ConnectionFailed))
              Hmetrics Hprompt) as [plan Hplan].
  pose proof (proj1 (format_ai_response_text no_parse example_profile (PStr accented_text)
                       1696 (Float.lit 229 1) "Normal Weight" 2544
                       (world_of S ConnectionFailed) (PStr "Ann") plan eq_refl Hplan))
    as Hrun.
  assert (Hcut : cut_text accented_text = accented_text) by (vm_compute; reflexivity).
  rewrite Hcut in Hrun.
  exists plan. split; [exact Hrun | split; vm_compute; reflexivity].
Defined.

(** ** [generate_ai_diet_plan]: an answer with a generated text *)

(** X6. When the service answers 200 with a JSON list whose first element is a
    dict, the plan carries the value under [generated_text] (the empty
    string when there is none), cut to length if it is a string, together
    with the name, the metrics and the fallback plan on the draws that
    follow the post. *)
Theorem generated_text_attached {libm : Float.Libm} (parse_int : string -> result Z)
    (format : pyval -> string) (user_data : pyval) (w : world) (bmr : Z) (bmi : float)
    (bmi_category : string) (daily_calories : Z) (prompt : string)
    (first : gmap string pyval) (others : list pyval) (t : string) :
  compute_metrics user_data = Ok (bmr, bmi, bmi_category, daily_calories) ->
  build_prompt format user_data bmi bmi_category daily_calories = Ok prompt ->
  service w prompt = Responded 200 (Some (PList (PDict first :: others))) ->
  default (PStr "") (first !! "generated_text") = PStr t ->
  exists plan name,
    fallback_plan_of parse_int user_data bmi bmi_category daily_calories
      (draws w) (cursor w) = Ok plan
    /\ getitem user_data "name" = Ok name
    /\ generate_ai_diet_plan parse_int format user_data w
       = (Ok (AIPlan name bmi bmi_category daily_calories (PStr (cut_text t)) plan),
          Nat.iter 35 advance (log_post prompt w))
    /\ (str_len (cut_text t) <= 503)%nat
    /\ str_take 500 (cut_text t) = str_take 500 t.
Proof.
  intros Hmetrics Hprompt Hanswer Htext.
  destruct (generate_ai_diet_plan_run parse_int format user_data w _ _ _ _ _
              Hmetrics Hprompt) as (plan & name & Hplan & Hname & Hrun).
  exists plan, name. split; [exact Hplan | ]. split; [exact Hname | ].
  destruct (cut_spec t) as (Hlen & Hsame & _).
  split; [ | split; [exact Hlen | exact Hsame]].
  rewrite Hrun, Hanswer. unfold insights_of.
  cbn [Z.eqb Pos.eqb is_loading negb andb extract_text mbind result_bind].
  rewrite Htext. unfold truncate_text, cut_text. cbn [py_len mbind result_bind].
  destruct (500 <? str_len t)%nat; reflexivity.
Qed.

Lemma generated_text_attached_witness :
  exists plan w',
    generate_ai_diet_plan (libm := exact_libm) no_parse text_only example_profile
      (world_of S (Responded 200
         (Some (PList [PDict {[ "generated_text" := PStr "Eat well." ]}]))))
    = (Ok (AIPlan (PStr "Ann") (Float.lit 229 1) "Normal Weight" 2544 (PStr "Eat well.")
             plan), w').
Proof.
  assert (Hmetrics : compute_metrics (libm := exact_libm) example_profile
                     = Ok (1696, Float.lit 229 1, "Normal Weight", 2544))
    by (vm_compute; reflexivity).
  assert (Hprompt : exists prompt,
             build_prompt text_only example_profile (Float.lit 229 1) "Normal Weight" 2544
             = Ok prompt)
    by (eexists; vm_compute; reflexivity).
  destruct Hprompt as [prompt Hprompt].
  assert (Htext : default (PStr "")
                    (({[ "generated_text" := PStr "Eat well." ]} : gmap string pyval)
                       !! "generated_text") = PStr "Eat well.")
    by (vm_compute; reflexivity).
  destruct (generated_text_attached no_parse text_only example_profile
              (world_of S (Responded 200
                 (Some (PList [PDict {[ "generated_text" := PStr "Eat well." ]}]))))
              _ _ _ _ prompt {[ "generated_text" := PStr "Eat well." ]} [] "Eat well."
              Hmetrics Hprompt eq_refl Htext)
    as (plan & name & _ & Hname & Hrun & _).
  assert (name = PStr "Ann") as -> by (vm_compute in Hname; congruence).
  exists plan. eexists. exact Hrun.
Defined.

(** ** Bodies that are not objects, and fields nobody asked for *)

(** X8. A body that is not a JSON object is never answered 200, and nothing is
    posted or drawn for it.  For [null], a boolean or a number the
    validation itself raises: 500.  An array or a string is tested for
    membership, so it gets 400 for the first required name it does not
    contain, and 500 when it contains all seven: it passes the validation
    and cannot be indexed by a name. *)
Theorem non_object_body {libm : Float.Libm} (parse_int : string -> result Z) (format : pyval -> string)
    (user_data : pyval) (w : world) :
  match user_data with
  | PDict _ => True
  | PNone | PBool _ | PInt _ | PFloat _ =>
      generate_diet_plan parse_int format user_data w = (internal_error, w)
  | PList _ | PStr _ =>
      exists missing,
        first_missing required_fields user_data = Ok missing
        /\ generate_diet_plan parse_int format user_data w
           = (match missing with
              | Some field =>
                  {| status := 400;
                     payload := ErrorBody ("Missing required field: " +:+ field) false |}
              | None => internal_error
              end, w)
  end.
Proof.
  destruct user_data as [ | b | z | x | t | l | d]; try reflexivity; try exact I.
  - assert (Hvalid : exists missing, first_missing required_fields (PStr t) = Ok missing).
    { unfold required_fields. cbn [first_missing py_in mbind result_bind].
      repeat (destruct (is_substring _ t); [ | eauto]). eauto. }
    destruct Hvalid as [missing Hvalid]. exists missing. split; [exact Hvalid | ].
    unfold generate_diet_plan. rewrite Hvalid. destruct missing; reflexivity.
  - assert (Hvalid : exists missing, first_missing required_fields (PList l) = Ok missing).
    { unfold required_fields. cbn [first_missing py_in mbind result_bind].
      repeat (destruct (existsb _ l); [ | eauto]). eauto. }
    destruct Hvalid as [missing Hvalid]. exists missing. split; [exact Hvalid | ].
    unfold generate_diet_plan. rewrite Hvalid. destruct missing; reflexivity.
Qed.


(** X9. The endpoint reads the seven required fields and no other: a field
    under any other name changes neither the answer nor what is posted and
    drawn. *)
Theorem other_fields_ignored {libm : Float.Libm} (parse_int : string -> result Z) (format : pyval -> string)
    (d : gmap string pyval) (key : string) (value : pyval) (w : world) :
  key ∉ required_fields ->
  generate_diet_plan parse_int format (PDict (<[key := value]> d)) w
  = generate_diet_plan parse_int format (PDict d) w.
Proof.
  intros Hkey.
  assert (Hframe : forall field, field ∈ required_fields ->
                     <[key := value]> d !! field = d !! field).
  { intros field Hin. apply lookup_insert_ne. intros ->. exact (Hkey Hin). }
  assert (Hall : Forall (fun field => <[key := value]> d !! field = d !! field)
                        required_fields)
    by (apply Forall_forall; exact Hframe).
  unfold required_fields in Hall.
  repeat (apply Forall_cons in Hall; destruct Hall as [? Hall]).
  unfold generate_diet_plan, generate_ai_diet_plan, compute_metrics, build_prompt,
    format_ai_response, generate_fallback_plan, get_lifestyle_recommendations,
    required_fields.
  cbn [first_missing py_in getitem].
  repeat match goal with E : <[key := value]> d !! _ = _ |- _ => rewrite E; clear E end.
  reflexivity.
Qed.

Lemma other_fields_ignored_witness :
  generate_diet_plan (libm := exact_libm) no_parse text_only
    (PDict (<["goal" := PStr "bulk"]>
              (list_to_map
                 [ ("name", PStr "Ann"); ("age", PInt 30); ("height", PInt 175);
                   ("weight", PInt 70); ("gender", PStr "male");
                   ("smoking", PStr "yes"); ("drinking", PStr "no") ])))
    (world_of S ConnectionFailed)
  = generate_diet_plan (libm := exact_libm) no_parse text_only example_profile (world_of S ConnectionFailed).
Proof.
  apply (other_fields_ignored no_parse text_only _ "goal" (PStr "bulk")).
  unfold required_fields. intros H.
  repeat (apply elem_of_cons in H; destruct H as [H | H]; [discriminate H | ]).
  apply elem_of_nil in H. exact H.
Defined.

(** ** The calories of the days *)

(** [nearest_even] is monotone in the fraction it rounds. *)
Lemma nearest_even_mono (p q p' q' : Z) :
  0 < q -> 0 < q' -> p * q' <= p' * q ->
  Float.nearest_even p q <= Float.nearest_even p' q'.
Proof.
  intros Hq Hq' Hle.
  pose proof (nearest_even_bound p q Hq) as Hb.
  pose proof (nearest_even_bound p' q' Hq') as Hb'.
  destruct (Z.le_gt_cases (Float.nearest_even p q) (Float.nearest_even p' q'))
    as [Hdone | Hgt]; [exact Hdone | exfalso].
  set (n := Float.nearest_even p q) in *. set (n' := Float.nearest_even p' q') in *.
  assert (HA : 2 * n * q <= 2 * p + q) by lia.
  assert (HB : 2 * p' <= 2 * n' * q' + q') by lia.
  assert (HA' : (2 * n * q) * q' <= (2 * p + q) * q')
    by (apply Z.mul_le_mono_nonneg_r; lia).
  assert (HB' : (2 * p') * q <= (2 * n' * q' + q') * q)
    by (apply Z.mul_le_mono_nonneg_r; lia).
  assert (HX : 0 < q * q') by (apply Z.mul_pos_pos; assumption).
  assert (Hstep : (n - n' - 1) * (q * q') <= 0) by lia.
  assert (Hn : n = n' + 1).
  { assert (n - n' - 1 <= 0); [ | lia].
    apply (Z.mul_le_mono_pos_r _ _ (q * q') HX). lia. }
  assert (HA2 : (2 * n * q) * q' = (2 * p + q) * q') by (subst n; lia).
  assert (HB2 : (2 * p') * q = (2 * n' * q' + q') * q) by (subst n; lia).
  apply Z.mul_cancel_r in HA2; [ | lia]. apply Z.mul_cancel_r in HB2; [ | lia].
  pose proof (nearest_even_tie p q (n - 1) Hq ltac:(lia)) as Ht.
  pose proof (nearest_even_tie p' q' n' Hq' ltac:(lia)) as Ht'.
  fold n in Ht. fold n' in Ht'.
  replace (n - 1) with n' in Ht by lia.
  destruct (Z.even n'); lia.
Qed.

(** X14. A larger calorie target gives no slot fewer calories, and for a target
    that is not negative no slot is negative, a snack gets no more than
    breakfast and dinner, and these no more than lunch (targets below
    [2^48] in absolute value). *)
Theorem slot_calories_monotone (daily_calories daily_calories' : Z)
    (user_data user_data' : pyval) (w w' : world) :
  Z.abs daily_calories < 2 ^ 48 -> Z.abs daily_calories' < 2 ^ 48 ->
  daily_calories <= daily_calories' ->
  exists c25 c10 c30 c25' c10' c30' meals meals',
    generate_daily_meals daily_calories user_data w = (Ok meals, Nat.iter 5 advance w)
    /\ generate_daily_meals daily_calories' user_data' w' = (Ok meals', Nat.iter 5 advance w')
    /\ calories <$> meals
       = list_to_map [ ("breakfast", c25); ("morning_snack", c10); ("lunch", c30);
                       ("afternoon_snack", c10); ("dinner", c25) ]
    /\ calories <$> meals'
       = list_to_map [ ("breakfast", c25'); ("morning_snack", c10'); ("lunch", c30');
                       ("afternoon_snack", c10'); ("dinner", c25') ]
    /\ c25 <= c25' /\ c10 <= c10' /\ c30 <= c30'
    /\ (0 <= daily_calories -> 0 <= c10 /\ c10 <= c25 /\ c25 <= c30).
Proof.
  intros Hdc Hdc' Hle.
  destruct (generate_daily_meals_exact daily_calories user_data w Hdc)
    as (b & s1 & l & s2 & d & _ & _ & _ & _ & _ & Hrun).
  destruct (generate_daily_meals_exact daily_calories' user_data' w' Hdc')
    as (b' & s1' & l' & s2' & d' & _ & _ & _ & _ & _ & Hrun').
  do 8 eexists. split; [exact Hrun | ]. split; [exact Hrun' | ].
  split; [apply day_of_calories | ]. split; [apply day_of_calories | ].
  split; [apply nearest_even_mono; lia | ].
  split; [apply nearest_even_mono; lia | ].
  split; [apply nearest_even_mono; lia | ].
  intros Hpos.
  split; [apply nearest_even_nonneg; lia | ].
  split; apply nearest_even_mono; lia.
Qed.

Lemma slot_calories_monotone_witness :
  exists c25 c10 c30 c25' c10' c30' meals meals',
    generate_daily_meals 2000 PNone (world_of S ConnectionFailed)
    = (Ok meals, Nat.iter 5 advance (world_of S ConnectionFailed))
    /\ generate_daily_meals 2544 PNone (world_of S ConnectionFailed)
       = (Ok meals', Nat.iter 5 advance (world_of S ConnectionFailed))
    /\ calories <$> meals
       = list_to_map [ ("breakfast", c25); ("morning_snack", c10); ("lunch", c30);
                       ("afternoon_snack", c10); ("dinner", c25) ]
    /\ calories <$> meals'
       = list_to_map [ ("breakfast", c25'); ("morning_snack", c10'); ("lunch", c30');
                       ("afternoon_snack", c10'); ("dinner", c25') ]
    /\ c25 <= c25' /\ c10 <= c10' /\ c30 <= c30'
    /\ (0 <= 2000 -> 0 <= c10 /\ c10 <= c25 /\ c25 <= c30).
Proof.
  apply (slot_calories_monotone 2000 2544 PNone PNone); [reflexivity | reflexivity | lia].
Defined.

(** ** [generate_fallback_plan]: when it returns, and what *)

Lemma fallback_plan_of_shares (parse_int : string -> result Z) (user_data : pyval)
    (bmi : float) (bmi_category : string) (daily_calories : Z)
    (f : nat -> nat) (i : nat) (plan : meal_plan) :
  fallback_plan_of parse_int user_data bmi bmi_category daily_calories f i = Ok plan ->
  exists c25 c10 c30,
    rounded_share daily_calories (Float.lit 25 2) = Ok c25
    /\ rounded_share daily_calories (Float.lit 10 2) = Ok c10
    /\ rounded_share daily_calories (Float.lit 30 2) = Ok c30
    /\ weekly_plan plan = week_at days c25 c10 c30 f i ∅.
Proof.
  unfold fallback_plan_of.
  destruct (macro_grams daily_calories) as [[[pg cg] fg] | e];
    cbn [mbind result_bind]; [ | discriminate].
  destruct (getitem user_data "name"); cbn [mbind result_bind]; [ | discriminate].
  destruct (getitem user_data "age"); cbn [mbind result_bind]; [ | discriminate].
  destruct (getitem user_data "gender"); cbn [mbind result_bind]; [ | discriminate].
  destruct (getitem user_data "weight"); cbn [mbind result_bind]; [ | discriminate].
  destruct (getitem user_data "height"); cbn [mbind result_bind]; [ | discriminate].
  destruct (get_lifestyle_recommendations parse_int user_data);
    cbn [mbind result_bind]; [ | discriminate].
  destruct (rounded_share daily_calories (Float.lit 25 2)) as [c25 | ];
    cbn [mbind result_bind]; [ | discriminate].
  destruct (rounded_share daily_calories (Float.lit 10 2)) as [c10 | ];
    cbn [mbind result_bind]; [ | discriminate].
  destruct (rounded_share daily_calories (Float.lit 30 2)) as [c30 | ];
    cbn [mbind result_bind]; [ | discriminate].
  intros [= <-]. exists c25, c10, c30. auto.
Qed.

(** X13. The seven days of a plan carry the same calories: the rounded 25, 10,
    30, 10 and 25 per cent shares of the target, so breakfast and dinner
    are equal and so are the two snacks; only the meals differ from day to
    day. *)
Theorem week_calories_uniform (parse_int : string -> result Z) (user_data : pyval)
    (bmr : Z) (bmi : float) (bmi_category : string) (daily_calories : Z) (w w' : world)
    (plan : meal_plan) :
  generate_fallback_plan parse_int user_data bmr bmi bmi_category daily_calories w
  = (Ok plan, w') ->
  exists c25 c10 c30,
    rounded_share daily_calories (Float.lit 25 2) = Ok c25
    /\ rounded_share daily_calories (Float.lit 10 2) = Ok c10
    /\ rounded_share daily_calories (Float.lit 30 2) = Ok c30
    /\ forall day, day ∈ days ->
         exists meals,
           weekly_plan plan !! day = Some meals
           /\ calories <$> meals
              = list_to_map [ ("breakfast", c25); ("morning_snack", c10); ("lunch", c30);
                              ("afternoon_snack", c10); ("dinner", c25) ].
Proof.
  intros Hrun.
  pose proof (generate_fallback_plan_run parse_int user_data bmr bmi bmi_category
                daily_calories w) as Hfact.
  destruct (fallback_plan_of parse_int user_data bmi bmi_category daily_calories
              (draws w) (cursor w)) as [plan' | e] eqn:Hplan.
  - rewrite Hrun in Hfact. injection Hfact as -> ->.
    destruct (fallback_plan_of_shares _ _ _ _ _ _ _ _ Hplan)
      as (c25 & c10 & c30 & H25 & H10 & H30 & Hweek).
    exists c25, c10, c30. split; [exact H25 | ]. split; [exact H10 | ].
    split; [exact H30 | ].
    intros day Hday. apply list_elem_of_lookup in Hday. destruct Hday as [k Hk].
    rewrite Hweek, (week_at_days _ _ _ _ _ _ _ Hk). eexists. split; [reflexivity | ].
    unfold day_at. apply day_of_calories.
  - destruct Hfact as [e' He']. rewrite Hrun in He'. discriminate.
Qed.

Lemma example_fallback_run :
  exists plan,
    generate_fallback_plan no_parse example_profile 1696 (Float.lit 229 1) "Normal Weight"
      2544 (world_of S ConnectionFailed)
    = (Ok plan, Nat.iter 35 advance (world_of S ConnectionFailed)).
Proof.
  assert (Hmetrics : compute_metrics (libm := exact_libm) example_profile
                     = Ok (1696, Float.lit 229 1, "Normal Weight", 2544))
    by (vm_compute; reflexivity).
  assert (Hprompt : exists prompt,
             build_prompt text_only example_profile (Float.lit 229 1) "Normal Weight" 2544
             = Ok prompt)
    by (eexists; vm_compute; reflexivity).
  destruct Hprompt as [prompt Hprompt].
  destruct (fallback_plan_total no_parse text_only _ _ _ _ _ _
              (draws (world_of S ConnectionFailed)) (cursor (world_of S ConnectionFailed))
              Hmetrics Hprompt) as [plan Hplan].
  pose proof (generate_fallback_plan_run no_parse example_profile 1696 (Float.lit 229 1)
                "Normal Weight" 2544 (world_of S ConnectionFailed)) as Hrun.
  rewrite Hplan in Hrun. exists plan. exact Hrun.
Defined.

Lemma week_calories_uniform_witness :
  exists plan c25 c10 c30,
    generate_fallback_plan no_parse example_profile 1696 (Float.lit 229 1) "Normal Weight"
      2544 (world_of S ConnectionFailed)
    = (Ok plan, Nat.iter 35 advance (world_of S ConnectionFailed))
    /\ rounded_share 2544 (Float.lit 25 2) = Ok c25
    /\ rounded_share 2544 (Float.lit 10 2) = Ok c10
    /\ rounded_share 2544 (Float.lit 30 2) = Ok c30.
Proof.
  destruct example_fallback_run as [plan Hrun].
  destruct (week_calories_uniform _ _ _ _ _ _ _ _ _ Hrun)
    as (c25 & c10 & c30 & H25 & H10 & H30 & _).
  exists plan, c25, c10, c30. auto.
Defined.

(** X11. [generate_fallback_plan] returns as soon as the profile has its seven
    fields, [int] accepts the age and the calorie target is within the
    doubles.  The plan echoes name, age, gender, weight and height as they
    came, with the BMI, category and target it was given, the macros in
    grams followed by "g", the lifestyle recommendations and the seven
    tips; it takes 35 draws. *)
Theorem generate_fallback_plan_returns (parse_int : string -> result Z)
    (user_data : pyval) (bmr : Z) (bmi : float) (bmi_category : string)
    (daily_calories : Z) (w : world)
    (name age gender weight height smoking drinking : pyval) (years : Z) :
  getitem user_data "name" = Ok name -> getitem user_data "age" = Ok age ->
  getitem user_data "gender" = Ok gender -> getitem user_data "weight" = Ok weight ->
  getitem user_data "height" = Ok height -> getitem user_data "smoking" = Ok smoking ->
  getitem user_data "drinking" = Ok drinking ->
  py_int parse_int age = Ok years ->
  Z.abs daily_calories <= max_double ->
  exists plan protein_grams carb_grams fat_grams,
    generate_fallback_plan parse_int user_data bmr bmi bmi_category daily_calories w
    = (Ok plan, Nat.iter 35 advance w)
    /\ macro_grams daily_calories = Ok (protein_grams, carb_grams, fat_grams)
    /\ plan_user_info plan
       = {| ui_name := name; ui_age := age; ui_gender := gender; ui_weight := weight;
            ui_height := height; ui_bmi := bmi; ui_bmi_category := bmi_category;
            ui_daily_calories := daily_calories;
            ui_macros := {| protein := pretty protein_grams +:+ "g";
                            carbs := pretty carb_grams +:+ "g";
                            fats := pretty fat_grams +:+ "g" |} |}
    /\ recommendations plan
       = smoking_entries smoking ++ drinking_entries drinking ++ age_entries years
    /\ general_tips plan = tips /\ length tips = 7%nat.
Proof.
  intros H1 H2 H3 H4 H5 H6 H7 Hyears Hrange.
  destruct (macro_grams_total _ Hrange) as [[[pg cg] fg] Hgrams].
  pose proof (get_lifestyle_recommendations_eq parse_int _ _ _ _ _ H6 H7 H2 Hyears)
    as Hrecs.
  destruct literal_values as (E25 & E10 & E30 & _ & _).
  destruct (rounded_share_total daily_calories 4503599627370496 (-54) Hrange
              ltac:(cbn; lia) ltac:(lia)) as [c25 H25].
  destruct (rounded_share_total daily_calories 7205759403792794 (-56) Hrange
              ltac:(cbn; lia) ltac:(lia)) as [c10 H10].
  destruct (rounded_share_total daily_calories 5404319552844595 (-54) Hrange
              ltac:(cbn; lia) ltac:(lia)) as [c30 H30].
  rewrite <- E25 in H25. rewrite <- E10 in H10. rewrite <- E30 in H30.
  pose proof (generate_fallback_plan_run parse_int user_data bmr bmi bmi_category
                daily_calories w) as Hrun.
  unfold fallback_plan_of in Hrun.
  rewrite Hgrams, H1, H2, H3, H4, H5, Hrecs, H25, H10, H30 in Hrun.
  cbn [mbind result_bind] in Hrun.
  eexists. exists pg, cg, fg. split; [exact Hrun | ].
  split; [exact Hgrams | ]. split; [reflexivity | ]. split; [reflexivity | ].
  split; reflexivity.
Qed.

Lemma generate_fallback_plan_returns_witness :
  exists plan,
    generate_fallback_plan no_parse example_profile 1696 (Float.lit 229 1) "Normal Weight"
      2544 (world_of S ConnectionFailed)
    = (Ok plan, Nat.iter 35 advance (world_of S ConnectionFailed))
    /\ recommendations plan = [smoking_warning; smoking_advice].
Proof.
  assert (Hrange : Z.abs 2544 <= max_double).
  { pose proof max_double_pos as H. change (2 ^ 53 - 1) with 9007199254740991 in H.
    simpl. lia. }
  destruct (generate_fallback_plan_returns no_parse example_profile 1696
              (Float.lit 229 1) "Normal Weight" 2544 (world_of S ConnectionFailed)
              (PStr "Ann") (PInt 30) (PStr "male") (PInt 70) (PInt 175)
              (PStr "yes") (PStr "no") 30
              eq_refl eq_refl eq_refl eq_refl eq_refl eq_refl eq_refl eq_refl Hrange)
    as (plan & pg & cg & fg & Hrun & _ & _ & Hrecs & _).
  exists plan. split; [exact Hrun | exact Hrecs].
Defined.

(** X12. Whenever [generate_fallback_plan] raises, it does so before the first
    draw: a failed plan leaves the random source as it was. *)
Theorem fallback_failure_draws_nothing (parse_int : string -> result Z)
    (user_data : pyval) (bmr : Z) (bmi : float) (bmi_category : string)
    (daily_calories : Z) (w w' : world) (e : exn) :
  generate_fallback_plan parse_int user_data bmr bmi bmi_category daily_calories w
  = (Raise e, w') -> w' = w.
Proof.
  intros Hraise.
  pose proof (generate_fallback_plan_run parse_int user_data bmr bmi bmi_category
                daily_calories w) as Hrun.
  destruct (fallback_plan_of _ _ _ _ _ _ _) as [plan | e0].
  - rewrite Hraise in Hrun. discriminate.
  - destruct Hrun as [e1 He1]. rewrite Hraise in He1. congruence.
Qed.

Lemma fallback_failure_draws_nothing_witness :
  generate_fallback_plan no_parse PNone 1696 (Float.lit 229 1) "Normal Weight" 2544
    (world_of S ConnectionFailed) = (Raise TypeError, world_of S ConnectionFailed)
  /\ world_of S ConnectionFailed = world_of S ConnectionFailed.
Proof.
  assert (Hraise : generate_fallback_plan no_parse PNone 1696 (Float.lit 229 1)
                     "Normal Weight" 2544 (world_of S ConnectionFailed)
                   = (Raise TypeError, world_of S ConnectionFailed))
    by (vm_compute; reflexivity).
  split; [exact Hraise | ].
  exact (fallback_failure_draws_nothing _ _ _ _ _ _ _ _ _ Hraise).
Defined.

(** ** [calculate_bmr]: what it accepts *)

Lemma add_finite_inv (x y : float) :
  is_finite (Float.add x y) = true -> is_finite x = true /\ is_finite y = true.
Proof.
  destruct x as [[] | [] | | sx mx ex], y as [[] | [] | | sy my ey];
    cbn; intros H; try discriminate H; auto.
Qed.

Lemma sub_finite_inv (x y : float) :
  is_finite (Float.sub x y) = true -> is_finite x = true /\ is_finite y = true.
Proof.
  destruct x as [[] | [] | | sx mx ex], y as [[] | [] | | sy my ey];
    cbn; intros H; try discriminate H; auto.
Qed.

Lemma mul_finite_inv (s : bool) (m : positive) (e : Z) (y : float) :
  is_finite (Float.mul (S754_finite s m e) y) = true -> is_finite y = true.
Proof.
  destruct y as [[] | [] | | sy my ey]; cbn; intros H; try discriminate H; auto.
Qed.

Lemma round_finite (x : float) (n : Z) : Float.round x = Ok n -> is_finite x = true.
Proof. destruct x; cbn; intros H; try discriminate H; reflexivity. Qed.

Lemma float_mul_finite (s : bool) (m : positive) (e : Z) (v : pyval) (x : float) :
  float_mul (S754_finite s m e) v = Ok x -> is_finite x = true -> finite_number v = true.
Proof.
  unfold float_mul, finite_number.
  destruct (to_double v) as [y | ]; cbn [mbind result_bind]; [ | discriminate].
  intros [= <-]. apply mul_finite_inv.
Qed.

(** The Harris-Benedict sum with any finite coefficients returns for
    finite numbers only. *)
Lemma bmr_terms_finite (c0 c1 c2 c3 : float) (weight height age : pyval) (bmr : Z) :
  (exists s m e, c1 = S754_finite s m e) ->
  (exists s m e, c2 = S754_finite s m e) ->
  (exists s m e, c3 = S754_finite s m e) ->
  (x ← (w ← float_mul c1 weight;
        h ← float_mul c2 height;
        a ← float_mul c3 age;
        Ok (Float.sub (Float.add (Float.add c0 w) h) a));
   Float.round x) = Ok bmr ->
  finite_number weight = true /\ finite_number height = true /\ finite_number age = true.
Proof.
  intros (s1 & m1 & e1 & ->) (s2 & m2 & e2 & ->) (s3 & m3 & e3 & ->) H.
  destruct (float_mul _ weight) as [w | ] eqn:Hw; cbn [mbind result_bind] in H;
    [ | discriminate].
  destruct (float_mul _ height) as [h | ] eqn:Hh; cbn [mbind result_bind] in H;
    [ | discriminate].
  destruct (float_mul _ age) as [a | ] eqn:Ha; cbn [mbind result_bind] in H;
    [ | discriminate].
  apply round_finite, sub_finite_inv in H. destruct H as [H Hfa].
  apply add_finite_inv in H. destruct H as [H Hfh].
  apply add_finite_inv in H. destruct H as [_ Hfw].
  split; [exact (float_mul_finite _ _ _ _ _ Hw Hfw) | ].
  split; [exact (float_mul_finite _ _ _ _ _ Hh Hfh) | ].
  exact (float_mul_finite _ _ _ _ _ Ha Hfa).
Qed.

Lemma calculate_bmr_numbers (weight height age gender : pyval) (bmr : Z) :
  calculate_bmr weight height age gender = Ok bmr ->
  finite_number weight = true /\ finite_number height = true
  /\ finite_number age = true.
Proof.
  unfold calculate_bmr.
  destruct (str_lower gender) as [g | ]; cbn [mbind result_bind]; [ | discriminate].
  intros H. destruct (String.eqb g "male").
  - apply (bmr_terms_finite _ _ _ _ _ _ _ _ ltac:(vm_compute; eauto)
             ltac:(vm_compute; eauto) ltac:(vm_compute; eauto) H).
  - apply (bmr_terms_finite _ _ _ _ _ _ _ _ ltac:(vm_compute; eauto)
             ltac:(vm_compute; eauto) ltac:(vm_compute; eauto) H).
Qed.

(** X1. [calculate_bmr] returns only for a gender that is a string and for a
    weight, a height and an age that are numbers (ints within the doubles,
    floats or bools), none of them infinite or NaN; a numeric string, a
    null or a list in their place raises. *)
Theorem calculate_bmr_accepts (weight height age gender : pyval) (bmr : Z) :
  calculate_bmr weight height age gender = Ok bmr ->
  (exists g, gender = PStr g)
  /\ finite_number weight = true /\ finite_number height = true
  /\ finite_number age = true.
Proof.
  intros H. split; [ | exact (calculate_bmr_numbers _ _ _ _ _ H)].
  unfold calculate_bmr in H.
  destruct gender as [ | | | | g | | ]; cbn [str_lower mbind result_bind] in H;
    try discriminate H.
  eauto.
Qed.

Lemma calculate_bmr_accepts_witness :
  (exists g, PStr "male" = PStr g)
  /\ finite_number (PInt 70) = true /\ finite_number (PInt 175) = true
  /\ finite_number (PInt 30) = true.
Proof.
  assert (H : calculate_bmr (PInt 70) (PInt 175) (PInt 30) (PStr "male") = Ok 1696)
    by (vm_compute; reflexivity).
  exact (calculate_bmr_accepts _ _ _ _ _ H).
Defined.

(** ** [get_bmi_category]: the order of the categories *)

(** [<] on doubles is the lexicographic order of their keys. *)
Lemma ltb_order_key (x y : float) :
  Float.ltb x y = true <->
  exists a b, order_key x = Some a /\ order_key y = Some b /\ lex_lt a b.
Proof.
  assert (Hcont : forall p q, Pos.compare_cont Eq p q = Pos.compare p q) by reflexivity.
  unfold Float.ltb, SFltb, SFcompare, lex_lt.
  destruct x as [sx | [] | | [] mx ex], y as [sy | [] | | [] my ey];
    cbn [order_key].
  all: try rewrite Hcont.
  all: try (destruct (Z.compare_spec ex ey) as [He | He | He]).
  all: try (destruct (Pos.compare_spec mx my) as [Hm | Hm | Hm]).
  all: cbn [CompOpp].
  all: split.
  all: try (intros H;
            first [discriminate H
                  | do 2 eexists;
                    split; [reflexivity | split; [reflexivity | cbn [fst snd]; lia]]]).
  all: intros (a & b & Ha & Hb & H).
  all: first [discriminate Ha | discriminate Hb
             | injection Ha as <-; injection Hb as <-; cbn [fst snd] in H;
               first [reflexivity | lia]].
Qed.

Lemma ltb_trans (x y z : float) :
  Float.ltb x y = true -> Float.ltb y z = true -> Float.ltb x z = true.
Proof.
  rewrite !ltb_order_key.
  intros (a & b & Ha & Hb & Hab) (b' & c & Hb' & Hc & Hbc).
  assert (b' = b) as -> by congruence.
  exists a, c. split; [exact Ha | ]. split; [exact Hc | ].
  unfold lex_lt in *. lia.
Qed.

(** X3. A larger BMI never gets a lighter category, and a BMI that is NaN,
    which is below no bound, is called Obese. *)
Theorem bmi_category_monotone :
  (forall bmi bmi', Float.ltb bmi bmi' = true ->
     (category_rank (get_bmi_category bmi).1 <= category_rank (get_bmi_category bmi').1)%nat)
  /\ (get_bmi_category S754_nan).1 = "Obese".
Proof.
  split; [ | reflexivity].
  intros bmi bmi' Hlt. unfold get_bmi_category.
  destruct (Float.ltb bmi' (Float.lit 185 1)) eqn:H1.
  { rewrite (ltb_trans _ _ _ Hlt H1). cbn. lia. }
  destruct (Float.ltb bmi' (Float.of_Z 25)) eqn:H2.
  { pose proof (ltb_trans _ _ _ Hlt H2) as H2'.
    destruct (Float.ltb bmi (Float.lit 185 1)); [cbn; lia | ]. rewrite H2'. cbn. lia. }
  destruct (Float.ltb bmi' (Float.of_Z 30)) eqn:H3.
  { pose proof (ltb_trans _ _ _ Hlt H3) as H3'.
    destruct (Float.ltb bmi (Float.lit 185 1)); [cbn; lia | ].
    destruct (Float.ltb bmi (Float.of_Z 25)); [cbn; lia | ]. rewrite H3'. cbn. lia. }
  destruct (Float.ltb bmi (Float.lit 185 1)); [cbn; lia | ].
  destruct (Float.ltb bmi (Float.of_Z 25)); [cbn; lia | ].
  destruct (Float.ltb bmi (Float.of_Z 30)); cbn; lia.
Qed.

(** ** Quotients of normal doubles *)

Lemma nearest_even_ge (p q c : Z) : 0 < q -> c * q <= p -> c <= Float.nearest_even p q.
Proof.
  intros Hq Hp. rewrite <- (nearest_even_exact c q Hq).
  apply nearest_even_mono; [exact Hq | exact Hq | ].
  apply Z.mul_le_mono_nonneg_r; lia.
Qed.

(** The quotient of two normal doubles, away from overflow and underflow,
    is a normal double. *)
Lemma div_normal (sx sy : bool) (mx my : positive) (ex ey : Z) :
  2 ^ 52 <= Zpos mx < 2 ^ 53 -> 2 ^ 52 <= Zpos my < 2 ^ 53 ->
  -1074 <= ex - ey - 53 -> ex - ey - 51 <= 971 ->
  exists m e,
    Float.div (S754_finite sx mx ex) (S754_finite sy my ey) = S754_finite (xorb sx sy) m e
    /\ 2 ^ 52 <= Zpos m < 2 ^ 53 /\ ex - ey - 53 <= e <= ex - ey - 51.
Proof.
  intros Hmx Hmy Hlo Hhi.
  unfold Float.div, Float.rnd, Float.ilog2_ratio.
  rewrite (log2_normal _ Hmx), (log2_normal _ Hmy).
  change (52 - 52) with 0. cbn [Z.leb Z.compare]. change (2 ^ 0) with 1. rewrite Z.mul_1_r.
  unfold Float.prec, Float.emax.
  change (53 - 1) with 52. change (3 - 1024 - 53) with (-1074). change (1024 - 53) with 971.
  change (2 ^ 53) with 9007199254740992 in *. change (2 ^ 52) with 4503599627370496 in *.
  destruct (Z.leb_spec (Z.pos my) (Z.pos mx)) as [Hge | Hlt].
  - rewrite Z.max_l by lia.
    replace (ex - ey - (0 + (ex - ey) - 52)) with 52 by lia.
    cbn [Z.leb Z.compare].
    assert (Hq : 4503599627370496
                 <= Float.nearest_even (Z.pos mx * 2 ^ 52) (Z.pos my)
                 <= 9007199254740992).
    { change (2 ^ 52) with 4503599627370496.
      split; [apply nearest_even_ge; lia | apply nearest_even_le; lia]. }
    set (q := Float.nearest_even (Z.pos mx * 2 ^ 52) (Z.pos my)) in *.
    destruct (Z.eqb_spec q 9007199254740992) as [Htop | Hin].
    + destruct (Z.leb_spec (0 + (ex - ey) - 52 + 1) 971); [ | lia].
      do 2 eexists. split; [reflexivity | ]. split; [cbn; lia | lia].
    + destruct q as [ | q' | q']; try lia.
      destruct (Z.leb_spec (0 + (ex - ey) - 52) 971); [ | lia].
      do 2 eexists. split; [reflexivity | ]. split; lia.
  - rewrite Z.max_l by lia.
    replace (ex - ey - (0 - 1 + (ex - ey) - 52)) with 53 by lia.
    cbn [Z.leb Z.compare].
    assert (Hq : 4503599627370496
                 <= Float.nearest_even (Z.pos mx * 2 ^ 53) (Z.pos my)
                 <= 9007199254740992).
    { change (2 ^ 53) with 9007199254740992.
      split; [apply nearest_even_ge; lia | apply nearest_even_le; lia]. }
    set (q := Float.nearest_even (Z.pos mx * 2 ^ 53) (Z.pos my)) in *.
    destruct (Z.eqb_spec q 9007199254740992) as [Htop | Hin].
    + destruct (Z.leb_spec (0 - 1 + (ex - ey) - 52 + 1) 971); [ | lia].
      do 2 eexists. split; [reflexivity | ]. split; [cbn; lia | lia].
    + destruct q as [ | q' | q']; try lia.
      destruct (Z.leb_spec (0 - 1 + (ex - ey) - 52) 971); [ | lia].
      do 2 eexists. split; [reflexivity | ]. split; lia.
Qed.

(** [float(z)] for a nonzero int within the doubles: a normal double whose
    exponent follows the size of [z]. *)
Lemma of_Z_normal_size (z : Z) :
  z <> 0 -> Z.abs z <= max_double ->
  exists m e, Float.of_Z z = S754_finite (z <? 0) m e
              /\ 2 ^ 52 <= Zpos m < 2 ^ 53
              /\ Z.log2 (Z.abs z) - 52 <= e <= Z.log2 (Z.abs z) - 51.
Proof.
  intros Hz Hmax.
  assert (Hp : 0 < Z.abs z) by lia.
  pose proof (norm53_mantissa _ Hp) as Hm.
  pose proof (norm53_top _ Hp Hmax) as Htop.
  pose proof (norm53_exponent (Z.abs z)) as Hexp.
  pose proof (Z.log2_nonneg (Z.abs z)) as Hl.
  exists (Z.to_pos (norm53 (Z.abs z)).1), ((norm53 (Z.abs z)).2 + 0).
  split; [ | rewrite Z2Pos.id by lia; lia].
  assert (Hrnd : forall s, Float.rnd s (Z.abs z) 1 0
                           = S754_finite s (Z.to_pos (norm53 (Z.abs z)).1)
                                         ((norm53 (Z.abs z)).2 + 0))
    by (intros s; apply rnd_one; lia).
  unfold Float.of_Z, Float.of_dyadic.
  destruct z as [ | p | p]; [congruence | exact (Hrnd false) | exact (Hrnd true)].
Qed.

(** ** The BMI calculator *)

(** [calculate_bmi] on a float weight and a normal float height of
    moderate size returns. *)
Lemma calculate_bmi_normal {libm : Float.Libm} (w : float) (s : bool) (m : positive)
    (e : Z) :
  pow_accurate libm ->
  2 ^ 52 <= Zpos m < 2 ^ 53 -> -400 <= e <= 400 ->
  exists bmi, calculate_bmi (PFloat w) (PFloat (S754_finite s m e)) = Ok bmi.
Proof.
  intros Hacc Hm He. unfold calculate_bmi, div_by_int, Float.truediv. rewrite hundred.
  cbn [Float.is_zero mbind result_bind].
  destruct (div_normal s false m 7036874417766400 e (-46) Hm ltac:(cbn; lia)
              ltac:(lia) ltac:(lia)) as (m1 & e1 & -> & Hm1 & He1).
  destruct (pow2_accurate (xorb s false) m1 e1 Hacc Hm1 ltac:(lia))
    as (m2 & e2 & -> & _).
  cbn [to_double Float.is_zero mbind result_bind]. eexists. reflexivity.
Qed.

Lemma squarable_float (parse_float : string -> result float) (height : pyval) :
  squarable height ->
  exists s m e, py_float parse_float height = Ok (S754_finite s m e)
                /\ 2 ^ 52 <= Zpos m < 2 ^ 53 /\ -400 <= e <= 400.
Proof.
  destruct height as [ | | z | x | | | ]; cbn [squarable]; try contradiction.
  - intros [Hz Hsize].
    assert (Hlog : Z.log2 (Z.abs z) < 400) by (apply Z.log2_lt_pow2; lia).
    pose proof (Z.log2_nonneg (Z.abs z)) as Hlog0.
    assert (Hmax : Z.abs z <= max_double).
    { pose proof max_double_pos as H.
      assert (2 ^ 400 <= 2 ^ 1023) by (apply Z.pow_le_mono_r; lia).
      unfold max_double in *.
      assert (2 ^ 1023 <= (2 ^ 53 - 1) * 2 ^ 971).
      { change (2 ^ 1023) with (2 ^ 52 * 2 ^ 971).
        apply Z.mul_le_mono_nonneg_r; [apply Z.pow_nonneg; lia | ].
        change (2 ^ 53) with 9007199254740992. change (2 ^ 52) with 4503599627370496. lia. }
      lia. }
    destruct (of_Z_normal_size z Hz Hmax) as (m & e & Hof & Hm & He).
    exists (z <? 0), m, e. cbn [py_float]. unfold int_to_double. rewrite Hof.
    split; [reflexivity | ]. split; [exact Hm | lia].
  - destruct x as [ | | | s m e]; try contradiction.
    intros [Hm He]. exists s, m, e. cbn [py_float]. auto.
Qed.

(** X16. The calculator answers 200 for every weight [float] accepts and every
    squarable height; the BMI is that of the method [calculate_bmi] on the
    two floats, and the category and the advice are a row of the table. *)
Theorem bmi_calculator_accepts {libm : Float.Libm} (parse_float : string -> result float)
    (data weight_field height_field : pyval) (weight : float) :
  getitem data "weight" = Ok weight_field ->
  py_float parse_float weight_field = Ok weight ->
  getitem data "height" = Ok height_field ->
  squarable height_field ->
  pow_accurate libm ->
  exists height bmi,
    py_float parse_float height_field = Ok height
    /\ calculate_bmi (PFloat weight) (PFloat height) = Ok bmi
    /\ Route.calculate_bmi parse_float data
       = {| bmi_status := 200;
            bmi_payload := BmiResult true bmi (get_bmi_category bmi).1
                                     (get_bmi_category bmi).2 |}
    /\ get_bmi_category bmi ∈ category_advice.
Proof.
  intros Hwf Hw Hhf Hsq Hacc.
  destruct (squarable_float parse_float _ Hsq) as (s & m & e & Hh & Hm & He).
  destruct (calculate_bmi_normal weight s m e Hacc Hm He) as [bmi Hbmi].
  exists (S754_finite s m e), bmi.
  split; [exact Hh | ]. split; [exact Hbmi | ].
  split; [ | apply get_bmi_category_table].
  unfold Route.calculate_bmi. rewrite Hwf. cbn [mbind result_bind].
  rewrite Hw. cbn [mbind result_bind]. rewrite Hhf. cbn [mbind result_bind].
  rewrite Hh. cbn [mbind result_bind]. rewrite Hbmi. cbn [mbind result_bind].
  destruct (get_bmi_category bmi). reflexivity.
Qed.

Lemma bmi_calculator_accepts_witness :
  exists height bmi,
    py_float (fun _ => Raise ValueError) (PInt 175) = Ok height
    /\ calculate_bmi (libm := exact_libm) (PFloat (Float.of_Z 70)) (PFloat height) = Ok bmi
    /\ Route.calculate_bmi (libm := exact_libm) (fun _ => Raise ValueError) example_profile
       = {| bmi_status := 200;
            bmi_payload := BmiResult true bmi (get_bmi_category bmi).1
                                     (get_bmi_category bmi).2 |}
    /\ get_bmi_category bmi ∈ category_advice.
Proof.
  assert (Hw : py_float (fun _ => Raise ValueError) (PInt 70) = Ok (Float.of_Z 70))
    by (vm_compute; reflexivity).
  assert (Hsq : squarable (PInt 175)).
  { split; [discriminate | ].
    apply Z.log2_lt_pow2; [reflexivity | ]. vm_compute. reflexivity. }
  exact (bmi_calculator_accepts (fun _ => Raise ValueError) example_profile
           (PInt 70) (PInt 175) (Float.of_Z 70) eq_refl Hw eq_refl Hsq
           exact_libm_accurate).
Defined.

(** X17. The calculator answers 200 or 400 and nothing else, and 400 with the
    one body [{error: "Invalid input data", success: false}] whenever the
    body is not an object, lacks the weight or the height, holds one that
    [float] refuses, or has a height of zero. *)
Theorem bmi_calculator_rejects {libm : Float.Libm} (parse_float : string -> result float) (data : pyval) :
  (bmi_status (Route.calculate_bmi parse_float data) = 200
   \/ Route.calculate_bmi parse_float data = invalid_input)
  /\ ((forall d, data <> PDict d) -> Route.calculate_bmi parse_float data = invalid_input)
  /\ (getitem data "weight" = Raise KeyError ->
      Route.calculate_bmi parse_float data = invalid_input)
  /\ (getitem data "height" = Raise KeyError ->
      Route.calculate_bmi parse_float data = invalid_input)
  /\ (forall field v e,
        (field = "weight" \/ field = "height") ->
        getitem data field = Ok v -> py_float parse_float v = Raise e ->
        Route.calculate_bmi parse_float data = invalid_input)
  /\ (forall v s,
        getitem data "height" = Ok v -> py_float parse_float v = Ok (S754_zero s) ->
        Route.calculate_bmi parse_float data = invalid_input).
Proof.
  unfold Route.calculate_bmi, invalid_input.
  split.
  { destruct (_ ≫= _) as [[bmi [category advice]] | e]; [left | right]; reflexivity. }
  split.
  { intros Hnot. destruct data as [ | | | | | | d]; try reflexivity.
    exfalso. exact (Hnot d eq_refl). }
  split; [intros ->; reflexivity | ].
  split.
  { intros Hh.
    destruct (getitem data "weight") as [wf | ]; cbn [mbind result_bind]; [ | reflexivity].
    destruct (py_float parse_float wf) as [w | ]; cbn [mbind result_bind]; [ | reflexivity].
    rewrite Hh. reflexivity. }
  split.
  { intros field v e [-> | ->] Hget Hconv.
    - rewrite Hget. cbn [mbind result_bind]. rewrite Hconv. reflexivity.
    - destruct (getitem data "weight") as [wf | ]; cbn [mbind result_bind]; [ | reflexivity].
      destruct (py_float parse_float wf) as [w | ]; cbn [mbind result_bind];
        [ | reflexivity].
      rewrite Hget. cbn [mbind result_bind]. rewrite Hconv. reflexivity. }
  intros v s Hget Hzero.
  destruct (getitem data "weight") as [wf | ]; cbn [mbind result_bind]; [ | reflexivity].
  destruct (py_float parse_float wf) as [w | ]; cbn [mbind result_bind]; [ | reflexivity].
  rewrite Hget. cbn [mbind result_bind]. rewrite Hzero. cbn [mbind result_bind].
  unfold calculate_bmi, div_by_int, Float.truediv. rewrite hundred.
  cbn [Float.is_zero mbind result_bind Float.div SFdiv Float.pow2 to_double].
  reflexivity.
Qed.

(** ** Rounding a ratio does not depend on how it is written *)

Lemma leb_scale (y x c : Z) : 0 < c -> (y * c <=? x * c) = (y <=? x).
Proof.
  intros Hc. destruct (Z.leb_spec y x) as [H | H].
  - apply Z.leb_le. apply Z.mul_le_mono_nonneg_r; lia.
  - apply Z.leb_gt. apply Z.mul_lt_mono_pos_r; lia.
Qed.

(** [y * 2^k <= x] for an exponent of either sign, over a common shift. *)
Lemma scaled_le_shift (y x k N : Z) :
  0 <= N -> 0 <= k + N ->
  (if 0 <=? k then y * 2 ^ k <=? x else y <=? x * 2 ^ (- k))
  = (y * 2 ^ (k + N) <=? x * 2 ^ N).
Proof.
  intros HN HkN. destruct (Z.leb_spec 0 k) as [Hk | Hk].
  - rewrite Z.pow_add_r by lia. rewrite Z.mul_assoc.
    symmetry. apply leb_scale. apply Z.pow_pos_nonneg; lia.
  - replace N with (- k + (k + N)) at 2 by lia.
    rewrite (Z.pow_add_r 2 (- k) (k + N)) by lia. rewrite Z.mul_assoc.
    symmetry. apply leb_scale. apply Z.pow_pos_nonneg; lia.
Qed.

Lemma nearest_scaled_shift (p q t N : Z) :
  0 < q -> 0 <= N -> 0 <= t + N ->
  (if 0 <=? t then Float.nearest_even (p * 2 ^ t) q
   else Float.nearest_even p (q * 2 ^ (- t)))
  = Float.nearest_even (p * 2 ^ (t + N)) (q * 2 ^ N).
Proof.
  intros Hq HN HtN. destruct (Z.leb_spec 0 t) as [Ht | Ht].
  - rewrite Z.pow_add_r by lia. rewrite Z.mul_assoc.
    symmetry. apply nearest_even_scale; [exact Hq | apply Z.pow_pos_nonneg; lia].
  - replace N with (- t + (t + N)) at 2 by lia.
    rewrite (Z.pow_add_r 2 (- t) (t + N)) by lia. rewrite Z.mul_assoc.
    symmetry. apply nearest_even_scale;
      [apply Z.mul_pos_pos; [exact Hq | ] | ]; apply Z.pow_pos_nonneg; lia.
Qed.

Lemma pow2_merge (x a b : Z) : 0 <= a -> 0 <= b -> x * 2 ^ a * 2 ^ b = x * 2 ^ (a + b).
Proof. intros Ha Hb. rewrite Z.pow_add_r by lia. lia. Qed.

Lemma ilog2_ratio_scale (p q a b : Z) :
  0 < p -> 0 < q -> 0 <= a -> 0 <= b ->
  Float.ilog2_ratio (p * 2 ^ a) (q * 2 ^ b) = Float.ilog2_ratio p q + a - b.
Proof.
  intros Hp Hq Ha Hb. unfold Float.ilog2_ratio.
  rewrite !Z.log2_mul_pow2 by lia.
  set (l := Z.log2 p - Z.log2 q).
  replace (a + Z.log2 p - (b + Z.log2 q)) with (l + a - b) by (unfold l; lia).
  set (N' := Z.abs (l + a - b)).
  rewrite (scaled_le_shift (q * 2 ^ b) (p * 2 ^ a) (l + a - b) N') by (unfold N'; lia).
  rewrite (scaled_le_shift q p l (a + N')) by (unfold N'; lia).
  rewrite !pow2_merge by (unfold N'; lia).
  replace (b + (l + a - b + N')) with (l + (a + N')) by lia.
  destruct (q * 2 ^ (l + (a + N')) <=? p * 2 ^ (a + N')); lia.
Qed.

Lemma rnd_scale (s : bool) (p q e a b : Z) :
  0 < p -> 0 < q -> 0 <= a -> 0 <= b ->
  Float.rnd s (p * 2 ^ a) (q * 2 ^ b) (e - a + b) = Float.rnd s p q e.
Proof.
  intros Hp Hq Ha Hb. unfold Float.rnd. cbv zeta.
  rewrite ilog2_ratio_scale by assumption.
  replace (Float.ilog2_ratio p q + a - b + (e - a + b) - (Float.prec - 1))
    with (Float.ilog2_ratio p q + e - (Float.prec - 1)) by lia.
  set (u := Z.max (Float.ilog2_ratio p q + e - (Float.prec - 1))
                  (3 - Float.emax - Float.prec)).
  set (t' := e - a + b - u). set (t := e - u).
  set (N' := Z.abs t').
  assert (H2b : 0 < 2 ^ b) by (apply Z.pow_pos_nonneg; lia).
  rewrite (nearest_scaled_shift (p * 2 ^ a) (q * 2 ^ b) t' N')
    by (try apply Z.mul_pos_pos; unfold N'; lia).
  rewrite (nearest_scaled_shift p q t (b + N')) by (unfold N'; lia).
  rewrite !pow2_merge by (unfold N'; lia).
  replace (a + (t' + N')) with (t + (b + N')) by (unfold t, t'; lia).
  reflexivity.
Qed.

(** [z / 100] on an int of at most 53 bits is [float(z) / 100.0]. *)
Lemma int_truediv_hundred (z : Z) :
  Z.abs z < 2 ^ 53 ->
  int_truediv z 100 = Float.truediv (Float.of_Z z) (Float.of_Z 100).
Proof.
  intros Hz. destruct (Z.eq_dec z 0) as [-> | Hnz]; [vm_compute; reflexivity | ].
  pose proof (of_Z_value z Hnz Hz) as Hof.
  assert (Hl : 0 <= Z.log2 (Z.abs z) < 53)
    by (split; [apply Z.log2_nonneg | apply Z.log2_lt_pow2; lia]).
  set (L := Z.log2 (Z.abs z)) in *.
  assert (Hm : 2 ^ 52 <= Z.abs z * 2 ^ (52 - L) < 2 ^ 53).
  { pose proof (log2_bounds (Z.abs z) ltac:(lia)) as Hb. fold L in Hb.
    assert (Hsplit : 2 ^ 52 = 2 ^ L * 2 ^ (52 - L)).
    { rewrite <- Z.pow_add_r by lia. f_equal. lia. }
    assert (HT : 0 < 2 ^ (52 - L)) by (apply Z.pow_pos_nonneg; lia).
    change (2 ^ 53) with (2 * 2 ^ 52). rewrite Hsplit.
    split; [apply Z.mul_le_mono_nonneg_r; lia | ].
    rewrite Z.mul_assoc. apply Z.mul_lt_mono_pos_r; lia. }
  assert (Hratio : Float.ratio z 100
                   = Float.div (Float.of_Z z) (Float.of_Z 100)).
  { rewrite Hof, hundred. unfold Float.div, Float.ratio.
    rewrite Z2Pos.id by lia.
    change (Z.pos 7036874417766400) with (100 * 2 ^ 46).
    replace (L - 52 - -46) with (0 - (52 - L) + 46) by lia.
    rewrite rnd_scale by lia.
    destruct z as [ | pz | pz]; [congruence | reflexivity | reflexivity]. }
  unfold int_truediv, Float.truediv. rewrite Hratio.
  rewrite hundred at 1. cbn [Z.eqb Float.is_zero].
  rewrite Hof, hundred.
  destruct (div_normal (z <? 0) false (Z.to_pos (Z.abs z * 2 ^ (52 - L))) 7036874417766400
              (L - 52) (-46) ltac:(rewrite Z2Pos.id by lia; exact Hm) ltac:(cbn; lia)
              ltac:(lia) ltac:(lia)) as (m & e & -> & _ & _).
  reflexivity.
Qed.

(** ** The two routes on the same body *)

Lemma compute_metrics_parts {libm : Float.Libm} (user_data : pyval) (bmr : Z) (bmi : float)
    (bmi_category : string) (daily_calories : Z) :
  compute_metrics user_data = Ok (bmr, bmi, bmi_category, daily_calories) ->
  exists weight height age gender,
    getitem user_data "weight" = Ok weight /\ getitem user_data "height" = Ok height
    /\ calculate_bmr weight height age gender = Ok bmr
    /\ calculate_bmi weight height = Ok bmi
    /\ bmi_category = (get_bmi_category bmi).1.
Proof.
  unfold compute_metrics.
  destruct (getitem user_data "weight") as [weight | ];
    cbn [mbind result_bind]; [ | discriminate].
  destruct (getitem user_data "height") as [height | ];
    cbn [mbind result_bind]; [ | discriminate].
  destruct (getitem user_data "age") as [age | ];
    cbn [mbind result_bind]; [ | discriminate].
  destruct (getitem user_data "gender") as [gender | ];
    cbn [mbind result_bind]; [ | discriminate].
  destruct (calculate_bmr weight height age gender) as [b | ] eqn:Hbmr;
    cbn [mbind result_bind]; [ | discriminate].
  destruct (calculate_bmi weight height) as [i | ] eqn:Hbmi;
    cbn [mbind result_bind]; [ | discriminate].
  destruct (get_bmi_category i) as [category advice] eqn:Hcat.
  destruct (rounded_share b (Float.lit 15 1)) as [dc | ];
    cbn [mbind result_bind]; [ | discriminate].
  intros [= <- <- <- <-]. exists weight, height, age, gender.
  rewrite Hcat. auto.
Qed.

(** On a number, [float] is the conversion the operators make. *)
Lemma finite_number_float (parse_float : string -> result float) (v : pyval) :
  finite_number v = true ->
  exists x, to_double v = Ok x /\ py_float parse_float v = Ok x.
Proof.
  unfold finite_number. destruct v as [ | b | z | x | t | l | d]; cbn [to_double py_float];
    try discriminate; [eauto | | eauto].
  destruct (int_to_double z) as [x | ]; [eauto | discriminate].
Qed.

(** [calculate_bmi] on numbers is [calculate_bmi] on their doubles, for an
    int height of at most 53 bits. *)
Lemma calculate_bmi_as_floats {libm : Float.Libm} (weight height : pyval) (w h : float) :
  to_double weight = Ok w -> to_double height = Ok h ->
  (forall z, height = PInt z -> Z.abs z < 2 ^ 53) ->
  calculate_bmi weight height = calculate_bmi (PFloat w) (PFloat h).
Proof.
  intros Hw Hh Hsmall. unfold calculate_bmi. cbn [to_double]. rewrite Hw.
  assert (Hdiv : div_by_int height 100 = div_by_int (PFloat h) 100).
  { destruct height as [ | b | z | x | t | l | d]; cbn [to_double] in Hh; try discriminate.
    - injection Hh as <-. cbn [div_by_int]. apply int_truediv_hundred.
      destruct b; vm_compute; reflexivity.
    - unfold int_to_double in Hh. cbn [div_by_int].
      rewrite (int_truediv_hundred z (Hsmall z eq_refl)).
      destruct (Float.of_Z z); congruence.
    - congruence. }
  rewrite Hdiv. reflexivity.
Qed.

(** X18. The BMI and the category of a diet plan are the ones the calculator
    answers for the same body, the height being a float, a bool or an int
    of at most 53 bits. *)
Theorem calculator_agrees_with_plan {libm : Float.Libm} (parse_float : string -> result float)
    (user_data height : pyval) (bmr : Z) (bmi : float) (bmi_category : string)
    (daily_calories : Z) :
  compute_metrics user_data = Ok (bmr, bmi, bmi_category, daily_calories) ->
  getitem user_data "height" = Ok height ->
  (forall z, height = PInt z -> Z.abs z < 2 ^ 53) ->
  Route.calculate_bmi parse_float user_data
  = {| bmi_status := 200;
       bmi_payload := BmiResult true bmi bmi_category (get_bmi_category bmi).2 |}.
Proof.
  intros Hmetrics Hheight Hsmall.
  destruct (compute_metrics_parts _ _ _ _ _ Hmetrics)
    as (weight & height' & age & gender & Hw & Hh & Hbmr & Hbmi & ->).
  assert (height' = height) as -> by congruence.
  destruct (calculate_bmr_numbers _ _ _ _ _ Hbmr) as (Hfw & Hfh & _).
  destruct (finite_number_float parse_float _ Hfw) as (w & Hdw & Hpw).
  destruct (finite_number_float parse_float _ Hfh) as (h & Hdh & Hph).
  rewrite (calculate_bmi_as_floats _ _ _ _ Hdw Hdh Hsmall) in Hbmi.
  unfold Route.calculate_bmi. rewrite Hw. cbn [mbind result_bind].
  rewrite Hpw. cbn [mbind result_bind]. rewrite Hh. cbn [mbind result_bind].
  rewrite Hph. cbn [mbind result_bind]. rewrite Hbmi. cbn [mbind result_bind].
  destruct (get_bmi_category bmi). reflexivity.
Qed.

Lemma calculator_agrees_with_plan_witness :
  Route.calculate_bmi (libm := exact_libm) (fun _ => Raise ValueError) example_profile
  = {| bmi_status := 200;
       bmi_payload := BmiResult true (Float.lit 229 1) "Normal Weight"
                                (get_bmi_category (Float.lit 229 1)).2 |}.
Proof.
  assert (Hmetrics : compute_metrics (libm := exact_libm) example_profile
                     = Ok (1696, Float.lit 229 1, "Normal Weight", 2544))
    by (vm_compute; reflexivity).
  assert (Hsmall : forall z, PInt 175 = PInt z -> Z.abs z < 2 ^ 53)
    by (intros z [= <-]; reflexivity).
  exact (calculator_agrees_with_plan (fun _ => Raise ValueError) example_profile
           (PInt 175) _ _ _ _ Hmetrics eq_refl Hsmall).
Defined.

(** ** A height of zero *)

Lemma calculate_bmi_zero {libm : Float.Libm} (weight height : pyval) :
  is_zero_number height = true ->
  exists e, calculate_bmi weight height = Raise e
            /\ (forall x, to_double weight = Ok x -> e = ZeroDivisionError).
Proof.
  intros Hzero. unfold calculate_bmi.
  assert (Hdiv : exists s, div_by_int height 100 = Ok (S754_zero s)).
  { destruct height as [ | [] | [ | | ] | [s | | | ] | | | ]; try discriminate Hzero.
    - exists false. vm_compute. reflexivity.
    - exists false. vm_compute. reflexivity.
    - exists s. cbn [div_by_int]. unfold Float.truediv. rewrite hundred.
      cbn. destruct s; reflexivity. }
  destruct Hdiv as [s ->]. cbn [mbind result_bind Float.pow2].
  destruct (to_double weight) as [x | e]; cbn [mbind result_bind].
  - exists ZeroDivisionError. split; [reflexivity | auto].
  - exists e. split; [reflexivity | discriminate].
Qed.

(** X2. A height of zero ([0], [0.0], [-0.0] or [False]) makes the method
    [calculate_bmi] divide by zero, so the metrics of such a body are never
    computed and the diet-plan endpoint answers it with an error body (400
    when a field is missing, 500 otherwise), posting and drawing nothing. *)
Theorem zero_height_fails {libm : Float.Libm} (parse_int : string -> result Z) (format : pyval -> string)
    (user_data height : pyval) (w : world) :
  getitem user_data "height" = Ok height ->
  is_zero_number height = true ->
  (forall weight x, to_double weight = Ok x ->
     calculate_bmi weight height = Raise ZeroDivisionError)
  /\ (exists e, compute_metrics user_data = Raise e)
  /\ (generate_diet_plan parse_int format user_data w).2 = w
  /\ exists error,
       payload (generate_diet_plan parse_int format user_data w).1
       = ErrorBody error false.
Proof.
  intros Hheight Hzero.
  assert (Hmetrics : exists e, compute_metrics user_data = Raise e).
  { unfold compute_metrics. rewrite Hheight.
    destruct (getitem user_data "weight") as [weight | ];
      cbn [mbind result_bind]; [ | eauto].
    destruct (getitem user_data "age") as [age | ]; cbn [mbind result_bind]; [ | eauto].
    destruct (getitem user_data "gender") as [gender | ];
      cbn [mbind result_bind]; [ | eauto].
    destruct (calculate_bmr weight height age gender); cbn [mbind result_bind]; [ | eauto].
    destruct (calculate_bmi_zero weight height Hzero) as (e & -> & _).
    cbn [mbind result_bind]. eauto. }
  split.
  { intros weight x Hx. destruct (calculate_bmi_zero weight height Hzero) as (e & -> & He).
    rewrite (He x Hx). reflexivity. }
  split; [exact Hmetrics | ].
  destruct Hmetrics as [e He].
  unfold generate_diet_plan, generate_ai_diet_plan. rewrite He.
  destruct (first_missing required_fields user_data) as [[field | ] | e'];
    cbn [lift fst snd payload internal_error]; eauto.
Qed.

Lemma zero_height_fails_witness :
  calculate_bmi (libm := exact_libm) (PInt 70) (PInt 0) = Raise ZeroDivisionError.
Proof.
  assert (Hheight : getitem (PDict (list_to_map [ ("height", PInt 0) ])) "height"
                    = Ok (PInt 0))
    by (vm_compute; reflexivity).
  assert (Hweight : to_double (PInt 70) = Ok (Float.of_Z 70)) by (vm_compute; reflexivity).
  exact (proj1 (zero_height_fails no_parse text_only _ (PInt 0)
                  (world_of S ConnectionFailed) Hheight eq_refl)
               (PInt 70) (Float.of_Z 70) Hweight).
Defined.

(** ** Fields that are not numbers *)

(** X10. A body that passes the validation but whose weight, height or age is
    not a finite number (a numeric string, say, or [null]), or whose gender
    is not a string, is answered 500 by the diet-plan endpoint, with
    nothing posted or drawn. *)
Theorem non_numeric_fields_fail {libm : Float.Libm} (parse_int : string -> result Z)
    (format : pyval -> string) (user_data : pyval) (w : world) (field : string)
    (value : pyval) :
  first_missing required_fields user_data = Ok None ->
  getitem user_data field = Ok value ->
  (field ∈ ["weight"; "height"; "age"] /\ finite_number value = false)
  \/ (field = "gender" /\ forall g, value <> PStr g) ->
  generate_diet_plan parse_int format user_data w = (internal_error, w).
Proof.
  intros Hvalid Hfield Hbad.
  assert (Hmetrics : exists e, compute_metrics user_data = Raise e).
  { unfold compute_metrics.
    destruct (getitem user_data "weight") as [weight | ] eqn:Hw;
      cbn [mbind result_bind]; [ | eauto].
    destruct (getitem user_data "height") as [height | ] eqn:Hh;
      cbn [mbind result_bind]; [ | eauto].
    destruct (getitem user_data "age") as [age | ] eqn:Ha;
      cbn [mbind result_bind]; [ | eauto].
    destruct (getitem user_data "gender") as [gender | ] eqn:Hg;
      cbn [mbind result_bind]; [ | eauto].
    destruct (calculate_bmr weight height age gender) as [bmr | ] eqn:Hbmr;
      cbn [mbind result_bind]; [exfalso | eauto].
    destruct (calculate_bmr_numbers _ _ _ _ _ Hbmr) as (Hfw & Hfh & Hfa).
    destruct Hbad as [[Hin Hnot] | [-> Hnot]].
    - repeat (apply elem_of_cons in Hin; destruct Hin as [-> | Hin]; [congruence | ]).
      apply elem_of_nil in Hin. exact Hin.
    - unfold calculate_bmr in Hbmr. assert (gender = value) as -> by congruence.
      destruct value as [ | | | | g | | ]; cbn [str_lower mbind result_bind] in Hbmr;
        try discriminate Hbmr.
      exact (Hnot g eq_refl). }
  destruct Hmetrics as [e He].
  unfold generate_diet_plan, generate_ai_diet_plan. rewrite Hvalid, He. reflexivity.
Qed.

Lemma non_numeric_fields_fail_witness :
  generate_diet_plan (libm := exact_libm) no_parse text_only
    (PDict (list_to_map
       [ ("name", PStr "Ann"); ("age", PInt 30); ("height", PInt 175);
         ("weight", PStr "70"); ("gender", PStr "male");
         ("smoking", PStr "yes"); ("drinking", PStr "no") ]))
    (world_of S ConnectionFailed)
  = (internal_error, world_of S ConnectionFailed).
Proof.
  assert (Hvalid : first_missing required_fields
                     (PDict (list_to_map
                        [ ("name", PStr "Ann"); ("age", PInt 30); ("height", PInt 175);
                          ("weight", PStr "70"); ("gender", PStr "male");
                          ("smoking", PStr "yes"); ("drinking", PStr "no") ]))
                   = Ok None)
    by (vm_compute; reflexivity).
  assert (Hfield : getitem (PDict (list_to_map
                        [ ("name", PStr "Ann"); ("age", PInt 30); ("height", PInt 175);
                          ("weight", PStr "70"); ("gender", PStr "male");
                          ("smoking", PStr "yes"); ("drinking", PStr "no") ])) "weight"
                   = Ok (PStr "70"))
    by (vm_compute; reflexivity).
  apply (non_numeric_fields_fail no_parse text_only _ _ "weight" (PStr "70") Hvalid Hfield).
  left. split; [ | reflexivity]. apply elem_of_cons. left. reflexivity.
Defined.

(** ** The shape of the recommendations *)

(** X15. A list of recommendations has at most five entries and none twice:
    one or two pairs of a warning and its advice, or none, and then at
    most one info entry. *)
Theorem recommendations_shape (parse_int : string -> result Z) (user_data : pyval)
    (recs : list recommendation) :
  get_lifestyle_recommendations parse_int user_data = Ok recs ->
  (length recs <= 5)%nat /\ NoDup recs
  /\ exists pairs info,
       (pairs <= 2)%nat /\ (info <= 1)%nat
       /\ rec_type <$> recs
          = concat (replicate pairs ["warning"; "advice"]) ++ replicate info "info".
Proof.
  unfold get_lifestyle_recommendations.
  destruct (getitem user_data "smoking") as [smoking | ];
    cbn [mbind result_bind]; [ | discriminate].
  destruct (getitem user_data "drinking") as [drinking | ];
    cbn [mbind result_bind]; [ | discriminate].
  destruct (getitem user_data "age") as [age_field | ];
    cbn [mbind result_bind]; [ | discriminate].
  destruct (py_int parse_int age_field) as [age | ];
    cbn [mbind result_bind]; [ | discriminate].
  intros [= <-].
  destruct (py_eq_str smoking "yes"), (py_eq_str drinking "yes"), (age <? 25), (40 <? age);
    cbn [app];
    (split; [cbn [length]; lia | ]);
    (split; [refine (bool_decide_unpack _ _); vm_compute; exact I | ]).
  all: first
    [ exists 2%nat, 1%nat; split; [lia | split; [lia | reflexivity]]
    | exists 2%nat, 0%nat; split; [lia | split; [lia | reflexivity]]
    | exists 1%nat, 1%nat; split; [lia | split; [lia | reflexivity]]
    | exists 1%nat, 0%nat; split; [lia | split; [lia | reflexivity]]
    | exists 0%nat, 1%nat; split; [lia | split; [lia | reflexivity]]
    | exists 0%nat, 0%nat; split; [lia | split; [lia | reflexivity]] ].
Qed.

Lemma recommendations_shape_witness :
  (length [smoking_warning; smoking_advice] <= 5)%nat
  /\ NoDup [smoking_warning; smoking_advice]
  /\ exists pairs info,
       (pairs <= 2)%nat /\ (info <= 1)%nat
       /\ rec_type <$> [smoking_warning; smoking_advice]
          = concat (replicate pairs ["warning"; "advice"]) ++ replicate info "info".
Proof.
  assert (H : get_lifestyle_recommendations no_parse example_profile
              = Ok [smoking_warning; smoking_advice])
    by (vm_compute; reflexivity).
  exact (recommendations_shape no_parse example_profile _ H).
Defined.
